(** * Schools.by scraping client: a shallow embedding of [schools_api.py]

    The development follows the layout of the Python module.  [Py] holds the
    fragment of Python that the client relies on (text operations, dynamic
    values, exceptions), [Bs4] the document tree that BeautifulSoup hands to
    the client together with the searches the client runs on it, and
    [SchoolsAPI] the methods of the class of the same name.  [Spec] holds
    the notions in which the properties are stated and [Fixture] a closed
    world for the examples; the properties follow, one section per
    component of the client.  [Endpoints] holds the remaining methods of
    the client, and [Bot] the handlers of the Telegram bot of [bot.py]
    that keep the sessions of the users and call the client.

    The libraries the client calls (the HTML parser, the JSON decoder,
    [urljoin], the exchanges of httpx with the site and its jar of
    cookies) are the fields of the class [Collaborators], over which the
    methods are defined: every theorem holds whatever these collaborators
    answer.  Two things that the behaviour of the client depends on are
    written out instead: the way an httpx client follows redirections,
    which [__aenter__] asks for and the probe of the endpoints declines,
    and the search of the two regular expressions of [get_csrf_token]. *)

From Stdlib Require Import ZArith Lia Ascii String DecimalString.
From stdpp Require Import base option list strings gmap.

#[local] Open Scope Z_scope.
#[local] Set Warnings "-register-all".

(** ** The fragment of Python used by the client *)
Module Py.

(** *** Text

    A character is a code point below 256; [str.lower] and [str.isspace]
    are those of Python on that range. *)

Definition lower_char (c : ascii) : ascii :=
  let n := N_of_ascii c in
  if ((65 <=? n) && (n <=? 90) ||
      (192 <=? n) && (n <=? 222) && negb (n =? 215))%N
  then ascii_of_N (n + 32) else c.

Fixpoint lower (s : string) : string :=
  match s with
  | EmptyString => EmptyString
  | String c s' => String (lower_char c) (lower s')
  end.

Definition isspace (c : ascii) : bool :=
  let n := N_of_ascii c in
  ((9 <=? n) && (n <=? 13) || (28 <=? n) && (n <=? 32) ||
   (n =? 133) || (n =? 160))%N.

(** [s.startswith(p)] *)
Definition startswith (p s : string) : bool := String.prefix p s.

(** [sub in s] *)
Fixpoint contains (sub s : string) : bool :=
  if String.prefix sub s then true
  else match s with
       | EmptyString => false
       | String _ s' => contains sub s'
       end.

(** [s.find(sub)], counted from offset [i] *)
Fixpoint find_from (sub s : string) (i : Z) : Z :=
  if String.prefix sub s then i
  else match s with
       | EmptyString => -1
       | String _ s' => find_from sub s' (i + 1)
       end.

Definition find (sub s : string) : Z := find_from sub s 0.

(** [s.rfind(sub)], counted from offset [i] *)
Fixpoint rfind_from (sub s : string) (i : Z) : Z :=
  match s with
  | EmptyString => if String.prefix sub s then i else -1
  | String _ s' =>
      let r := rfind_from sub s' (i + 1) in
      if 0 <=? r then r
      else if String.prefix sub s then i else -1
  end.

Definition rfind (sub s : string) : Z := rfind_from sub s 0.

(** Index normalisation of a slice bound. *)
Definition clamp (len i : Z) : Z :=
  if i <? 0 then Z.max (i + len) 0 else Z.min i len.

(** [s[start:stop]] *)
Definition slice (s : string) (start stop : Z) : string :=
  let n := Z.of_nat (String.length s) in
  let a := clamp n start in
  let b := clamp n stop in
  String.substring (Z.to_nat a) (Z.to_nat (b - a)) s.

(** [s.split(sep)] for a one-character separator *)
Fixpoint split (sep : ascii) (s : string) : list string :=
  match s with
  | EmptyString => [EmptyString]
  | String c s' =>
      if Ascii.eqb c sep then EmptyString :: split sep s'
      else match split sep s' with
           | [] => [String c EmptyString]
           | h :: t => String c h :: t
           end
  end.

Definition newline : ascii := ascii_of_N 10.

Fixpoint lstrip (s : string) : string :=
  match s with
  | EmptyString => EmptyString
  | String c s' => if isspace c then lstrip s' else s
  end.

Fixpoint rstrip (s : string) : string :=
  match s with
  | EmptyString => EmptyString
  | String c s' =>
      match rstrip s' with
      | EmptyString => if isspace c then EmptyString else String c EmptyString
      | r => String c r
      end
  end.

(** [s.strip()] *)
Definition strip (s : string) : string := rstrip (lstrip s).

(** [sep.join(l)] *)
Fixpoint join (sep : string) (l : list string) : string :=
  match l with
  | [] => EmptyString
  | [x] => x
  | x :: l' => x +:+ sep +:+ join sep l'
  end.

(** No character of [p] is [sep]. *)
Fixpoint avoids (sep : ascii) (p : string) : bool :=
  match p with
  | EmptyString => true
  | String c p' => negb (Ascii.eqb c sep) && avoids sep p'
  end.

(** [len(s)] *)
Definition len (s : string) : Z := Z.of_nat (String.length s).

(** The decimal rendering of an integer inside an f-string. *)
Definition str_int (z : Z) : string := NilZero.string_of_int (Z.to_int z).

(** Truth value of a string, and of a string that may be [None]. *)
Definition truthy (s : string) : bool := negb (String.eqb s EmptyString).

Definition truthy_opt (o : option string) : bool :=
  match o with
  | None => false
  | Some s => truthy s
  end.

(** An f-string field holding a string or [None]. *)
Definition str_opt (o : option string) : string :=
  match o with
  | None => "None"
  | Some s => s
  end.

(** [x in names] for a list of strings *)
Definition mem (x : string) (names : list string) : bool :=
  bool_decide (x ∈ names).

(** The double quote character, and text between double quotes. *)
Definition dq : string := String (ascii_of_N 34) EmptyString.

Definition quoted (s : string) : string := dq +:+ s +:+ dq.

(** *** Dynamic values *)

Inductive value : Type :=
| VNone
| VBool (b : bool)
| VInt (z : Z)
| VFloat (repr : string)
| VStr (s : string)
| VList (items : list value)
| VDict (items : list (string * value)).

(** Dictionaries keyed by strings, in insertion order. *)
Definition dict : Type := list (string * value).

Fixpoint dict_get {A : Type} (k : string) (d : list (string * A))
    : option A :=
  match d with
  | [] => None
  | (k', v) :: d' => if String.eqb k k' then Some v else dict_get k d'
  end.

(** [k in d] *)
Definition dict_has {A : Type} (k : string) (d : list (string * A)) : bool :=
  match dict_get k d with
  | Some _ => true
  | None => false
  end.

(** [d[k] = v] *)
Fixpoint dict_set {A : Type} (k : string) (v : A) (d : list (string * A))
    : list (string * A) :=
  match d with
  | [] => [(k, v)]
  | (k', v') :: d' =>
      if String.eqb k k' then (k, v) :: d' else (k', v') :: dict_set k v d'
  end.

(** [a or b] on strings that may be [None] *)
Definition or_else (a b : option string) : option string :=
  if truthy_opt a then a else b.

(** *** Exceptions *)

Inductive exn_class : Type :=
| SchoolsAPIError
| RequestError      (* httpx.RequestError and its subclasses *)
| JSONDecodeError
| ValueError
| TypeError
| AttributeError
| RuntimeError
| OtherException.

(** An exception instance: its class and [str(e)].  Every class above
    derives from [Exception]. *)
Record exn : Type := Exn { exn_cls : exn_class; exn_str : string }.

(** [isinstance(e, ValueError)]; [JSONDecodeError] derives from it. *)
Definition is_ValueError (e : exn) : bool :=
  match exn_cls e with
  | JSONDecodeError | ValueError => true
  | _ => false
  end.

Definition is_RequestError (e : exn) : bool :=
  match exn_cls e with
  | RequestError => true
  | _ => false
  end.

Definition is_SchoolsAPIError (e : exn) : bool :=
  match exn_cls e with
  | SchoolsAPIError => true
  | _ => false
  end.

(** The outcome of an expression: an exception or a value. *)
Definition result (A : Type) : Type := exn + A.

(** [x in v] for a string [x] *)
Definition contains_str (x : string) (v : value) : result bool :=
  match v with
  | VDict d => inr (dict_has x d)
  | VList l =>
      inr (existsb (fun e => match e with
                             | VStr s => String.eqb s x
                             | _ => false
                             end) l)
  | VStr s => inr (contains x s)
  | VNone => inl (Exn TypeError "argument of type 'NoneType' is not iterable")
  | VBool _ => inl (Exn TypeError "argument of type 'bool' is not iterable")
  | VInt _ => inl (Exn TypeError "argument of type 'int' is not iterable")
  | VFloat _ => inl (Exn TypeError "argument of type 'float' is not iterable")
  end.

(** [v[k]] for a string [k] *)
Definition subscript (v : value) (k : string) : result value :=
  match v with
  | VDict d =>
      match dict_get k d with
      | Some x => inr x
      | None => inl (Exn OtherException ("'" +:+ k +:+ "'"))
      end
  | VList _ => inl (Exn TypeError "list indices must be integers or slices, not str")
  | VStr _ => inl (Exn TypeError "string indices must be integers, not 'str'")
  | VNone => inl (Exn TypeError "'NoneType' object is not subscriptable")
  | VBool _ => inl (Exn TypeError "'bool' object is not subscriptable")
  | VInt _ => inl (Exn TypeError "'int' object is not subscriptable")
  | VFloat _ => inl (Exn TypeError "'float' object is not subscriptable")
  end.

End Py.

(** ** The document tree built by BeautifulSoup *)
Module Bs4.

(** The classes of string nodes.  Only [Plain] and [CData] strings are
    part of the text of an ordinary tag. *)
Inductive string_kind : Type :=
| Plain | CData | Comment | Script | Stylesheet | TemplateString.

(** A node is a string or a tag.  The [class] attribute is kept apart from
    the other attributes because the parser splits it into a list. *)
Inductive node : Type :=
| Str (kind : string_kind) (s : string)
| Tag (name : string) (attrs : list (string * string))
      (classes : option (list string)) (contents : list node).

(** The parsed page is itself a tag, the root of the tree. *)
Definition soup : Type := node.

(** [tag.descendants]: every node below [n], in document order. *)
Fixpoint descendants (n : node) : list node :=
  match n with
  | Str _ _ => []
  | Tag _ _ _ cs =>
      (fix below (l : list node) : list node :=
         match l with
         | [] => []
         | c :: l' => c :: descendants c ++ below l'
         end) cs
  end.

Definition tag_name (n : node) : option string :=
  match n with
  | Str _ _ => None
  | Tag nm _ _ _ => Some nm
  end.

Fixpoint assoc {A : Type} (k : string) (l : list (string * A)) : option A :=
  match l with
  | [] => None
  | (k', v) :: l' => if String.eqb k k' then Some v else assoc k l'
  end.

(** [tag.get(key)] *)
Definition get (n : node) (key : string) : option string :=
  match n with
  | Str _ _ => None
  | Tag _ attrs _ _ => assoc key attrs
  end.

(** [tag.get(key, dflt)] *)
Definition get_or (n : node) (key dflt : string) : string :=
  default dflt (get n key).

Definition classes_of (n : node) : option (list string) :=
  match n with
  | Str _ _ => None
  | Tag _ _ cl _ => cl
  end.

(** [tag.string]: the single string below a tag, if there is exactly one
    path of only children down to it. *)
Fixpoint string_of (n : node) : option string :=
  match n with
  | Str _ s => Some s
  | Tag _ _ _ [c] => string_of c
  | Tag _ _ _ _ => None
  end.

Definition text_piece (n : node) : string :=
  match n with
  | Str Plain s | Str CData s => s
  | _ => EmptyString
  end.

(** [tag.get_text()] *)
Definition get_text (n : node) : string :=
  foldr String.append EmptyString (text_piece <$> descendants n).

(** *** Searches *)

(** An attribute filter given as a string: exact match of the value. *)
Definition attr_is (key v : string) (n : node) : bool :=
  match get n key with
  | Some x => String.eqb x v
  | None => false
  end.

(** An attribute filter given as [True]: the attribute is present. *)
Definition attr_present (key : string) (n : node) : bool :=
  match get n key with
  | Some _ => true
  | None => false
  end.

(** A [class_] filter given as a function: the function is tried on every
    class of the tag, then on the classes joined by spaces; a tag without
    the attribute passes [None] to the function. *)
Definition class_matches (f : option string -> bool) (n : node) : bool :=
  match classes_of n with
  | None => f None
  | Some l => existsb (fun c => f (Some c)) l || f (Some (Py.join " " l))
  end.

Definition named (names : list string) (n : node) : bool :=
  match tag_name n with
  | Some nm => Py.mem nm names
  | None => false
  end.

(** [root.find_all(names, filter)] *)
Definition find_all (root : node) (names : list string)
    (p : node -> bool) : list node :=
  filter (fun n => named names n && p n) (descendants root).

(** [root.find(names, filter)] *)
Definition find (root : node) (names : list string)
    (p : node -> bool) : option node :=
  head (find_all root names p).

Definition any : node -> bool := fun _ => true.

End Bs4.

(** ** Computations that talk to the outside world

    [M S A] is a computation over a state [S] that ends with a value of
    type [A] or with an exception; the state that an exception leaves behind
    is kept, as assignments made before a [raise] are in Python. *)
Definition M (S A : Type) : Type := S -> Py.result A * S.

Definition ret {S A : Type} (a : A) : M S A := fun s => (inr a, s).

Definition raise {S A : Type} (e : Py.exn) : M S A := fun s => (inl e, s).

Definition bind {S A B : Type} (c : M S A) (k : A -> M S B) : M S B :=
  fun s =>
    match c s with
    | (inr a, s') => k a s'
    | (inl e, s') => (inl e, s')
    end.

(** An expression that may raise, used as a step of a computation. *)
Definition lift {S A : Type} (r : Py.result A) : M S A := fun s => (r, s).

(** [try: c  except <classes accepted by handles> as e: handler e] *)
Definition try_except {S A : Type} (handles : Py.exn -> bool)
    (c : M S A) (handler : Py.exn -> M S A) : M S A :=
  fun s =>
    match c s with
    | (inl e, s') => if handles e then handler e s' else (inl e, s')
    | r => r
    end.

(** [except Exception] and the bare [except] accept every exception. *)
Definition any_exception : Py.exn -> bool := fun _ => true.

Notation "'let*' x ':=' c 'in' k" := (bind c (fun x => k))
  (at level 10, x name, c at level 100, k at level 200).

(** The same for expressions without state. *)
Definition rbind {A B : Type} (r : Py.result A) (k : A -> Py.result B)
    : Py.result B :=
  match r with
  | inr a => k a
  | inl e => inl e
  end.

Notation "'let?' x ':=' r 'in' k" := (rbind r (fun x => k))
  (at level 10, x name, r at level 100, k at level 200).

(** ** The client *)
Module SchoolsAPI.

Import Py.

(** What the client sends through httpx. *)
Record request : Type := Request {
  req_method : string;
  req_url : string;
  req_params : list (string * string);
  req_data : list (string * string);
  req_headers : list (string * string)
}.

(** What the client reads from an [httpx.Response]. *)
Record response : Type := Response {
  status_code : Z;
  headers_get : string -> option string;   (* response.headers.get(name) *)
  text : string;                           (* response.text *)
  json : result value;                     (* response.json() *)
  url : string                             (* str(response.url) *)
}.

(** The two patterns tried on inline scripts, both case-insensitive and
    both capturing a run of letters, digits, hyphens and underscores
    between quotes after a colon or an equals sign: the first one is
    introduced by csrf, an optional underscore or hyphen and token, the
    second one by _token. *)
Inductive token_pattern : Type := CsrfTokenPattern | UnderscoreTokenPattern.

(** *** The two patterns

    [re.search(pattern, content, re.IGNORECASE)] for the two patterns of
    [get_csrf_token].  No part of either pattern can give back what it
    has taken (an optional character or a run is always followed by a
    character of another kind), so a match is tried from left to right
    at every position, and the leftmost one gives [group(1)]. *)

(** the double and the single quote *)
Definition is_quote (c : ascii) : bool :=
  let n := N_of_ascii c in ((n =? 34) || (n =? 39))%N.

(** [_] and [-] *)
Definition is_joiner (c : ascii) : bool :=
  let n := N_of_ascii c in ((n =? 95) || (n =? 45))%N.

(** [:] and [=] *)
Definition is_assign (c : ascii) : bool :=
  let n := N_of_ascii c in ((n =? 58) || (n =? 61))%N.

(** [[a-zA-Z0-9\-_]], whatever the case *)
Definition is_token_char (c : ascii) : bool :=
  let n := N_of_ascii c in
  ((48 <=? n) && (n <=? 57) || (65 <=? n) && (n <=? 90) ||
   (97 <=? n) && (n <=? 122) || (n =? 45) || (n =? 95))%N.

(** A word of the pattern, in any case: what follows it in [s]. *)
Fixpoint skip_word (word s : string) : option string :=
  match word, s with
  | EmptyString, _ => Some s
  | String a word', String c s' =>
      if Ascii.eqb (lower_char c) a then skip_word word' s' else None
  | String _ _, EmptyString => None
  end.

(** [x?]: one character of the class, if there is one *)
Definition skip_optional (class : ascii -> bool) (s : string) : string :=
  match s with
  | String c s' => if class c then s' else s
  | EmptyString => s
  end.

(** [x*]: the longest run of the class *)
Fixpoint skip_all (class : ascii -> bool) (s : string) : string :=
  match s with
  | String c s' => if class c then skip_all class s' else s
  | EmptyString => s
  end.

(** [x]: one character of the class *)
Definition skip_one (class : ascii -> bool) (s : string) : option string :=
  match s with
  | String c s' => if class c then Some s' else None
  | EmptyString => None
  end.

(** The longest run of the class at the head of [s], and what follows
    it. *)
Fixpoint span (class : ascii -> bool) (s : string) : string * string :=
  match s with
  | String c s' =>
      if class c then let (run, rest) := span class s' in (String c run, rest)
      else (EmptyString, s)
  | EmptyString => (EmptyString, EmptyString)
  end.

(** What both patterns ask after the introducing word: an optional
    quote, a colon or an equals sign between optional spaces, and the
    group between quotes. *)
Definition match_assignment (s : string) : option string :=
  let s := skip_optional is_quote s in
  let s := skip_all isspace s in
  match skip_one is_assign s with
  | None => None
  | Some s =>
      let s := skip_all isspace s in
      match skip_one is_quote s with
      | None => None
      | Some s =>
          let (group, rest) := span is_token_char s in
          if truthy group then
            match skip_one is_quote rest with
            | Some _ => Some group
            | None => None
            end
          else None
      end
  end.

(** A match of the pattern at the head of [s]. *)
Definition match_here (pattern : token_pattern) (s : string)
    : option string :=
  match pattern with
  | CsrfTokenPattern =>
      match skip_word "csrf" s with
      | None => None
      | Some s =>
          match skip_word "token" (skip_optional is_joiner s) with
          | None => None
          | Some s => match_assignment s
          end
      end
  | UnderscoreTokenPattern =>
      match skip_word "_token" s with
      | None => None
      | Some s => match_assignment s
      end
  end.

Fixpoint re_search (pattern : token_pattern) (content : string)
    : option string :=
  match match_here pattern content with
  | Some group => Some group
  | None =>
      match content with
      | EmptyString => None
      | String _ content' => re_search pattern content'
      end
  end.

(** An entry of the lists returned by the harvesting helpers. *)
Record school : Type := School {
  name : string;
  url_ : string;
  type_ : string;
  source : option string
}.

(** The libraries the client calls.  [World] is the state of everything
    outside the client, [Connection] what an [httpx.AsyncClient] holds:
    its pool of connections and its jar of cookies. *)
Class Collaborators : Type := {
  World : Type;
  Connection : Type;
  (** what [httpx.AsyncClient(headers, timeout, cookies)] opens *)
  connect : World -> Connection * World;
  (** one request sent and its answer read, the cookies of the answer
      kept, redirections left alone *)
  send_single_request : Connection -> request -> M World response;
  (** the request that follows an answer which redirects; a place that
      is no address is refused *)
  build_redirect_request : request -> response -> result request;
  (** [client.aclose()] *)
  aclose : Connection -> M World unit;
  (** [dict(client.cookies)], refused when two cookies bear one name *)
  cookies : Connection -> World -> result (list (string * string));
  (** [urllib.parse.urljoin]: the address, or the message of the
      [ValueError] with which a malformed address is refused *)
  join_address : string -> string -> string + string;
  (** [BeautifulSoup(markup, 'html.parser')] *)
  BeautifulSoup : value -> result Bs4.soup;
  (** [json.loads] on text that is empty or opens with a brace: a mapping
      or an exception *)
  json_loads : string -> result dict
}.

Section Client.

Context `{Collaborators}.

(** [urllib.parse.urljoin] *)
Definition urljoin (base url : string) : result string :=
  match join_address base url with
  | inr address => inr address
  | inl message => inl (Exn ValueError message)
  end.

(** *** The httpx client

    An [httpx.AsyncClient]: what it holds and whether it follows
    redirections when a call does not say so. *)
Record Client : Type := Client_ {
  connection : Connection;
  follow_redirects : bool
}.

(** [httpx.AsyncClient(headers, timeout, follow_redirects, cookies)] *)
Definition AsyncClient (follow : bool) (w : World) : Client * World :=
  let (k, w') := connect w in
  ({| connection := k; follow_redirects := follow |}, w').

(** [response.has_redirect_location] *)
Definition has_redirect_location (r : response) : bool :=
  bool_decide (status_code r ∈ [301; 302; 303; 307; 308])
  && bool_decide (is_Some (headers_get r "Location")).

Definition max_redirects : nat := 20.

(** The loop of the client over an answer and the answers it is
    redirected to; [left] is one more than the number of redirections
    that may still be followed. *)
Fixpoint send_handling_redirects (k : Connection) (follow : bool)
    (left : nat) (req : request) : M World response :=
  match left with
  | O => raise (Exn RequestError "Exceeded maximum allowed redirects.")
  | S left' =>
      let* response := send_single_request k req in
      if has_redirect_location response then
        let* next := lift (build_redirect_request req response) in
        if follow then send_handling_redirects k follow left' next
        else ret response
      else ret response
  end.

(** [client.request], [client.get] and [client.post]; [follow] is the
    argument [follow_redirects] of the call, when it is given. *)
Definition client_send (c : Client) (follow : option bool) (req : request)
    : M World response :=
  send_handling_redirects (connection c)
    (default (follow_redirects c) follow) (S max_redirects) req.

Definition client_request (c : Client) (req : request) : M World response :=
  client_send c None req.

(** [client.aclose()] *)
Definition client_aclose (c : Client) : M World unit :=
  aclose (connection c).

(** [dict(client.cookies)] *)
Definition client_cookies (c : Client) (w : World)
    : result (list (string * string)) :=
  cookies (connection c) w.

(** *** The instance

    [self.base_url] and [self.session]. *)
Record t : Type := Self {
  base_url : string;
  session : option Client
}.

Definition __init__ (base : string) : t :=
  {| base_url := base; session := None |}.

Definition __aenter__ (self : t) (w : World) : t * World :=
  let (c, w') := AsyncClient true w in
  ({| base_url := base_url self; session := Some c |}, w').

Definition __aexit__ (self : t) : M World unit :=
  match session self with
  | Some c => client_aclose c
  | None => ret tt
  end.

Definition _build_url (self : t) (endpoint : string) : result string :=
  urljoin (base_url self) endpoint.

(** *** [_extract_json_from_html] *)

(** One line of a script: [Some r] leaves the function with [r],
    [None] goes on with the next line. *)
Definition scan_line (line : string) : option (result dict) :=
  if contains "data" (lower line) || contains "config" (lower line) then
    if contains "{" line && contains "}" line then
      let start := find "{" line in
      let end_ := rfind "}" line + 1 in
      let json_str := slice line start end_ in
      match json_loads json_str with
      | inr d => Some (inr d)
      | inl e => if is_ValueError e then None else Some (inl e)
      end
    else None
  else None.

Fixpoint scan_lines (lines : list string) : option (result dict) :=
  match lines with
  | [] => None
  | line :: rest =>
      match scan_line line with
      | Some r => Some r
      | None => scan_lines rest
      end
  end.

Definition scan_script (script : Bs4.node) : option (result dict) :=
  match Bs4.string_of script with
  | Some s =>
      if truthy s then
        let content := strip s in
        if contains "window." content || contains "var " content then
          scan_lines (split newline content)
        else None
      else None
  | None => None
  end.

Fixpoint scan_scripts (scripts : list Bs4.node) : option (result dict) :=
  match scripts with
  | [] => None
  | script :: rest =>
      match scan_script script with
      | Some r => Some r
      | None => scan_scripts rest
      end
  end.

Definition _extract_json_from_html (html : string) : result dict :=
  let? soup := BeautifulSoup (VStr html) in
  let scripts := Bs4.find_all soup ["script"] Bs4.any in
  match scan_scripts scripts with
  | Some r => r
  | None => inr [("html", VStr html)]
  end.

(** *** [_make_request] *)

Definition _make_request (self : t) (method endpoint : string)
    (allow_errors : bool) (params : list (string * string))
    : M World value :=
  match session self with
  | None =>
      raise (Exn SchoolsAPIError
                 "Session not initialized. Use async context manager.")
  | Some c =>
      let* url := lift (_build_url self endpoint) in
      try_except is_RequestError
        (let* response :=
           client_request c (Request method url params [] []) in
         let content_type :=
           default "" (headers_get response "Content-Type") in
         let text := text response in
         if status_code response =? 200 then
           if contains "application/json" content_type then
             lift (json response)
           else
             let* json_data := lift (_extract_json_from_html text) in
             if negb (bool_decide (json_data = [])) &&
                negb (dict_has "html" json_data)
             then ret (VDict json_data)
             else ret (VDict [("html", VStr text);
                              ("status", VInt (status_code response))])
         else if allow_errors then
           ret (VDict [("html", VStr text);
                       ("status", VInt (status_code response));
                       ("error", VBool true);
                       ("url", VStr (SchoolsAPI.url response))])
         else
           if (status_code response =? 500) && contains "html" content_type
           then ret (VDict [("html", VStr text);
                            ("status", VInt (status_code response));
                            ("error", VBool true)])
           else raise (Exn SchoolsAPIError
                         ("HTTP " +:+ str_int (status_code response) +:+
                          ": " +:+ slice text 0 200 +:+ "...")))
        (fun e =>
           if allow_errors then
             ret (VDict [("error", VStr (exn_str e));
                         ("client_error", VBool true)])
           else raise (Exn SchoolsAPIError
                         ("Request failed: " +:+ exn_str e)))
  end.

(** *** [get_csrf_token] *)

Definition token_of (e : Bs4.node) : option string :=
  or_else (Bs4.get e "value") (Bs4.get e "content").

(** The loop over [csrf_inputs]: the first element that is found and
    carries a token decides. *)
Fixpoint scan_csrf_inputs (csrf_inputs : list (option Bs4.node))
    : option string :=
  match csrf_inputs with
  | [] => None
  | Some e :: rest =>
      let token := token_of e in
      if truthy_opt token then token else scan_csrf_inputs rest
  | None :: rest => scan_csrf_inputs rest
  end.

Definition token_patterns : list token_pattern :=
  [CsrfTokenPattern; UnderscoreTokenPattern].

Fixpoint scan_patterns (patterns : list token_pattern) (content : string)
    : option string :=
  match patterns with
  | [] => None
  | pattern :: rest =>
      match re_search pattern content with
      | Some g => Some g
      | None => scan_patterns rest content
      end
  end.

Definition scan_token_script (script : Bs4.node) : option string :=
  match Bs4.string_of script with
  | Some content =>
      if truthy content then
        if contains "csrf" (lower content) || contains "token" (lower content)
        then scan_patterns token_patterns content
        else None
      else None
  | None => None
  end.

Fixpoint scan_token_scripts (scripts : list Bs4.node) : option string :=
  match scripts with
  | [] => None
  | script :: rest =>
      match scan_token_script script with
      | Some g => Some g
      | None => scan_token_scripts rest
      end
  end.

Definition csrf_inputs (soup : Bs4.soup) : list (option Bs4.node) :=
  [ Bs4.find soup ["input"] (Bs4.attr_is "name" "csrfmiddlewaretoken");
    Bs4.find soup ["input"] (Bs4.attr_is "name" "_token");
    Bs4.find soup ["input"] (Bs4.attr_is "name" "csrf_token");
    Bs4.find soup ["meta"] (Bs4.attr_is "name" "csrf-token") ].

Definition csrf_token_in (soup : Bs4.soup) : option string :=
  match scan_csrf_inputs (csrf_inputs soup) with
  | Some token => Some token
  | None => scan_token_scripts (Bs4.find_all soup ["script"] Bs4.any)
  end.

Definition get_csrf_token (html : string) : result (option string) :=
  let? soup := BeautifulSoup (VStr html) in
  inr (csrf_token_in soup).

(** *** [authenticate] *)

Definition possible_username_names : list string :=
  ["username"; "login"; "email"; "user"; "login_name"].

Definition possible_password_names : list string :=
  ["password"; "pass"; "pwd"].

Definition username_like (inp : Bs4.node) : bool :=
  mem (lower (Bs4.get_or inp "name" "")) possible_username_names
  || String.eqb (lower (Bs4.get_or inp "type" "")) "email".

Definition password_like (inp : Bs4.node) : bool :=
  mem (lower (Bs4.get_or inp "name" "")) possible_password_names
  || String.eqb (lower (Bs4.get_or inp "type" "")) "password".

(** One turn of the loop over the inputs of the form; the state is
    [(username_field, password_field)]. *)
Definition field_step (st : option string * option string)
    (inp : Bs4.node) : option string * option string :=
  let '(username_field, password_field) := st in
  if negb (truthy_opt username_field) && username_like inp then
    (Bs4.get inp "name", password_field)
  else if negb (truthy_opt password_field) && password_like inp then
    (username_field, Bs4.get inp "name")
  else st.

Definition find_fields (input_fields : list Bs4.node)
    : option string * option string :=
  fold_left field_step input_fields (None, None).

(** The field inference of the authenticator: the names of the username
    and password fields of the form, or the error raised when one of
    them is missing. *)
Definition login_fields (form : Bs4.node) : result (string * string) :=
  let '(username_field, password_field) :=
    find_fields (Bs4.find_all form ["input"] Bs4.any) in
  if negb (truthy_opt username_field) || negb (truthy_opt password_field)
  then inl (Exn SchoolsAPIError
              ("Cannot find login fields. Found: username=" +:+
               str_opt username_field +:+ ", password=" +:+
               str_opt password_field))
  else inr (default "" username_field, default "" password_field).

(** The hidden fields of the form, copied into the submission. *)
Definition hidden_step (form_data : list (string * string))
    (hidden_input : Bs4.node) : list (string * string) :=
  let name := Bs4.get hidden_input "name" in
  let value := Bs4.get_or hidden_input "value" "" in
  match name with
  | Some n => if truthy n then dict_set n value form_data else form_data
  | None => form_data
  end.

Definition csrf_names : list string :=
  ["csrfmiddlewaretoken"; "_token"; "csrf_token"].

(** The name under which the token is sent back: that of the first
    hidden input bearing one of the three names. *)
Fixpoint csrf_name_of (hidden_inputs : list Bs4.node) : option string :=
  match hidden_inputs with
  | [] => None
  | inp :: rest =>
      match Bs4.get inp "name" with
      | Some n => if mem n csrf_names then Some n else csrf_name_of rest
      | None => csrf_name_of rest
      end
  end.

Definition add_csrf (csrf_token : option string)
    (hidden_inputs : list Bs4.node) (form_data : list (string * string))
    : list (string * string) :=
  match csrf_token with
  | Some token =>
      if truthy token then
        match csrf_name_of hidden_inputs with
        | Some csrf_name =>
            if truthy csrf_name then dict_set csrf_name token form_data
            else form_data
        | None => form_data
        end
      else form_data
  | None => form_data
  end.

(** The [class_] filter of the scan for error banners. *)
Definition error_class (x : option string) : bool :=
  match x with
  | None => false
  | Some c =>
      truthy c && (contains "error" (lower c) || contains "alert" (lower c))
  end.

(** [dict(self.session.cookies)], as a value *)
Definition jar_value (jar : list (string * string)) : value :=
  VDict ((fun kv => (kv.1, VStr kv.2)) <$> jar).

Definition cookie_snapshot (c : Client) : M World value :=
  fun w =>
    match client_cookies c w with
    | inr jar => (inr (jar_value jar), w)
    | inl e => (inl e, w)
    end.

(** Step 7: the verdict on the response to the submission. *)
Definition classify (c : Client) (auth_response : response)
    : M World value :=
  let status := status_code auth_response in
  if status =? 200 then
    let response_text := text auth_response in
    let* soup_result := lift (BeautifulSoup (VStr response_text)) in
    let error_elements :=
      Bs4.find_all soup_result ["div"; "span"; "p"]
                   (Bs4.class_matches error_class) in
    match error_elements with
    | _ :: _ =>
        let error_text :=
          join " " ((fun elem => strip (Bs4.get_text elem))
                      <$> error_elements) in
        ret (VDict [("success", VBool false);
                    ("error", VStr ("Authentication failed: " +:+ error_text));
                    ("status", VInt status)])
    | [] =>
        let* cookies := cookie_snapshot c in
        ret (VDict [("success", VBool true);
                    ("message", VStr "Authentication successful");
                    ("status", VInt status);
                    ("cookies", cookies)])
    end
  else if bool_decide (status ∈ [302; 303; 307]) then
    let location := default "" (headers_get auth_response "Location") in
    if negb (contains "/login" (lower location)) then
      let* cookies := cookie_snapshot c in
      ret (VDict [("success", VBool true);
                  ("message",
                   VStr "Authentication successful (redirected)");
                  ("status", VInt status);
                  ("redirect", VStr location);
                  ("cookies", cookies)])
    else
      ret (VDict [("success", VBool false);
                  ("error",
                   VStr "Authentication failed (redirected back to login)");
                  ("status", VInt status)])
  else
    ret (VDict [("success", VBool false);
                ("error", VStr ("Authentication failed: HTTP " +:+
                                str_int status));
                ("status", VInt status);
                ("response", VStr (slice (text auth_response) 0 500))]).

(** [self.session.post(...)], the address being known; without a session
    the attribute lookup on [None] fails. *)
Definition session_send (self : t) (attr : string) (req : request)
    : M World (Client * response) :=
  match session self with
  | None =>
      raise (Exn AttributeError
               ("'NoneType' object has no attribute '" +:+ attr +:+ "'"))
  | Some c => let* r := client_request c req in ret (c, r)
  end.

Definition auth_headers (self : t) : result (list (string * string)) :=
  let? referer := _build_url self "/login" in
  inr [("Content-Type", "application/x-www-form-urlencoded");
       ("Referer", referer);
       ("Origin", base_url self)].

(** [self.session.get(self._build_url(endpoint))]: the attribute is
    looked up before the address is built. *)
Definition session_get (self : t) (endpoint : string)
    : M World (Client * response) :=
  match session self with
  | None =>
      raise (Exn AttributeError "'NoneType' object has no attribute 'get'")
  | Some c =>
      let* url := lift (_build_url self endpoint) in
      let* r := client_request c (Request "GET" url [] [] []) in
      ret (c, r)
  end.

(** Steps 1 to 5 and the headers of step 6: the request that submits the
    credentials. *)
Definition prepare (self : t) (username password : string)
    : M World request :=
  (* step 1: the landing page, fetched and discarded *)
  let* main_response := session_get self "/" in
  (* step 2: the login page *)
  let* login := session_get self "/login" in
  let login_response := login.2 in
  if negb (status_code login_response =? 200) then
    raise (Exn SchoolsAPIError
             ("Cannot access login page: HTTP " +:+
              str_int (status_code login_response)))
  else
    let login_html := text login_response in
    let* soup := lift (BeautifulSoup (VStr login_html)) in
    (* step 3: the form *)
    match Bs4.find soup ["form"] Bs4.any with
    | None =>
        raise (Exn SchoolsAPIError "Login form not found on the page")
    | Some form =>
        let form_action := Bs4.get_or form "action" "/login" in
        let* form_action :=
          if startswith "http" form_action then ret form_action
          else lift (_build_url self form_action) in
        (* step 4: the token *)
        let* csrf_token := lift (get_csrf_token login_html) in
        (* step 5: the submission *)
        let hidden_inputs :=
          Bs4.find_all form ["input"] (Bs4.attr_is "type" "hidden") in
        let form_data := fold_left hidden_step hidden_inputs [] in
        let* fields := lift (login_fields form) in
        let form_data := dict_set fields.1 username form_data in
        let form_data := dict_set fields.2 password form_data in
        let form_data := add_csrf csrf_token hidden_inputs form_data in
        (* step 6: the headers of the submission *)
        let* auth_headers := lift (auth_headers self) in
        ret (Request "POST" form_action [] form_data auth_headers)
    end.

Definition authenticate (self : t) (username password : string)
    : M World value :=
  try_except any_exception
    (let* submission := prepare self username password in
     (* step 6: the credentials are posted *)
     let* auth := session_send self "post" submission in
     (* step 7 *)
     classify auth.1 auth.2)
    (fun e =>
       raise (Exn SchoolsAPIError
                ("Authentication failed: " +:+ exn_str e))).

(** *** [get_subdomains_page] *)

(** [text] of an anchor as the harvesters read it *)
Definition link_text (link : Bs4.node) : string :=
  strip (Bs4.get_text link).

Definition subdomain_link (link : Bs4.node) : option school :=
  let href := Bs4.get_or link "href" "" in
  let text := link_text link in
  if (contains ".schools.by" href || contains "schools.by/" href)
     && truthy text && (3 <? len text)
  then Some (School text href "subdomain" None)
  else None.

Definition anchors (soup : Bs4.soup) : list Bs4.node :=
  Bs4.find_all soup ["a"] (Bs4.attr_present "href").

Definition get_subdomains_page (self : t) : M World (list school) :=
  try_except any_exception
    (let* result := _make_request self "GET" "/subdomains" true [] in
     let* has_html := lift (contains_str "html" result) in
     if has_html : bool then
       let* html := lift (subscript result "html") in
       let* soup := lift (BeautifulSoup html) in
       ret (omap subdomain_link (anchors soup))
     else ret [])
    (fun e => ret []).

(** *** [search_schools]

    The list [schools] is filled in place while pages are fetched, so
    the body runs over the world paired with that list. *)

Definition in_world {A : Type} (c : M World A)
    : M (World * list school) A :=
  fun st =>
    let (r, w') := c st.1 in (r, (w', st.2)).

(** [schools.append] for every entry of [l], in order *)
Definition append_all (l : list school) : M (World * list school) unit :=
  fun st => (inr tt, (st.1, st.2 ++ l)).

Definition main_page_link (query : string) (link : Bs4.node)
    : option school :=
  let href := Bs4.get_or link "href" "" in
  let text := link_text link in
  if (contains ".schools.by" href && contains "http" href)
     || startswith "/subdomains" href
  then
    if truthy text && (3 <? len text)
       && contains (lower query) (lower text)
    then Some (School text href "main_page_link" None)
    else None
  else None.

Definition test_page_link (query page : string) (link : Bs4.node)
    : option school :=
  let href := Bs4.get_or link "href" "" in
  let text := link_text link in
  if (contains ".schools.by" href || startswith "http" href)
     && truthy text
  then
    if contains (lower query) (lower text) && (3 <? len text)
    then Some (School text href ("from_" +:+ page) (Some page))
    else None
  else None.

(** Links of one page, appended to [schools] when the page has markup. *)
Definition harvest_page (self : t) (endpoint : string)
    (pick : Bs4.node -> option school) : M (World * list school) unit :=
  let* page := in_world (_make_request self "GET" endpoint true []) in
  let* has_html := lift (contains_str "html" page) in
  if has_html : bool then
    let* html := lift (subscript page "html") in
    let* soup := lift (BeautifulSoup html) in
    append_all (omap pick (anchors soup))
  else ret tt.

Definition test_pages : list string := ["/capabilities"; "/help"; "/about"].

Fixpoint harvest_test_pages (self : t) (query : string)
    (pages : list string) : M (World * list school) unit :=
  match pages with
  | [] => ret tt
  | page :: rest =>
      let* _ :=
        try_except any_exception
          (harvest_page self page (test_page_link query page))
          (fun e => ret tt) in
      harvest_test_pages self query rest
  end.

(** The removal of duplicates: [seen_urls] is the set of addresses
    already kept. *)
Fixpoint unique_from (seen_urls : gset string) (schools : list school)
    : list school :=
  match schools with
  | [] => []
  | school :: rest =>
      if bool_decide (url_ school ∈ seen_urls) then
        unique_from seen_urls rest
      else school :: unique_from ({[url_ school]} ∪ seen_urls) rest
  end.

Definition unique_schools (schools : list school) : list school :=
  unique_from ∅ schools.

(** The three harvesting rounds, in order. *)
Definition harvest (self : t) (query : string)
    : M (World * list school) unit :=
  (* 1. the main page *)
  let* _ := harvest_page self "/" (main_page_link query) in
  (* 2. the page of subdomains *)
  let* subdomains := in_world (get_subdomains_page self) in
  let* _ :=
    append_all
      (filter (fun school =>
                 contains (lower query) (lower (name school)) = true)
              subdomains) in
  (* 3. the other pages *)
  harvest_test_pages self query test_pages.

Definition search_schools (self : t) (query : string)
    : M World (list school) :=
  fun w =>
    match harvest self query (w, []) with
    | (inr _, (w', schools)) =>
        (inr (take 15%nat (unique_schools schools)), w')
    | (inl e, (w', schools)) => (inr schools, w')
    end.

End Client.

End SchoolsAPI.

(** ** The vocabulary of the specification

    The notions in which the properties of the client are stated, defined
    on the document tree without reference to the code of the client. *)
Module Spec.

Import Py.

(** [s] mentions [word], whatever the case of the letters of [s]. *)
Definition mentions (word s : string) : Prop :=
  contains word (lower s) = true.

(** *** Login forms *)

Definition field_name (inp : Bs4.node) : string := Bs4.get_or inp "name" "".

Definition field_type (inp : Bs4.node) : string := Bs4.get_or inp "type" "".

Definition username_names : list string :=
  ["username"; "login"; "email"; "user"; "login_name"].

Definition password_names : list string := ["password"; "pass"; "pwd"].

(** An input that looks like the place of a password: by its type or by
    its name. *)
Definition password_shaped (inp : Bs4.node) : Prop :=
  lower (field_type inp) = "password"
  \/ lower (field_name inp) ∈ password_names.

Definition username_shaped (inp : Bs4.node) : Prop :=
  lower (field_type inp) = "email"
  \/ lower (field_name inp) ∈ username_names.

(** A field that can be submitted: it is shaped as wanted and bears a
    name. *)
Definition username_field (inp : Bs4.node) : Prop :=
  username_shaped inp /\ field_name inp ≠ "".

Definition password_field (inp : Bs4.node) : Prop :=
  password_shaped inp /\ field_name inp ≠ "".

(** The inputs of a form, in document order. *)
Definition inputs (form : Bs4.node) : list Bs4.node :=
  filter (fun n => Bs4.tag_name n = Some "input") (Bs4.descendants form).

(** The first form of a page. *)
Definition first_form (page : Bs4.soup) : option Bs4.node :=
  head (filter (fun n => Bs4.tag_name n = Some "form")
               (Bs4.descendants page)).

(** *** Error banners *)

(** One of the classes of the element mentions error or alert. *)
Definition alarming_class (n : Bs4.node) : Prop :=
  match Bs4.classes_of n with
  | Some cls => Exists (fun c => mentions "error" c \/ mentions "alert" c) cls
  | None => False
  end.

Definition banner_tags : list string := ["div"; "span"; "p"].

Definition error_banner (n : Bs4.node) : Prop :=
  match Bs4.tag_name n with
  | Some nm => nm ∈ banner_tags /\ alarming_class n
  | None => False
  end.

#[global] Instance alarming_class_dec n : Decision (alarming_class n).
Proof. unfold alarming_class, mentions. destruct (Bs4.classes_of n); apply _. Defined.

#[global] Instance error_banner_dec n : Decision (error_banner n).
Proof. unfold error_banner. destruct (Bs4.tag_name n); apply _. Defined.

(** The banners of a page in document order, and what they say. *)
Definition error_banners (page : Bs4.soup) : list Bs4.node :=
  filter error_banner (Bs4.descendants page).

Definition banner_text (banners : list Bs4.node) : string :=
  join " " ((fun b => strip (Bs4.get_text b)) <$> banners).

(** *** Data in scripts *)

(** The script blocks of a page, in document order. *)
Definition scripts (page : Bs4.soup) : list Bs4.node :=
  filter (fun n => Bs4.tag_name n = Some "script") (Bs4.descendants page).

(** The lines of a script block that are looked at: those of a block
    whose text, once stripped, declares a variable or touches [window]. *)
Definition scanned_lines (script : Bs4.node) : list string :=
  match Bs4.string_of script with
  | Some s =>
      if contains "window." (strip s) || contains "var " (strip s)
      then split newline (strip s)
      else []
  | None => []
  end.

(** A line that may assign a data or config object. *)
Definition candidate_line (line : string) : Prop :=
  (mentions "data" line \/ mentions "config" line)
  /\ contains "{" line = true /\ contains "}" line = true.

#[global] Instance candidate_line_dec line : Decision (candidate_line line).
Proof. unfold candidate_line, mentions. apply _. Defined.

(** From the first opening brace to the last closing brace. *)
Definition between_braces (line : string) : string :=
  slice line (find "{" line) (rfind "}" line + 1).

(** The candidate texts of a page, in the order in which they are met. *)
Definition candidates (page : Bs4.soup) : list string :=
  between_braces <$>
    filter candidate_line (concat (scanned_lines <$> scripts page)).

(** The texts of the two examples of the specification: an object with
    the key a bound to 1, assigned to a variable named config, and an
    assignment without any object. *)
Definition object_a1 : string := "{" +:+ quoted "a" +:+ ": 1}".

Definition var_config : string := "var config = " +:+ object_a1 +:+ ";".

Definition var_x : string := "var x = 5;".

(** A text that the decoder rejects as malformed. *)
Definition malformed `{SchoolsAPI.Collaborators} (s : string) : Prop :=
  exists e, SchoolsAPI.json_loads s = inl e /\ is_ValueError e = true.

(** *** Tokens *)

(** The first element with the given tag and [name] attribute. *)
Definition first_named (page : Bs4.soup) (tag name : string)
    : option Bs4.node :=
  head (filter (fun n => Bs4.tag_name n = Some tag
                         /\ Bs4.get n "name" = Some name)
               (Bs4.descendants page)).

(** The elements that may carry the token, by decreasing priority. *)
Definition token_carriers (page : Bs4.soup) : list (option Bs4.node) :=
  [ first_named page "input" "csrfmiddlewaretoken";
    first_named page "input" "_token";
    first_named page "input" "csrf_token";
    first_named page "meta" "csrf-token" ].

(** The token that an element carries: its [value] attribute unless that
    is missing or empty, else its [content] attribute unless that is
    missing or empty. *)
Definition carried (e : Bs4.node) : option string :=
  match Bs4.get e "value" with
  | Some v => if decide (v = "") then
                match Bs4.get e "content" with
                | Some c => if decide (c = "") then None else Some c
                | None => None
                end
              else Some v
  | None =>
      match Bs4.get e "content" with
      | Some c => if decide (c = "") then None else Some c
      | None => None
      end
  end.

(** *** Tokens in scripts *)

(** Every character of [s] is of the class. *)
Fixpoint all_of (class : ascii -> bool) (s : string) : Prop :=
  match s with
  | EmptyString => True
  | String c s' => class c = true /\ all_of class s'
  end.

(** [s] does not start with a character of the class. *)
Definition stops (class : ascii -> bool) (s : string) : Prop :=
  match s with
  | EmptyString => True
  | String c _ => class c = false
  end.

(** The words that introduce a token, whatever their case: csrf and token,
    joined or not by an underscore or a hyphen, for the first pattern;
    _token for the second one. *)
Definition introduces (pattern : SchoolsAPI.token_pattern) (word : string)
    : Prop :=
  match pattern with
  | SchoolsAPI.CsrfTokenPattern =>
      lower word ∈ ["csrftoken"; "csrf_token"; "csrf-token"]
  | SchoolsAPI.UnderscoreTokenPattern => lower word = "_token"
  end.

(** The text [m] assigns the token [g]: an introducing word, a quote or
    none, a colon or an equals sign between runs of spaces, and [g], one
    or more letters, digits, hyphens and underscores, between quotes. *)
Definition assigns (pattern : SchoolsAPI.token_pattern) (m g : string)
    : Prop :=
  exists word q ws1 sep ws2 q1 q2,
    m = word +:+ q +:+ ws1 +:+
        String sep (ws2 +:+ String q1 (g +:+ String q2 ""))
    /\ introduces pattern word
    /\ (q = "" \/ exists c, q = String c "" /\ SchoolsAPI.is_quote c = true)
    /\ all_of isspace ws1
    /\ SchoolsAPI.is_assign sep = true
    /\ all_of isspace ws2
    /\ SchoolsAPI.is_quote q1 = true
    /\ g <> ""
    /\ all_of SchoolsAPI.is_token_char g
    /\ SchoolsAPI.is_quote q2 = true.

(** [content] assigns [g] right after [before]. *)
Definition assigned_after (pattern : SchoolsAPI.token_pattern)
    (content before g : string) : Prop :=
  exists m after, content = before +:+ m +:+ after /\ assigns pattern m g.

(** The pattern finds nothing in [content]. *)
Definition unmatched (pattern : SchoolsAPI.token_pattern) (content : string)
    : Prop :=
  forall before g, ~ assigned_after pattern content before g.

(** [g] is the token of the leftmost assignment in [content]. *)
Definition leftmost (pattern : SchoolsAPI.token_pattern)
    (content g : string) : Prop :=
  exists before,
    assigned_after pattern content before g
    /\ forall before' g',
         assigned_after pattern content before' g' ->
         (String.length before <= String.length before')%nat.

(** The token that a script block offers: its text is not empty and
    mentions csrf or token, and [g] is the leftmost assignment of the
    first of the two patterns that finds one. *)
Definition offers (script : Bs4.node) (g : string) : Prop :=
  exists content,
    Bs4.string_of script = Some content
    /\ content <> ""
    /\ (mentions "csrf" content \/ mentions "token" content)
    /\ (leftmost SchoolsAPI.CsrfTokenPattern content g
        \/ (unmatched SchoolsAPI.CsrfTokenPattern content
            /\ leftmost SchoolsAPI.UnderscoreTokenPattern content g)).

(** The token found in the scripts of a page: that of the first script
    block, in document order, that offers one. *)
Definition script_token (page : Bs4.soup) (token : option string) : Prop :=
  match token with
  | Some g =>
      exists before script after,
        scripts page = before ++ script :: after
        /\ Forall (fun s => forall g', ~ offers s g') before
        /\ offers script g
  | None => Forall (fun s => forall g', ~ offers s g') (scripts page)
  end.

(** *** Harvested links *)

(** [x] is the first entry of [l] with its address. *)
Definition first_with_its_url (x : SchoolsAPI.school)
    (l : list SchoolsAPI.school) : Prop :=
  exists before after,
    l = before ++ x :: after
    /\ Forall (fun y => SchoolsAPI.url_ y ≠ SchoolsAPI.url_ x) before.

End Spec.

(** ** Fixtures

    A closed world for the examples: a transport that behaves as an
    [httpx.AsyncClient] does with respect to closing, in front of a server
    given as a function, and the documents that the parser builds for the
    pages of the examples. *)
Module Fixture.

Import Py SchoolsAPI.

Record world : Type := { closed : bool; sent : list request }.

Definition fresh : world := {| closed := false; sent := [] |}.

(** A closed client refuses to send; an open one records the request and
    hands it to the server. *)
Definition httpx_request (server : request -> result response)
    (c : unit) (req : request) : M world response :=
  fun w =>
    if closed w then
      (inl (Exn RuntimeError
              "Cannot send a request, as the client has been closed."), w)
    else (server req, {| closed := false; sent := sent w ++ [req] |}).

(** The address of the site of the examples. *)
Definition site : string := "https://schools.by".

(** Joining an address of the site with a path: the path is appended, and
    a path that opens an authority with a bracket and never closes it is
    refused, as [urllib] does. *)
Definition join (base path : string) : string + string :=
  if startswith "//[" path && negb (contains "]" path) then
    inl "Invalid IPv6 URL"
  else inr (base +:+ path).

(** The request that follows a redirection within the site: to the place
    named by the answer; after 301, 302 and 303 it is a GET without
    data. *)
Definition redirect (req : request) (r : response) : result request :=
  let place := default "" (headers_get r "Location") in
  let url := if startswith "http" place then place else site +:+ place in
  if bool_decide (status_code r ∈ [301; 302; 303]) then
    inr (Request "GET" url [] [] (req_headers req))
  else
    inr (Request (req_method req) url (req_params req) (req_data req)
                 (req_headers req)).

(** Closing is accepted in every state. *)
Definition httpx_aclose (c : unit) : M world unit :=
  fun w => (inr tt, {| closed := true; sent := sent w |}).

Definition document (contents : list Bs4.node) : Bs4.soup :=
  Bs4.Tag "[document]" [] None contents.

(** The parser, on the pages of a table; any other text is an empty
    document and anything but text is refused. *)
Definition parser (pages : list (string * Bs4.soup)) (markup : value)
    : result Bs4.soup :=
  match markup with
  | VStr s => inr (default (document []) (Bs4.assoc s pages))
  | _ => inl (Exn TypeError "object of this type has no len()")
  end.

(** The decoder, on the texts of a table; any other text is malformed. *)
Definition decoder (texts : list (string * dict)) (s : string)
    : result dict :=
  match Bs4.assoc s texts with
  | Some d => inr d
  | None => inl (Exn JSONDecodeError "Expecting value")
  end.

(** The jar of the examples. *)
Definition jar : list (string * string) := [("sessionid", "s3cr3t")].

(** A world with a server, a jar as [dict] sees it, and the tables of the
    parser and of the decoder. *)
Definition env_with (server : request -> result response)
    (jar : result (list (string * string)))
    (pages : list (string * Bs4.soup)) (texts : list (string * dict))
    : Collaborators :=
  {| World := world;
     Connection := unit;
     connect := fun w => (tt, {| closed := false; sent := sent w |});
     send_single_request := httpx_request server;
     build_redirect_request := redirect;
     aclose := httpx_aclose;
     cookies := fun _ _ => jar;
     join_address := join;
     BeautifulSoup := parser pages;
     json_loads := decoder texts |}.

Definition env (server : request -> result response)
    (pages : list (string * Bs4.soup)) (texts : list (string * dict))
    : Collaborators :=
  env_with server (inr jar) pages texts.

(** The client that [__aenter__] opens, and an instance that holds it. *)
Definition client (E : Collaborators) (k : @Connection E) : @Client E :=
  {| connection := k; follow_redirects := true |}.

Definition opened (E : Collaborators) (k : @Connection E) : @t E :=
  {| base_url := site; session := Some (client E k) |}.

(** A response carrying markup. *)
Definition html_response (status : Z) (body : string)
    (location : option string) : response :=
  {| status_code := status;
     headers_get := fun h =>
       if String.eqb h "Content-Type" then Some "text/html; charset=utf-8"
       else if String.eqb h "Location" then location
       else None;
     text := body;
     json := inl (Exn JSONDecodeError "Expecting value");
     url := "https://schools.by/" |}.

(** A server with one login page, at every address that starts as that
    of the login page does, and one answer to every submission. *)
Definition login_server (login_page : string) (answer : response)
    (req : request) : result response :=
  if String.eqb (req_method req) "POST" then inr answer
  else if startswith "https://schools.by/login" (req_url req)
  then inr (html_response 200 login_page None)
  else inr (html_response 200 "<html><body>schools.by</body></html>" None).

(** A server with the same page at every address. *)
Definition one_page_server (page : string) (req : request)
    : result response :=
  inr (html_response 200 page None).

Definition input (type name value : string) : Bs4.node :=
  Bs4.Tag "input" [("type", type); ("name", name); ("value", value)] None [].

Definition txt (s : string) : Bs4.node := Bs4.Str Bs4.Plain s.

(** A login page: token, login, password. *)
Definition login_html : string :=
  "<form action='/login' method='post'><input type='hidden' name='_token' value='tok-1'><input type='text' name='login' value=''><input type='password' name='password' value=''></form>".

Definition login_form : Bs4.node :=
  Bs4.Tag "form" [("action", "/login"); ("method", "post")] None
    [input "hidden" "_token" "tok-1";
     input "text" "login" "";
     input "password" "password" ""].

(** The same page with the password asked first. *)
Definition swapped_html : string :=
  "<form action='/login' method='post'><input type='password' name='password' value=''><input type='text' name='login' value=''></form>".

Definition swapped_form : Bs4.node :=
  Bs4.Tag "form" [("action", "/login"); ("method", "post")] None
    [input "password" "password" "";
     input "text" "login" ""].

(** A login page whose text field bears a name of its own. *)
Definition uid_html : string :=
  "<form action='/login'><input type='text' name='uid' value=''><input type='password' name='password' value=''></form>".

Definition uid_form : Bs4.node :=
  Bs4.Tag "form" [("action", "/login")] None
    [input "text" "uid" ""; input "password" "password" ""].

(** A form that asks for a login and nothing else. *)
Definition no_password_html : string :=
  "<form action='/login'><input type='text' name='login' value=''><input type='submit' name='go' value='Enter'></form>".

Definition no_password_form : Bs4.node :=
  Bs4.Tag "form" [("action", "/login")] None
    [input "text" "login" ""; input "submit" "go" "Enter"].

(** A form without password field whose action opens an authority with a
    bracket that is never closed. *)
Definition bracket_html : string :=
  "<form action='//[x'><input type='text' name='login' value=''></form>".

Definition bracket_form : Bs4.node :=
  Bs4.Tag "form" [("action", "//[x")] None [input "text" "login" ""].

(** Answers to a submission: an error banner in a [div], the same banner
    as a list, and a page without banner. *)
Definition banner_html : string :=
  "<div class='alert alert-danger'> Wrong password </div>".

Definition banner_page : Bs4.soup :=
  document [Bs4.Tag "div" [] (Some ["alert"; "alert-danger"])
              [txt " Wrong password "]].

Definition errorlist_html : string :=
  "<ul class='errorlist'><li>Wrong password</li></ul>".

Definition errorlist : Bs4.node :=
  Bs4.Tag "ul" [] (Some ["errorlist"])
    [Bs4.Tag "li" [] None [txt "Wrong password"]].

Definition errorlist_page : Bs4.soup := document [errorlist].

Definition welcome_html : string := "<p class='lead'>Welcome</p>".

Definition welcome_page : Bs4.soup :=
  document [Bs4.Tag "p" [] (Some ["lead"]) [txt "Welcome"]].

(** Pages with tokens: a visible and a hidden input of the same name
    before a meta tag, and a meta tag before a form with a hidden input. *)
Definition meta (name content : string) : Bs4.node :=
  Bs4.Tag "meta" [("name", name); ("content", content)] None [].

Definition two_tokens_html : string :=
  "<input type='text' name='_token' value='X'><input type='hidden' name='_token' value='A'><meta name='csrf-token' content='B'>".

Definition two_tokens_page : Bs4.soup :=
  document [input "text" "_token" "X"; input "hidden" "_token" "A";
            meta "csrf-token" "B"].

Definition token_meta_html : string :=
  "<meta name='csrf-token' content='meta-9'><form><input type='hidden' name='_token' value='tok-1'></form>".

Definition token_meta_page : Bs4.soup :=
  document [meta "csrf-token" "meta-9";
            Bs4.Tag "form" [] None [input "hidden" "_token" "tok-1"]].

(** A hidden input without value before a meta tag. *)
Definition empty_token_html : string :=
  "<input type='hidden' name='_token' value=''><meta name='csrf-token' content='B'>".

Definition empty_token_page : Bs4.soup :=
  document [input "hidden" "_token" ""; meta "csrf-token" "B"].

(** Pages with one script block each. *)
Definition script (code : string) : Bs4.node :=
  Bs4.Tag "script" [] None [Bs4.Str Bs4.Script code].

(** Pages whose tokens are in scripts: one assignment; and a comment
    that mentions a token before a block in which the second pattern
    matches to the left of the first one. *)
Definition token_script : string := "var csrfToken = 'js-77';".

Definition token_script_html : string :=
  "<script>var csrfToken = 'js-77';</script>".

Definition token_comment : string := "/* the token is set below */".

Definition two_assignments : string :=
  "window._token='u-1'; conf = {CSRF-Token : 'c-2'};".

Definition two_scripts_html : string :=
  "<script>/* the token is set below */</script><script>window._token='u-1'; conf = {CSRF-Token : 'c-2'};</script>".

Definition two_scripts_page : Bs4.soup :=
  document [script token_comment; script two_assignments].

Definition var_config : string := Spec.var_config.

Definition bare_config : string := "config = " +:+ Spec.object_a1 +:+ ";".

Definition var_x : string := Spec.var_x.

(** An object that itself has the key html. *)
Definition object_html : string := "{" +:+ quoted "html" +:+ ": 1}".

Definition var_data_html : string := "var data = " +:+ object_html +:+ ";".

Definition in_script (code : string) : string :=
  "<script>" +:+ code +:+ "</script>".

(** The texts that the decoder of the examples accepts. *)
Definition texts : list (string * dict) :=
  [(Spec.object_a1, [("a", VInt 1)]); (object_html, [("html", VInt 1)])].

(** A page of ten links, three of which are schools of Minsk. *)
Definition a (href text : string) : Bs4.node :=
  Bs4.Tag "a" [("href", href)] None [txt text].

Definition links_html : string :=
  "<a href='/'>Home</a><a href='https://gymn1.schools.by'>Gymnasium 1, Minsk</a><a href='/login'>Sign in</a><a href='https://sch24.schools.by'> School 24 (MINSK) </a><a href='https://sch7brest.schools.by'>School 7, Brest</a><a href='/help'>Help</a><a href='https://gymn1.schools.by'>Gymnasium 1, Minsk</a><a href='https://lyceum.schools.by'>Lyceum of Minsk</a><a href='https://example.org/minsk'>News</a><a href='/about'>About us</a>".

Definition links_page : Bs4.soup :=
  document
    [a "/" "Home";
     a "https://gymn1.schools.by" "Gymnasium 1, Minsk";
     a "/login" "Sign in";
     a "https://sch24.schools.by" " School 24 (MINSK) ";
     a "https://sch7brest.schools.by" "School 7, Brest";
     a "/help" "Help";
     a "https://gymn1.schools.by" "Gymnasium 1, Minsk";
     a "https://lyceum.schools.by" "Lyceum of Minsk";
     a "https://example.org/minsk" "News";
     a "/about" "About us"].

Definition pages : list (string * Bs4.soup) :=
  [(login_html, document [login_form]);
   (swapped_html, document [swapped_form]);
   (uid_html, document [uid_form]);
   (no_password_html, document [no_password_form]);
   (bracket_html, document [bracket_form]);
   (token_script_html, document [script token_script]);
   (two_scripts_html, two_scripts_page);
   (banner_html, banner_page);
   (errorlist_html, errorlist_page);
   (welcome_html, welcome_page);
   (two_tokens_html, two_tokens_page);
   (token_meta_html, token_meta_page);
   (empty_token_html, empty_token_page);
   (in_script var_config, document [script var_config]);
   (in_script bare_config, document [script bare_config]);
   (in_script var_x, document [script var_x]);
   (in_script var_data_html, document [script var_data_html]);
   (links_html, links_page)].

(** A server that fails on every request, not as a transport would. *)
Definition broken_server (req : request) : result response :=
  inl (Exn RuntimeError "Event loop is closed").

Definition broken_env : Collaborators := env broken_server pages texts.

(** The world in which every address answers with [page]. *)
Definition page_env (page : string) : Collaborators :=
  env (one_page_server page) pages texts.

(** The world in which [login_page] is served and every submission is
    answered by [answer]. *)
Definition login_env (login_page : string) (answer : response)
    : Collaborators :=
  env (login_server login_page answer) pages [].

End Fixture.

(** ** The remaining methods of the client

    The data getters, the probe of the known endpoints and the analysis of
    the login form. *)
Module Endpoints.

Import Py SchoolsAPI.

(** The three lists that the probe fills, each entry a mapping. *)
Record endpoints : Type := Endpoints_ {
  working : list dict;
  failing : list dict;
  redirects : list dict
}.

Section Methods.

Context `{Collaborators}.

Definition get_user_info (self : t) : M World value :=
  _make_request self "GET" "/profile" false [].

(** [params = {}], then [params[key] = v] when [v] is given and not
    empty. *)
Definition optional_param (key : string) (v : option string)
    : list (string * string) :=
  match v with
  | Some x => if truthy x then [(key, x)] else []
  | None => []
  end.

Definition get_schedule (self : t) (date : option string) : M World value :=
  _make_request self "GET" "/schedule" false (optional_param "date" date).

Definition get_grades (self : t) (period : option string) : M World value :=
  _make_request self "GET" "/grades" false (optional_param "period" period).

Definition get_homework (self : t) (date : option string) : M World value :=
  _make_request self "GET" "/homework" false (optional_param "date" date).

Definition get_announcements (self : t) : M World value :=
  _make_request self "GET" "/announcements" false [].

(** *** [discover_endpoints] *)

Definition test_endpoints : list string :=
  ["/"; "/login"; "/registration"; "/help"; "/about";
   "/capabilities"; "/cost"; "/contact"; "/news";
   "/subdomains"; "/api"; "/mobile"; "/app"].

Definition redirect_statuses : list Z := [301; 302; 303; 307; 308].

(** [self.session.get(url, follow_redirects=False)] *)
Definition session_get_unfollowed (self : t) (url : string)
    : M World response :=
  match session self with
  | None =>
      raise (Exn AttributeError
               "'NoneType' object has no attribute 'get'")
  | Some c => client_send c (Some false) (Request "GET" url [] [] [])
  end.

(** One turn of the loop over [test_endpoints]: the lists after the
    endpoint has been tried. *)
Definition probe (self : t) (found : endpoints) (endpoint : string)
    : M World endpoints :=
  try_except any_exception
    (let* url := lift (_build_url self endpoint) in
     let* response := session_get_unfollowed self url in
     if status_code response =? 200 then
       ret {| working :=
                working found ++
                [[("endpoint", VStr endpoint);
                  ("status", VInt (status_code response));
                  ("content_type",
                   VStr (default "" (headers_get response "Content-Type")))]];
              failing := failing found;
              redirects := redirects found |}
     else if bool_decide (status_code response ∈ redirect_statuses) then
       ret {| working := working found;
              failing := failing found;
              redirects :=
                redirects found ++
                [[("endpoint", VStr endpoint);
                  ("status", VInt (status_code response));
                  ("location",
                   VStr (default "" (headers_get response "Location")))]] |}
     else
       ret {| working := working found;
              failing :=
                failing found ++
                [[("endpoint", VStr endpoint);
                  ("status", VInt (status_code response))]];
              redirects := redirects found |})
    (fun e =>
       ret {| working := working found;
              failing :=
                failing found ++
                [[("endpoint", VStr endpoint); ("error", VStr (exn_str e))]];
              redirects := redirects found |}).

Fixpoint probe_all (self : t) (found : endpoints) (todo : list string)
    : M World endpoints :=
  match todo with
  | [] => ret found
  | endpoint :: rest =>
      let* found' := probe self found endpoint in
      probe_all self found' rest
  end.

Definition discover_endpoints (self : t) : M World endpoints :=
  probe_all self {| working := []; failing := []; redirects := [] |}
            test_endpoints.

(** *** [analyze_login_form] *)

Definition field_info (inp : Bs4.node) : value :=
  VDict [("name", VStr (Bs4.get_or inp "name" ""));
         ("type", VStr (Bs4.get_or inp "type" ""));
         ("value", VStr (Bs4.get_or inp "value" ""));
         ("required", VBool (Bs4.attr_present "required" inp))].

Definition no_form : value := VDict [("error", VStr "No form found")].

Definition analyze_login_form (self : t) : M World value :=
  try_except any_exception
    (let* result := _make_request self "GET" "/login" false [] in
     let* has_html := lift (contains_str "html" result) in
     if has_html : bool then
       let* html := lift (subscript result "html") in
       let* soup := lift (BeautifulSoup html) in
       match Bs4.find soup ["form"] Bs4.any with
       | Some form =>
           let inputs :=
             Bs4.find_all form ["input"; "textarea"; "select"] Bs4.any in
           ret (VDict [("action", VStr (Bs4.get_or form "action" ""));
                       ("method", VStr (Bs4.get_or form "method" "POST"));
                       ("fields", VList (field_info <$> inputs))])
       | None => ret no_form
       end
     else ret no_form)
    (fun e => ret (VDict [("error", VStr (exn_str e))])).

End Methods.

End Endpoints.

(** ** Further notions

    The notions in which the properties of the submission, of the harvested
    entries and of the probe are stated. *)
Module Notions.

Import Py SchoolsAPI Endpoints.

(** From the world [w], the landing page and then the login page are
    fetched through an open session; the login page is answered with 200 by
    [r1], leaving the world [w'], its body parses to [page] and [form] is
    the first form of the page. *)
Definition login_page `{Collaborators} (self : t) (w w' : World)
    (r1 : response) (page form : Bs4.node) : Prop :=
  exists c home login r0 w1,
    session self = Some c
    /\ _build_url self "/" = inr home
    /\ _build_url self "/login" = inr login
    /\ client_request c (Request "GET" home [] [] []) w = (inr r0, w1)
    /\ client_request c (Request "GET" login [] [] []) w1 = (inr r1, w')
    /\ status_code r1 = 200
    /\ BeautifulSoup (VStr (text r1)) = inr page
    /\ Spec.first_form page = Some form.

(** The hidden inputs of a form, in document order. *)
Definition hidden_inputs (form : Bs4.node) : list Bs4.node :=
  filter (fun n => Bs4.tag_name n = Some "input"
                   /\ Bs4.get n "type" = Some "hidden")
         (Bs4.descendants form).

Definition canonical_names : list string :=
  ["csrfmiddlewaretoken"; "_token"; "csrf_token"].

(** The name under which a token goes back: that of the first hidden input
    bearing one of the three canonical names. *)
Definition token_field (form : Bs4.node) : option string :=
  head (filter (fun n => n ∈ canonical_names)
               (omap (fun h => Bs4.get h "name") (hidden_inputs form))).

(** Where the form is posted: its action, [/login] without one, joined to
    the base address unless it starts with http; a join that is refused
    leaves no place to post to. *)
Definition target `{Collaborators} (self : t) (form : Bs4.node)
    : result string :=
  let action := default "/login" (Bs4.get form "action") in
  if startswith "http" action then inr action
  else urljoin (base_url self) action.

(** [h] is the last of the inputs [l] that bears the name [n]. *)
Definition last_named (n : string) (h : Bs4.node) (l : list Bs4.node) : Prop :=
  exists before after,
    l = before ++ h :: after
    /\ Bs4.get h "name" = Some n
    /\ Forall (fun x => Bs4.get x "name" <> Some n) after.

(** An entry whose name has been stripped and is longer than three
    characters. *)
Definition well_named (s : school) : Prop :=
  strip (name s) = name s /\ 3 < len (name s).

(** The anchors of a page that bear an address, in document order. *)
Definition links (page : Bs4.soup) : list Bs4.node :=
  filter (fun n => Bs4.tag_name n = Some "a" /\ is_Some (Bs4.get n "href"))
         (Bs4.descendants page).

(** What a page of the search adds to the list of entries, and the world
    that the request for it leaves; a page that fails adds nothing. *)
Definition gathered `{Collaborators} (self : t) (endpoint : string)
    (pick : Bs4.node -> option school) (w : World) : list school * World :=
  let '(_, (w', new)) := harvest_page self endpoint pick (w, []) in
  (new, w').

(** The entries of the page of subdomains that the search keeps. *)
Definition matching (query : string) (subdomains : list school)
    : list school :=
  filter (fun school => contains (lower query) (lower (name school)) = true)
         subdomains.

(** The two shapes of a verdict on a submission: a success, with a
    message and the cookies of the session, and a failure, with a reason
    that starts with the words Authentication failed. *)
Definition success_verdict (d : dict) : Prop :=
  dict_get "success" d = Some (VBool true)
  /\ (exists message, dict_get "message" d = Some (VStr message))
  /\ (exists cookies, dict_get "cookies" d = Some (VDict cookies))
  /\ dict_get "error" d = None.

Definition failure_verdict (d : dict) : Prop :=
  dict_get "success" d = Some (VBool false)
  /\ (exists reason,
         dict_get "error" d = Some (VStr ("Authentication failed" +:+ reason)))
  /\ dict_get "cookies" d = None.

(** The address and the visible text of an anchor. *)
Definition href (a : Bs4.node) : string := default "" (Bs4.get a "href").

Definition label (a : Bs4.node) : string := strip (Bs4.get_text a).

(** An anchor that leads to the site of a school and says more than three
    characters. *)
Definition school_site (a : Bs4.node) : Prop :=
  (contains ".schools.by" (href a) = true
   \/ contains "schools.by/" (href a) = true)
  /\ 3 < len (label a).

#[global] Instance school_site_dec a : Decision (school_site a).
Proof. unfold school_site. apply _. Defined.

(** The types of the entries that the search returns. *)
Definition result_types : list string :=
  ["main_page_link"; "subdomain"; "from_/capabilities"; "from_/help";
   "from_/about"].

(** What the search promises of an entry kept for [query]. *)
Definition hit (query : string) (s : school) : Prop :=
  well_named s
  /\ contains (lower query) (lower (name s)) = true
  /\ type_ s ∈ result_types
  /\ ((source s = None /\ type_ s ∈ ["main_page_link"; "subdomain"])
      \/ exists page, page ∈ test_pages /\ source s = Some page
                      /\ type_ s = "from_" +:+ page).

(** The endpoint that an entry of the probe is about. *)
Definition entry_endpoint (entry : dict) : option string :=
  match dict_get "endpoint" entry with
  | Some (VStr e) => Some e
  | _ => None
  end.

Definition entry_status (entry : dict) : option Z :=
  match dict_get "status" entry with
  | Some (VInt z) => Some z
  | _ => None
  end.

(** All the entries of the probe, list after list. *)
Definition all_entries (found : endpoints) : list dict :=
  working found ++ redirects found ++ failing found.

(** The three kinds of entries: an endpoint that answered 200, with the
    content type of the answer; one that answered with a redirection, with
    the place it leads to; and one that answered with another status, or
    did not answer, with the message of the failure. *)
Definition answered (entry : dict) : Prop :=
  entry_status entry = Some 200
  /\ exists ctype, dict_get "content_type" entry = Some (VStr ctype).

Definition redirected (entry : dict) : Prop :=
  exists status place,
    entry_status entry = Some status
    /\ status ∈ redirect_statuses
    /\ dict_get "location" entry = Some (VStr place).

Definition failed (entry : dict) : Prop :=
  (exists status,
      entry_status entry = Some status
      /\ status <> 200 /\ (status ∉ redirect_statuses)
      /\ dict_get "error" entry = None)
  \/ (exists message,
         dict_get "error" entry = Some (VStr message)
         /\ dict_get "status" entry = None).

(** What the probe is answered: for each endpoint in turn, the answer to
    a GET of its address that does not follow redirections, sent in the
    world that the previous endpoints left; an endpoint whose address
    cannot be built is not asked, and counts as the refusal of the
    join. *)
Fixpoint answers `{Collaborators} (self : t) (c : Client)
    (endpoints : list string) (w : World)
    : list (result response) * World :=
  match endpoints with
  | [] => ([], w)
  | endpoint :: rest =>
      let (answer, w1) :=
        match _build_url self endpoint with
        | inr address =>
            client_send c (Some false) (Request "GET" address [] [] []) w
        | inl e => (inl e, w)
        end in
      let (others, w') := answers self c rest w1 in
      (answer :: others, w')
  end.

(** The entry of an endpoint in each of the three lists, if its answer
    puts it there: in working after a 200, with the content type; in
    redirects after a 301, 302, 303, 307 or 308, with the place; in
    failing after any other status, with that status, and after an
    exception, with its message. *)
Definition working_entry (probed : string * result response) : option dict :=
  match probed.2 with
  | inr r =>
      if decide (status_code r = 200) then
        Some [("endpoint", VStr probed.1);
              ("status", VInt 200);
              ("content_type",
               VStr (default "" (headers_get r "Content-Type")))]
      else None
  | inl _ => None
  end.

Definition redirect_entry (probed : string * result response) : option dict :=
  match probed.2 with
  | inr r =>
      if decide (status_code r ∈ redirect_statuses) then
        Some [("endpoint", VStr probed.1);
              ("status", VInt (status_code r));
              ("location", VStr (default "" (headers_get r "Location")))]
      else None
  | inl _ => None
  end.

Definition failing_entry (probed : string * result response) : option dict :=
  match probed.2 with
  | inr r =>
      if decide (status_code r = 200 \/ status_code r ∈ redirect_statuses)
      then None
      else Some [("endpoint", VStr probed.1);
                 ("status", VInt (status_code r))]
  | inl e => Some [("endpoint", VStr probed.1); ("error", VStr (exn_str e))]
  end.

(** The controls of a form that the analysis lists. *)
Definition control (n : Bs4.node) : Prop :=
  match Bs4.tag_name n with
  | Some nm => nm ∈ ["input"; "textarea"; "select"]
  | None => False
  end.

#[global] Instance control_dec n : Decision (control n).
Proof. unfold control. destruct (Bs4.tag_name n); apply _. Defined.

Definition controls (form : Bs4.node) : list Bs4.node :=
  filter control (Bs4.descendants form).

End Notions.

(** ** More fixtures

    Servers that answer every request in the same way, and a server for
    the probe. *)
Module Lab.

Import Py SchoolsAPI Endpoints.

(** A server that answers every request with [status], [body] and the
    content type [ctype]; [payload] is what decoding the body as JSON
    gives. *)
Definition answer (status : Z) (ctype body : string) (payload : result value)
    : response :=
  {| status_code := status;
     headers_get := fun h =>
       if String.eqb h "Content-Type" then Some ctype else None;
     text := body;
     json := payload;
     url := "https://schools.by/final" |}.

Definition not_json : result value :=
  inl (Exn JSONDecodeError "Expecting value").

Definition constant_env (r : result response) : Collaborators :=
  Fixture.env (fun _ => r) Fixture.pages Fixture.texts.

(** A transport failure, as httpx reports a timeout. *)
Definition timed_out : exn := Exn RequestError "timed out".

(** A page of 250 characters: five lines of fifty. *)
Definition fifty : string :=
  "0123456789012345678901234567890123456789012345678|".

Definition long_body : string :=
  fifty +:+ fifty +:+ fifty +:+ fifty +:+ fifty.

(** The probe in front of a site where the root and the login page
    answer, the registration has moved, the API is unreachable and
    everything else is missing. *)
Definition probe_server (req : request) : result response :=
  let url := req_url req in
  if String.eqb url "https://schools.by/"
     || String.eqb url "https://schools.by/login"
  then inr (answer 200 "text/html" "<html></html>" not_json)
  else if String.eqb url "https://schools.by/registration"
  then inr {| status_code := 301;
              headers_get := fun h =>
                if String.eqb h "Location" then Some "/signup" else None;
              text := "";
              json := not_json;
              url := url |}
  else if String.eqb url "https://schools.by/api"
  then inl (Exn RequestError "connection refused")
  else inr (answer 404 "text/html" "not found" not_json).

(** A login page with a token outside the form, an absolute action and two
    hidden fields in the form. *)
Definition rich_html : string :=
  "<input type='hidden' name='csrfmiddlewaretoken' value='outer'><form action='https://sso.schools.by/enter'><input type='hidden' name='next' value='/home'><input type='hidden' name='_token' value='inner'><input type='email' name='mail' value=''><input type='password' name='pwd' value=''></form>".

Definition rich_form : Bs4.node :=
  Bs4.Tag "form" [("action", "https://sso.schools.by/enter")] None
    [Fixture.input "hidden" "next" "/home";
     Fixture.input "hidden" "_token" "inner";
     Fixture.input "email" "mail" "";
     Fixture.input "password" "pwd" ""].

Definition rich_page : Bs4.soup :=
  Fixture.document
    [Fixture.input "hidden" "csrfmiddlewaretoken" "outer"; rich_form].

(** The world in which the login page is [rich_html] and every submission
    is answered by [answer]. *)
Definition rich_env (r : response) : Collaborators :=
  Fixture.env (Fixture.login_server rich_html r)
              ((rich_html, rich_page) :: Fixture.pages) Fixture.texts.

(** What is submitted for ann and pw in that world, and the world after
    the two GETs. *)
Definition rich_submission : request :=
  Request "POST" "https://sso.schools.by/enter" []
    [("next", "/home"); ("_token", "outer"); ("mail", "ann"); ("pwd", "pw")]
    [("Content-Type", "application/x-www-form-urlencoded");
     ("Referer", "https://schools.by/login");
     ("Origin", "https://schools.by")].

Definition two_gets : Fixture.world :=
  {| Fixture.closed := false;
     Fixture.sent :=
       [Request "GET" "https://schools.by/" [] [] [];
        Request "GET" "https://schools.by/login" [] [] []] |}.

Definition probe_env : Collaborators :=
  Fixture.env probe_server Fixture.pages Fixture.texts.

(** A site for the search: the main page lists ten links, the page of
    subdomains and the last of the other pages one school each, and the
    two pages in between fail, one in the transport and one by answering
    with a number. *)
Definition sch5_html : string :=
  "<a href='https://sch5.schools.by'>School 5 of Minsk</a>".

Definition gymn9_html : string :=
  "<a href='https://gymn9.schools.by'>Gymnasium 9, Minsk</a>".

Definition patchy_server (req : request) : result response :=
  let url := req_url req in
  if String.eqb url "https://schools.by/"
  then inr (Fixture.html_response 200 Fixture.links_html None)
  else if String.eqb url "https://schools.by/subdomains"
  then inr (Fixture.html_response 200 sch5_html None)
  else if String.eqb url "https://schools.by/capabilities"
  then inl (Exn RuntimeError "Event loop is closed")
  else if String.eqb url "https://schools.by/help"
  then inr (answer 200 "application/json" "5" (inr (VInt 5)))
  else inr (Fixture.html_response 200 gymn9_html None).

Definition patchy_env : Collaborators :=
  Fixture.env patchy_server
    ((sch5_html,
      Fixture.document
        [Fixture.a "https://sch5.schools.by" "School 5 of Minsk"])
     :: (gymn9_html,
         Fixture.document
           [Fixture.a "https://gymn9.schools.by" "Gymnasium 9, Minsk"])
     :: Fixture.pages)
    Fixture.texts.

End Lab.

(** ** The Telegram bot

    The handlers of [bot.py] that keep the sessions of the users and call
    the client: the conversation of [/login], [/logout], the commands that
    show data and the buttons. *)
Module Bot.

Import Py SchoolsAPI Endpoints.

(** *** Texts for Telegram

    The texts that the bot sends are written as the source writes them, in
    UTF-8; a text of the program, whose characters are code points below
    256, enters them through [utf8]. *)
Definition utf8_char (c : ascii) : string :=
  let n := N_of_ascii c in
  if (n <? 128)%N then String c EmptyString
  else String (ascii_of_N (192 + n / 64))
         (String (ascii_of_N (128 + n mod 64)) EmptyString).

Fixpoint utf8 (s : string) : string :=
  match s with
  | EmptyString => EmptyString
  | String c s' => utf8_char c +:+ utf8 s'
  end.

(** The escape [\n] of a literal. *)
Definition nl : string := String newline EmptyString.

(** *** What a handler is given *)

(** [update.message]: its [text], if any. *)
Record message : Type := Message {
  message_id : Z;
  message_text : option string
}.

(** [update.callback_query]: its [data] and the message that bore the
    button, if any. *)
Record callback_query : Type := CallbackQuery {
  query_data : option string;
  query_message : option message
}.

(** An update with a sender: [update.effective_user.id], and
    [update.message] and [update.callback_query], of which Telegram fills
    in the one that the update is about. *)
Record update : Type := Update {
  effective_user_id : Z;
  update_message : option message;
  update_callback_query : option callback_query
}.

(** The rows of an [InlineKeyboardMarkup]: the label and the
    [callback_data] of each button. *)
Definition keyboard : Type := list (list (string * string)).

(** The states of the conversation: [range(2)] and
    [ConversationHandler.END]. *)
Definition WAITING_LOGIN : Z := 0.

Definition WAITING_PASSWORD : Z := 1.

Definition END : Z := -1.

(** What surrounds the bot besides the collaborators of the client.
    [Chat] is the state of everything reached through Telegram. *)
Class Surroundings `{Collaborators} : Type := {
  Chat : Type;
  (** [message.reply_text(text, reply_markup=..., parse_mode=...)] *)
  reply_text :
    message -> string -> option keyboard -> option string -> M Chat unit;
  (** [message.delete()] *)
  message_delete : message -> M Chat unit;
  (** [query.answer()] *)
  query_answer : callback_query -> M Chat unit;
  (** [str(v)] for a float, a list or a mapping *)
  str_other : value -> string;
  (** [bool(x)] for the float written [repr] *)
  float_truth : string -> bool;
  (** [api.authenticate(username, password)] for a [username] that is no
      text, a call that [authenticate] above, given a text, does not
      cover *)
  authenticate_other : t -> value -> string -> M World value
}.

Section Handlers.

Context `{Surroundings}.

(** *** Values as the handlers use them *)

(** [bool(v)] *)
Definition truth (v : value) : bool :=
  match v with
  | VNone => false
  | VBool b => b
  | VInt z => negb (z =? 0)
  | VFloat repr => float_truth repr
  | VStr s => truthy s
  | VList [] => false
  | VList (_ :: _) => true
  | VDict [] => false
  | VDict (_ :: _) => true
  end.

(** A value in a field of an f-string. *)
Definition str (v : value) : string :=
  match v with
  | VStr s => utf8 s
  | VNone => "None"
  | VBool true => "True"
  | VBool false => "False"
  | VInt z => str_int z
  | _ => utf8 (str_other v)
  end.

(** A field of an f-string holding [d.get(key, dflt)], the default being a
    literal of the source. *)
Definition get_str (d : dict) (key dflt : string) : string :=
  match dict_get key d with
  | Some v => str v
  | None => dflt
  end.

(** [v.get] on something that may not be a mapping *)
Definition mapping (v : value) : result dict :=
  match v with
  | VDict d => inr d
  | VNone =>
      inl (Exn AttributeError "'NoneType' object has no attribute 'get'")
  | VBool _ => inl (Exn AttributeError "'bool' object has no attribute 'get'")
  | VInt _ => inl (Exn AttributeError "'int' object has no attribute 'get'")
  | VFloat _ =>
      inl (Exn AttributeError "'float' object has no attribute 'get'")
  | VStr _ => inl (Exn AttributeError "'str' object has no attribute 'get'")
  | VList _ => inl (Exn AttributeError "'list' object has no attribute 'get'")
  end.

(** *** The state of the bot

    [self.user_sessions], the [context.user_data] of every user, and the
    two outside worlds. *)
Record state : Type := State {
  user_sessions : gmap Z dict;
  user_data : gmap Z dict;
  web : World;
  chat : Chat
}.

Definition in_web {A : Type} (c : M World A) : M state A :=
  fun st =>
    let (r, w) := c (web st) in
    (r, {| user_sessions := user_sessions st; user_data := user_data st;
           web := w; chat := chat st |}).

Definition in_chat {A : Type} (c : M Chat A) : M state A :=
  fun st =>
    let (r, c') := c (chat st) in
    (r, {| user_sessions := user_sessions st; user_data := user_data st;
           web := web st; chat := c' |}).

(** [context.user_data] for the sender of an update *)
Definition context_user_data (update : update) (st : state) : dict :=
  default [] (user_data st !! effective_user_id update).

(** [context.user_data[key] = v] *)
Definition set_user_data (update : update) (key : string) (v : value)
    : M state unit :=
  fun st =>
    (inr tt,
     {| user_sessions := user_sessions st;
        user_data :=
          <[effective_user_id update :=
              dict_set key v (context_user_data update st)]> (user_data st);
        web := web st; chat := chat st |}).

(** [self.user_sessions[user_id] = session] *)
Definition set_session (user_id : Z) (session : dict) : M state unit :=
  fun st =>
    (inr tt,
     {| user_sessions := <[user_id := session]> (user_sessions st);
        user_data := user_data st; web := web st; chat := chat st |}).

(** [del self.user_sessions[user_id]] for a user that has a session *)
Definition del_session (user_id : Z) : M state unit :=
  fun st =>
    (inr tt,
     {| user_sessions := delete user_id (user_sessions st);
        user_data := user_data st; web := web st; chat := chat st |}).

(** [self.user_sessions[user_id]] *)
Definition session_of (user_id : Z) : M state dict :=
  fun st =>
    match user_sessions st !! user_id with
    | Some session => (inr session, st)
    | None => (inl (Exn OtherException (str_int user_id)), st)
    end.

(** [await update.message.reply_text(text, ...)] *)
Definition reply (update : update) (text : string)
    (reply_markup : option keyboard) (parse_mode : option string)
    : M state unit :=
  match update_message update with
  | Some m => in_chat (reply_text m text reply_markup parse_mode)
  | None =>
      raise (Exn AttributeError
               "'NoneType' object has no attribute 'reply_text'")
  end.

(** [await update.message.delete()] *)
Definition delete_message (update : update) : M state unit :=
  match update_message update with
  | Some m => in_chat (message_delete m)
  | None =>
      raise (Exn AttributeError
               "'NoneType' object has no attribute 'delete'")
  end.

(** [update.message.text.strip()] *)
Definition stripped_text (update : update) : M state string :=
  match update_message update with
  | Some m =>
      match message_text m with
      | Some s => ret (strip s)
      | None =>
          raise (Exn AttributeError
                   "'NoneType' object has no attribute 'strip'")
      end
  | None =>
      raise (Exn AttributeError "'NoneType' object has no attribute 'text'")
  end.

(** [async with SchoolsAPI() as api: body]: the session is closed when the
    body is left, also by an exception, which is then raised again unless
    the closing raises one of its own. *)
Definition with_api {A : Type} (body : t -> M state A) : M state A :=
  fun st =>
    let (api, w) := __aenter__ (__init__ "https://schools.by") (web st) in
    let st1 := {| user_sessions := user_sessions st;
                  user_data := user_data st; web := w; chat := chat st |} in
    let (r, st2) := body api st1 in
    match in_web (__aexit__ api) st2 with
    | (inr _, st3) => (r, st3)
    | (inl e, st3) => (inl e, st3)
    end.

(** *** [help_command] *)

(** The text of [/help]. *)
Definition help_message : string :=
  join nl
    ["";
     "🔧 Доступные команды:";
     "";
     "🔑 Аутентификация:";
     "/login - Войти в систему schools.by";
     "/logout - Выйти из системы";
     "";
     "📚 Основные функции:";
     "/schedule - Посмотреть расписание занятий";
     "/grades - Посмотреть оценки";
     "/homework - Посмотреть домашние задания";
     "/announcements - Посмотреть объявления";
     "/profile - Информация о профиле";
     "";
     "ℹ️ Справка:";
     "/help - Показать это сообщение";
     "/start - Начать работу с ботом";
     "";
     "📝 Примечания:";
     "• Для работы с данными необходимо войти в систему";
     "• Бот безопасно хранит ваши данные только в течение сессии";
     "• Для выхода используйте команду /logout";
     "        "].

Definition help_command (update : update) : M state unit :=
  reply update help_message None None.

(** *** [login_command] *)

Definition login_command (update : update) : M state Z :=
  let user_id := effective_user_id update in
  fun st =>
    match user_sessions st !! user_id with
    | Some _ =>
        (let* _ :=
           reply update
             "Вы уже вошли в систему! Используйте /logout для выхода."
             None None in
         ret END) st
    | None =>
        (let* _ :=
           reply update
             ("🔑 Вход в систему schools.by" +:+ nl +:+ nl +:+
              "Введите ваш логин (имя пользователя):" +:+ nl +:+ nl +:+
              "Для отмены используйте команду /cancel")
             None None in
         ret WAITING_LOGIN) st
    end.

(** *** [handle_login] *)

Definition handle_login (update : update) : M state Z :=
  let* username := stripped_text update in
  let* _ := set_user_data update "username" (VStr username) in
  let* _ :=
    reply update
      ("Логин принят: " +:+ utf8 username +:+ nl +:+ nl +:+
       "Теперь введите ваш пароль:")
      None None in
  ret WAITING_PASSWORD.

(** *** [handle_password] *)

(** [api.authenticate(username, password)] for what [context.user_data]
    holds under the key username *)
Definition authenticate_as (api : t) (username : option value)
    (password : string) : M World value :=
  match username with
  | Some (VStr u) => authenticate api u password
  | Some v => authenticate_other api v password
  | None => authenticate_other api VNone password
  end.

(** [isinstance(auth_result, dict) and not auth_result.get('success', False)] *)
Definition refused (auth_result : value) : bool :=
  match auth_result with
  | VDict d => negb (truth (default (VBool false) (dict_get "success" d)))
  | _ => false
  end.

(** What is kept for a user that has logged in. *)
Definition new_session (username : option value) (auth_result : value)
    : dict :=
  [("username", default VNone username);
   ("authenticated", VBool true);
   ("auth_data", auth_result)].

Definition login_keyboard : keyboard :=
  [[("📅 Расписание", "schedule")];
   [("📊 Оценки", "grades")];
   [("📝 Домашние задания", "homework")]].

(** The body of [async with]: [None] when the handler returns from inside
    it, the verdict when it goes on. *)
Definition attempt (update : update) (username : option value)
    (password : string) (api : t) : M state (option value) :=
  let* auth_result := in_web (authenticate_as api username password) in
  if refused auth_result then
    let* d := lift (mapping auth_result) in
    let error_msg := get_str d "error" "Неизвестная ошибка" in
    let* _ :=
      reply update
        ("❌ Ошибка входа: " +:+ error_msg +:+ nl +:+ nl +:+
         "Проверьте правильность логина и пароля." +:+ nl +:+
         "Попробуйте снова: /login")
        None None in
    ret None
  else
    let* _ :=
      set_session (effective_user_id update)
                  (new_session username auth_result) in
    ret (Some auth_result).

Definition handle_password (update : update) : M state Z :=
  let* password := stripped_text update in
  let* username :=
    fun st => (inr (dict_get "username" (context_user_data update st)), st) in
  let* _ :=
    try_except any_exception (delete_message update) (fun _ => ret tt) in
  let* _ := reply update "🔄 Проверяем данные для входа..." None None in
  let* _ :=
    try_except any_exception
      (let* outcome := with_api (attempt update username password) in
       match outcome with
       | None => ret tt
       | Some auth_result =>
           let* d := lift (mapping auth_result) in
           let success_msg := get_str d "message" "Успешная аутентификация" in
           reply update
             ("✅ " +:+ success_msg +:+ nl +:+
              "Пользователь: " +:+ str (default VNone username) +:+
              nl +:+ nl +:+
              "Теперь вы можете использовать все функции бота:")
             (Some login_keyboard) None
       end)
      (fun e =>
         if is_SchoolsAPIError e then
           reply update
             ("❌ Ошибка входа: " +:+ utf8 (exn_str e) +:+ nl +:+ nl +:+
              "Проверьте правильность логина и пароля." +:+ nl +:+
              "Попробуйте снова: /login")
             None None
         else
           reply update
             ("❌ Произошла ошибка при входе в систему." +:+ nl +:+
              "Попробуйте позже или обратитесь к администратору.")
             None None) in
  ret END.

(** *** [cancel_command] *)

Definition cancel_command (update : update) : M state Z :=
  let* _ :=
    reply update
      ("❌ Операция отменена." +:+ nl +:+
       "Используйте /start для возврата к главному меню.")
      None None in
  ret END.

(** *** [_check_authentication] and [_get_user_credentials] *)

(** [session and session.get('authenticated', False)] *)
Definition _check_authentication (sessions : gmap Z dict) (user_id : Z)
    : value :=
  match sessions !! user_id with
  | None => VNone
  | Some session =>
      if truth (VDict session)
      then default (VBool false) (dict_get "authenticated" session)
      else VDict session
  end.

Definition _get_user_credentials (sessions : gmap Z dict) (user_id : Z)
    : option (value * value) :=
  match sessions !! user_id with
  | None => None
  | Some session =>
      if truth (VDict session)
         && truth (default VNone (dict_get "authenticated" session))
      then Some (default VNone (dict_get "username" session),
                 default VNone (dict_get "auth_data" session))
      else None
  end.

(** *** [schedule_command] *)

Definition sample_schedule (username : string) : string :=
  join nl
    ["📅 **Расписание для " +:+ username +:+ "**";
     "";
     "📆 Понедельник:";
     "• 09:00-09:45 Математика";
     "• 10:00-10:45 Русский язык";
     "• 11:00-11:45 История";
     "";
     "📆 Вторник:";
     "• 09:00-09:45 Физика";
     "• 10:00-10:45 Химия";
     "• 11:00-11:45 Биология";
     "";
     "⚠️ Это пример данных. Для получения реального расписания необходима доработка API."].

(** [isinstance(schedule, dict) and 'html' not in schedule] *)
Definition structured (schedule : value) : bool :=
  match schedule with
  | VDict d => negb (dict_has "html" d)
  | _ => false
  end.

Definition show_schedule (update : update) (api : t) : M state unit :=
  let* schedule := in_web (get_schedule api None) in
  let* schedule_text :=
    if structured schedule then
      ret ("📅 **Расписание занятий:**" +:+ nl +:+ nl +:+ str schedule)
    else
      let* session := session_of (effective_user_id update) in
      ret (sample_schedule (get_str session "username" "Пользователь")) in
  reply update schedule_text None (Some "Markdown").

Definition schedule_command (update : update) : M state unit :=
  let user_id := effective_user_id update in
  fun st =>
    if negb (truth (_check_authentication (user_sessions st) user_id)) then
      reply update
        ("🔐 Для просмотра расписания необходимо войти в систему." +:+ nl +:+
         "Используйте команду /login")
        None None st
    else
      try_except any_exception
        (let* _ := reply update "📅 Получаем расписание..." None None in
         with_api (show_schedule update))
        (fun e =>
           reply update "❌ Ошибка при получении расписания." None None) st.

(** *** [grades_command] and [homework_command] *)

Definition sample_grades (username : string) : string :=
  join nl
    ["📊 **Оценки для " +:+ username +:+ "**";
     "";
     "📚 Математика: 9, 8, 9, 10";
     "📖 Русский язык: 8, 9, 8, 9";
     "🌍 География: 10, 9, 10, 9";
     "🔬 Физика: 8, 8, 9, 8";
     "⚗️ Химия: 9, 8, 9, 9";
     "🌿 Биология: 9, 10, 9, 8";
     "";
     "🎆 Средний балл: 8.9";
     "";
     "⚠️ Это пример данных. Для получения реальных оценок необходима доработка API."].

Definition grades_command (update : update) : M state unit :=
  let user_id := effective_user_id update in
  fun st =>
    if negb (truth (_check_authentication (user_sessions st) user_id)) then
      reply update
        ("🔐 Для просмотра оценок необходимо войти в систему." +:+ nl +:+
         "Используйте команду /login")
        None None st
    else
      try_except any_exception
        (let* _ := reply update "📊 Получаем оценки..." None None in
         let* session := session_of user_id in
         reply update
           (sample_grades (get_str session "username" "Пользователь"))
           None (Some "Markdown"))
        (fun e =>
           reply update "❌ Ошибка при получении оценок." None None) st.

Definition sample_homework (username : string) : string :=
  join nl
    ["📝 **Домашние задания для " +:+ username +:+ "**";
     "";
     "📚 Математика:";
     "• Решить задачи № 15-20 (стр. 45)";
     "• К среде 22.09";
     "";
     "📖 Русский язык:";
     "• Написать сочинение на тему " +:+ dq +:+ "Моя мечта" +:+ dq;
     "• К пятнице 24.09";
     "";
     "🔬 Физика:";
     "• Изучить параграф 3.2";
     "• Решить задачу № 12";
     "• К четвергу 23.09";
     "";
     "⚠️ Это пример данных. Для получения реальных домашних заданий необходима доработка API."].

Definition homework_command (update : update) : M state unit :=
  let user_id := effective_user_id update in
  fun st =>
    if negb (truth (_check_authentication (user_sessions st) user_id)) then
      reply update
        ("🔐 Для просмотра домашних заданий необходимо войти в систему."
         +:+ nl +:+ "Используйте команду /login")
        None None st
    else
      try_except any_exception
        (let* _ := reply update "📝 Получаем домашние задания..." None None in
         let* session := session_of user_id in
         reply update
           (sample_homework (get_str session "username" "Пользователь"))
           None (Some "Markdown"))
        (fun e =>
           reply update "❌ Ошибка при получении домашних заданий."
             None None) st.

(** *** [logout_command] *)

Definition logout_command (update : update) : M state unit :=
  let user_id := effective_user_id update in
  fun st =>
    match user_sessions st !! user_id with
    | Some _ =>
        (let* _ := del_session user_id in
         reply update
           ("✅ Вы успешно вышли из системы." +:+ nl +:+
            "Используйте /login для повторного входа.")
           None None) st
    | None =>
        reply update "ℹ️ Вы не были авторизованы в системе." None None st
    end.

(** *** [handle_callback] *)

(** [data == name] *)
Definition is_data (data : option string) (name : string) : bool :=
  match data with
  | Some d => String.eqb d name
  | None => false
  end.

Definition handle_callback (update : update) : M state unit :=
  match update_callback_query update with
  | None =>
      raise (Exn AttributeError "'NoneType' object has no attribute 'answer'")
  | Some query =>
      let* _ := in_chat (query_answer query) in
      let data := query_data query in
      if is_data data "login" then
        match query_message query with
        | Some m =>
            in_chat
              (reply_text m
                 "🔑 Используйте команду /login для входа в систему."
                 None None)
        | None =>
            raise (Exn AttributeError
                     "'NoneType' object has no attribute 'reply_text'")
        end
      else if is_data data "help" then help_command update
      else if is_data data "schedule" then schedule_command update
      else if is_data data "grades" then grades_command update
      else if is_data data "homework" then homework_command update
      else ret tt
  end.

End Handlers.

End Bot.

(** ** The life of the bot

    The handlers as the dispatcher may call them, one update after the
    other, and what the properties of the sessions are stated with. *)
Module Life.

Import Py SchoolsAPI Bot.

Inductive handler : Type :=
| HelpCommand | LoginCommand | HandleLogin | HandlePassword | CancelCommand
| ScheduleCommand | GradesCommand | HomeworkCommand | LogoutCommand
| HandleCallback.

Section Runs.

Context `{Surroundings}.

(** The state that a handler leaves, whether it returns or raises. *)
Definition run (h : handler) (update : update) (st : state) : state :=
  match h with
  | HelpCommand => (help_command update st).2
  | LoginCommand => (login_command update st).2
  | HandleLogin => (handle_login update st).2
  | HandlePassword => (handle_password update st).2
  | CancelCommand => (cancel_command update st).2
  | ScheduleCommand => (schedule_command update st).2
  | GradesCommand => (grades_command update st).2
  | HomeworkCommand => (homework_command update st).2
  | LogoutCommand => (logout_command update st).2
  | HandleCallback => (handle_callback update st).2
  end.

(** The state after a sequence of updates, each with the handler that the
    dispatcher has chosen for it. *)
Definition after (events : list (handler * update)) (st : state) : state :=
  fold_left (fun st event => run event.1 event.2 st) events st.

(** Every session that is kept says that its user is authenticated and
    holds a username and the verdict of the login. *)
Definition well_kept (sessions : gmap Z dict) : Prop :=
  forall user_id session,
    sessions !! user_id = Some session ->
    dict_get "authenticated" session = Some (VBool true)
    /\ is_Some (dict_get "username" session)
    /\ is_Some (dict_get "auth_data" session).

(** Telegram accepts every message. *)
Definition chat_accepts : Prop :=
  forall m text reply_markup parse_mode c,
    (reply_text m text reply_markup parse_mode c).1 = inr tt.

End Runs.

End Life.

(** ** Fixtures for the bot *)
Module BotLab.

Import Py SchoolsAPI Bot.

(** A chat that keeps the texts it is sent and refuses to delete. *)
Definition recording (E : Collaborators) : Surroundings (H := E) :=
  {| Chat := list string;
     reply_text := fun _ text _ _ c => (inr tt, c ++ [text]);
     message_delete := fun _ c =>
       (inl (Exn OtherException "Message can't be deleted"), c);
     query_answer := fun _ c => (inr tt, c);
     str_other := fun _ => "{}";
     float_truth := fun _ => true;
     authenticate_other := fun _ _ _ =>
       raise (Exn TypeError "expected str") |}.

(** A chat that refuses the message it is sent after [n] others, and
    keeps an empty text in its place. *)
Definition forgetful (n : nat) (E : Collaborators) : Surroundings (H := E) :=
  {| Chat := list string;
     reply_text := fun _ text _ _ c =>
       if (length c =? n)%nat
       then (inl (Exn OtherException "Timed out"), c ++ [""])
       else (inr tt, c ++ [text]);
     message_delete := fun _ c => (inr tt, c);
     query_answer := fun _ c => (inr tt, c);
     str_other := fun _ => "{}";
     float_truth := fun _ => true;
     authenticate_other := fun _ _ _ =>
       raise (Exn TypeError "expected str") |}.

(** The update that carries a text typed by the user 7. *)
Definition typed (s : string) : update :=
  {| effective_user_id := 7;
     update_message := Some {| message_id := 1; message_text := Some s |};
     update_callback_query := None |}.

(** The update that Telegram sends when the user 7 presses the button
    whose [callback_data] is [data]: it has no message of its own. *)
Definition pressed (data : string) : update :=
  {| effective_user_id := 7;
     update_message := None;
     update_callback_query :=
       Some {| query_data := Some data;
               query_message :=
                 Some {| message_id := 2; message_text := None |} |} |}.

(** The site that serves the login page of [Lab] and answers every
    submission with [r]. *)
Definition site (r : response) : Collaborators := Lab.rich_env r.

(** An answer that lets the user in, one that shows an alert, and one
    that sends back to the login page. *)
Definition accepted : response :=
  Lab.answer 200 "text/html" "" Lab.not_json.

Definition rejected : response :=
  Fixture.html_response 200 Fixture.banner_html None.

Definition sent_back : response :=
  Fixture.html_response 302 "" (Some "/login?error=1").

(** The bot when it starts. *)
Definition started (r : response)
    : state (H := site r) (H0 := recording (site r)) :=
  {| user_sessions := ∅; user_data := ∅;
     web := (Fixture.fresh : World (Collaborators := site r));
     chat := ([] : Chat (Surroundings := recording (site r))) |}.

(** The bot when it starts in front of a forgetful chat. *)
Definition started_forgetful (n : nat) (r : response)
    : state (H := site r) (H0 := forgetful n (site r)) :=
  {| user_sessions := ∅; user_data := ∅;
     web := (Fixture.fresh : World (Collaborators := site r));
     chat := ([] : Chat (Surroundings := forgetful n (site r))) |}.

End BotLab.

(** * Properties *)

Import Py SchoolsAPI.

(** ** Text *)

Example lower_mixed : Py.lower "/LogIn?Next=1" = "/login?next=1".
Proof. reflexivity. Qed.

Example slice_braces :
  let line := "var config = {x}; }" in
  Py.slice line (Py.find "{" line) (Py.rfind "}" line + 1) = "{x}; }".
Proof. vm_compute. reflexivity. Qed.

Example split_lines :
  Py.split Py.newline (String "a" (String Py.newline (String Py.newline "b")))
  = ["a"; ""; "b"]%string.
Proof. reflexivity. Qed.

Example strip_both : Py.strip "  a b  " = "a b".
Proof. reflexivity. Qed.

Example str_int_302 : Py.str_int 302 = "302".
Proof. reflexivity. Qed.

Example mem_names : Py.mem "pwd" ["password"; "pass"; "pwd"]%string = true.
Proof. vm_compute. reflexivity. Qed.

Section Text.

Lemma lower_app (a b : string) : lower (a +:+ b) = lower a +:+ lower b.
Proof. induction a as [|c a IH]; simpl; [reflexivity | now rewrite IH]. Qed.

Lemma lower_join_space (l : list string) :
  lower (join " " l) = join " " (lower <$> l).
Proof.
  induction l as [|x [|y l] IH]; try reflexivity.
  change (join " " (x :: y :: l)) with (x +:+ " " +:+ join " " (y :: l)).
  rewrite !lower_app, IH. reflexivity.
Qed.

Lemma prefix_nil (p : string) : String.prefix p "" = true -> p = "".
Proof. destruct p; [reflexivity | discriminate]. Qed.

Lemma contains_nil (p : string) : contains p "" = true -> p = "".
Proof.
  destruct p; [reflexivity | simpl; discriminate].
Qed.

Lemma contains_cons (p : string) (c : ascii) (s : string) :
  contains p (String c s) = String.prefix p (String c s) || contains p s.
Proof. simpl. destruct p as [|x p]; [reflexivity|]. now destruct (_ : bool). Qed.

(** A prefix that avoids the separator ends before it. *)
Lemma prefix_before_sep (sep : ascii) (p a b : string) :
  avoids sep p = true ->
  String.prefix p (a +:+ String sep b) = true ->
  String.prefix p a = true.
Proof.
  revert a. induction p as [|x p IH]; intros a Hav Hp.
  - now destruct a.
  - simpl in Hav. apply andb_prop in Hav as [Hx Hav].
    destruct a as [|c a]; simpl in *.
    + destruct (ascii_dec x sep) as [->|Hne]; [|discriminate].
      rewrite Ascii.eqb_refl in Hx. discriminate.
    + destruct (ascii_dec x c); [|discriminate]. now apply IH.
Qed.

Lemma contains_around_sep (sep : ascii) (p a b : string) :
  avoids sep p = true ->
  contains p (a +:+ String sep b) = true ->
  contains p a = true \/ contains p b = true.
Proof.
  intros Hav. induction a as [|c a IH]; intros Hc.
  - change ("" +:+ String sep b) with (String sep b) in Hc.
    rewrite contains_cons in Hc. apply orb_prop in Hc as [Hp|Hc]; [|now right].
    left. apply (prefix_before_sep sep p "" b Hav) in Hp.
    apply prefix_nil in Hp. now subst.
  - change (String c a +:+ String sep b) with (String c (a +:+ String sep b)) in Hc.
    rewrite contains_cons in Hc. rewrite contains_cons.
    apply orb_prop in Hc as [Hp|Hc].
    + left. apply (prefix_before_sep sep p (String c a) b Hav) in Hp.
      now rewrite Hp.
    + destruct (IH Hc) as [Ha|Hb]; [left|now right].
      rewrite Ha. apply orb_true_r.
Qed.

(** A word without spaces found in a line of words lies in one word. *)
Lemma contains_join_space (p : string) (l : list string) :
  avoids " " p = true -> p <> "" ->
  contains p (join " " l) = true ->
  exists c, c ∈ l /\ contains p c = true.
Proof.
  intros Hav Hne. induction l as [|x [|y l] IH]; intros Hc.
  - apply contains_nil in Hc. contradiction.
  - exists x. split; [apply elem_of_cons; now left | exact Hc].
  - change (join " " (x :: y :: l)) with (x +:+ String " " (join " " (y :: l))) in Hc.
    apply (contains_around_sep " " p) in Hc as [Hx|Hr]; [| |exact Hav].
    + exists x. split; [apply elem_of_cons; now left | exact Hx].
    + destruct (IH Hr) as (c & Hin & Hcc).
      exists c. split; [apply elem_of_cons; now right | exact Hcc].
Qed.

Lemma truthy_true (s : string) : truthy s = true <-> s <> "".
Proof.
  unfold truthy. destruct (String.eqb_spec s ""); simpl; split; congruence.
Qed.

Lemma truthy_false (s : string) : truthy s = false <-> s = "".
Proof.
  unfold truthy. destruct (String.eqb_spec s ""); simpl; split; congruence.
Qed.

Lemma mem_true (x : string) (l : list string) : mem x l = true <-> x ∈ l.
Proof. unfold mem. apply bool_decide_eq_true. Qed.

Lemma app_cons (c : ascii) (a b : string) :
  String c a +:+ b = String c (a +:+ b).
Proof. reflexivity. Qed.

Lemma str_length_app (a b : string) :
  String.length (a +:+ b) = (String.length a + String.length b)%nat.
Proof.
  induction a as [|c a IH]; [reflexivity|].
  rewrite app_cons. simpl. now rewrite IH.
Qed.

Lemma str_app_nil_r (a : string) : a +:+ "" = a.
Proof.
  induction a as [|c a IH]; [reflexivity|]. now rewrite app_cons, IH.
Qed.

Lemma str_app_assoc (a b c : string) : (a +:+ b) +:+ c = a +:+ (b +:+ c).
Proof.
  induction a as [|x a IH]; [reflexivity|]. now rewrite !app_cons, IH.
Qed.

End Text.

(** ** Searches in the document tree *)
Section Searches.

Lemma named_single (nm : string) (n : Bs4.node) :
  Bs4.named [nm] n = true <-> Bs4.tag_name n = Some nm.
Proof.
  unfold Bs4.named. destruct (Bs4.tag_name n) as [x|]; [|split; discriminate].
  rewrite mem_true, list_elem_of_singleton. split; congruence.
Qed.

Lemma find_all_any (root : Bs4.node) (nm : string) :
  Bs4.find_all root [nm] Bs4.any
  = filter (fun n => Bs4.tag_name n = Some nm) (Bs4.descendants root).
Proof.
  unfold Bs4.find_all. apply list_filter_iff. intros n.
  unfold Bs4.any. rewrite andb_true_r, Is_true_true. apply named_single.
Qed.

End Searches.

(** ** The verdict on a submission *)
Section Verdicts.

Context `{Collaborators}.

(** Once the credentials are posted, the outcome is the verdict on the
    answer, with any exception wrapped. *)
Lemma authenticate_submitted (self : t) (username password : string)
    (w w1 w2 : World) (submission : request) (c : Client) (r : response) :
  prepare self username password w = (inr submission, w1) ->
  session_send self "post" submission w1 = (inr (c, r), w2) ->
  authenticate self username password w =
    try_except any_exception (classify c r)
      (fun e => raise (Exn SchoolsAPIError
                         ("Authentication failed: " +:+ exn_str e))) w2.
Proof.
  intros Hprep Hsend.
  unfold authenticate, try_except, bind.
  rewrite Hprep, Hsend. reflexivity.
Qed.

Lemma error_class_spec (c : string) :
  error_class (Some c) = true
  <-> Spec.mentions "error" c \/ Spec.mentions "alert" c.
Proof.
  unfold error_class, Spec.mentions. split.
  - intros Hc. apply andb_prop in Hc as [_ Hc]. now apply orb_prop in Hc.
  - intros Hc. apply andb_true_intro. split.
    + apply truthy_true. intros ->. destruct Hc; discriminate.
    + apply orb_true_intro. exact Hc.
Qed.

(** The rule that the parser library applies to a [class_] filter agrees
    with a plain test of every class. *)
Lemma class_matches_spec (n : Bs4.node) :
  Bs4.class_matches error_class n = true <-> Spec.alarming_class n.
Proof.
  unfold Bs4.class_matches, Spec.alarming_class.
  destruct (Bs4.classes_of n) as [cls|]; [|split; [discriminate | tauto]].
  rewrite Exists_exists. split.
  - intros Hm. apply orb_prop in Hm as [Hm|Hm].
    + apply existsb_exists in Hm as (c & Hin & Hc).
      exists c. split; [now apply list_elem_of_In | now apply error_class_spec].
    + apply error_class_spec in Hm. unfold Spec.mentions in Hm.
      rewrite lower_join_space in Hm.
      assert (Hin : exists c', c' ∈ lower <$> cls /\
                (contains "error" c' = true \/ contains "alert" c' = true)).
      { destruct Hm as [Hm|Hm];
          apply contains_join_space in Hm as (c' & Hin & Hc');
          try reflexivity; try discriminate; eauto. }
      destruct Hin as (c' & Hin & Hc').
      apply list_elem_of_fmap in Hin as (c & -> & Hin).
      exists c. split; [exact Hin | exact Hc'].
  - intros (c & Hin & Hc). apply orb_true_intro. left.
    apply existsb_exists. exists c.
    split; [now apply list_elem_of_In | now apply error_class_spec].
Qed.

Lemma banners_found (page : Bs4.soup) :
  Bs4.find_all page ["div"; "span"; "p"] (Bs4.class_matches error_class)
  = Spec.error_banners page.
Proof.
  unfold Bs4.find_all, Spec.error_banners. apply list_filter_iff. intros n.
  rewrite Is_true_true, andb_true_iff, class_matches_spec.
  unfold Bs4.named, Spec.error_banner.
  destruct (Bs4.tag_name n) as [nm|].
  - now rewrite mem_true.
  - split; [intros [? _]; discriminate | tauto].
Qed.

(** *** Redirections

    A client that follows redirections hands back no answer that
    redirects to a place. *)
Lemma handling_redirects_followed (k : Connection) (left : nat)
    (req : request) (w w' : World) (r : response) :
  send_handling_redirects k true left req w = (inr r, w') ->
  has_redirect_location r = false.
Proof.
  revert req w. induction left as [|left IH]; intros req w; cbn.
  - discriminate.
  - unfold bind, lift, ret.
    destruct (send_single_request k req w) as [[e|r0] w0]; [discriminate|].
    destruct (has_redirect_location r0) eqn:Hr0.
    + destruct (build_redirect_request req r0) as [e|next]; [discriminate|].
      apply IH.
    + intros [= <- <-]. exact Hr0.
Qed.

Lemma client_request_followed (c : Client) (req : request) (w w' : World)
    (r : response) :
  follow_redirects c = true ->
  client_request c req w = (inr r, w') ->
  has_redirect_location r = false.
Proof.
  unfold client_request, client_send. intros ->. cbn [default].
  apply handling_redirects_followed.
Qed.

(** An answer with a status of redirection that such a client hands back
    names no place. *)
Lemma followed_no_location (c : Client) (req : request) (w w' : World)
    (r : response) :
  follow_redirects c = true ->
  client_request c req w = (inr r, w') ->
  status_code r ∈ [302; 303; 307] ->
  headers_get r "Location" = None.
Proof.
  intros Hf Hreq Hst.
  pose proof (client_request_followed c req w w' r Hf Hreq) as Hno.
  unfold has_redirect_location in Hno.
  apply andb_false_iff in Hno as [Hno|Hno].
  - apply bool_decide_eq_false in Hno. exfalso. apply Hno.
    repeat (apply elem_of_cons in Hst as [->|Hst];
            [repeat (first [apply list_elem_of_here
                           | apply list_elem_of_further])|]).
    now apply elem_of_nil in Hst.
  - apply bool_decide_eq_false in Hno.
    destruct (headers_get r "Location"); [|reflexivity].
    exfalso. apply Hno. eauto.
Qed.

(** Through a session opened by [__aenter__], the submission is never
    reported as redirected back to the login page: the branch of
    [authenticate] that reads the place of a redirection only meets
    answers without one, which it counts as successes. *)
Lemma redirected_back_unreachable (self : t) (username password : string)
    (c : Client) (w w' : World) (v : value) :
  session self = Some c ->
  follow_redirects c = true ->
  authenticate self username password w = (inr v, w') ->
  forall d, v = VDict d ->
    dict_get "error" d
    <> Some (VStr "Authentication failed (redirected back to login)").
Proof.
  intros Hs Hf Hauth d ->.
  unfold authenticate, try_except, bind in Hauth.
  destruct (prepare self username password w) as [[e|submission] w1];
    [discriminate|].
  unfold session_send in Hauth. rewrite Hs in Hauth.
  unfold bind, ret in Hauth.
  destruct (client_request c submission w1) as [[e|r] w2] eqn:Hreq;
    [discriminate|].
  cbn [fst snd] in Hauth.
  unfold classify, bind, lift, ret in Hauth.
  destruct (status_code r =? 200) eqn:E200.
  - destruct (BeautifulSoup (VStr (text r))) as [e|page]; [discriminate|].
    destruct (Bs4.find_all page _ _).
    + unfold cookie_snapshot in Hauth.
      destruct (client_cookies c w2); [discriminate|].
      injection Hauth as <- <-. discriminate.
    + injection Hauth as <- <-. cbn. discriminate.
  - destruct (bool_decide (status_code r ∈ [302; 303; 307])) eqn:E30x.
    + apply bool_decide_eq_true in E30x.
      rewrite (followed_no_location c submission w1 w2 r Hf Hreq E30x)
        in Hauth.
      cbn in Hauth. unfold cookie_snapshot in Hauth.
      destruct (client_cookies c w2); [discriminate|].
      injection Hauth as <- <-. discriminate.
    + injection Hauth as <- <-. cbn. discriminate.
Qed.

(** C3, amended.  When the submission is answered by a 200 whose body
    parses, the outcome is a failure, carrying the stripped texts of the
    offending elements joined by spaces, if the body holds a div, span or
    p element one of whose classes mentions error or alert (in any case of
    letters).  Otherwise the jar of the session is read: when it reads as
    a mapping, the outcome is a success that holds this mapping, name by
    name, as its cookies; when the reading is refused, the refusal is
    raised as a failure of the authentication. *)
Theorem banner_verdict (self : t) (username password : string)
    (w w1 w2 : World) (submission : request) (c : Client) (r : response)
    (page : Bs4.soup) :
  prepare self username password w = (inr submission, w1) ->
  session_send self "post" submission w1 = (inr (c, r), w2) ->
  status_code r = 200 ->
  BeautifulSoup (VStr (text r)) = inr page ->
  ((exists b, b ∈ Bs4.descendants page /\ Spec.error_banner b) ->
   authenticate self username password w =
     (inr (VDict [("success", VBool false);
                  ("error",
                   VStr ("Authentication failed: " +:+
                         Spec.banner_text (Spec.error_banners page)));
                  ("status", VInt 200)]), w2))
  /\ ((forall b, b ∈ Bs4.descendants page -> ~ Spec.error_banner b) ->
      (forall jar, cookies (connection c) w2 = inr jar ->
         authenticate self username password w =
           (inr (VDict [("success", VBool true);
                        ("message", VStr "Authentication successful");
                        ("status", VInt 200);
                        ("cookies",
                         VDict ((fun kv => (kv.1, VStr kv.2)) <$> jar))]),
            w2))
      /\ (forall e, cookies (connection c) w2 = inl e ->
            authenticate self username password w =
              (inl (Exn SchoolsAPIError
                      ("Authentication failed: " +:+ exn_str e)), w2))).
Proof.
  intros Hprep Hsend Hst Hpage.
  rewrite (authenticate_submitted _ _ _ _ _ _ _ _ _ Hprep Hsend).
  assert (Hv : classify c r w2 =
    match Spec.error_banners page with
    | [] =>
        match cookies (connection c) w2 with
        | inr jar =>
            (inr (VDict [("success", VBool true);
                         ("message", VStr "Authentication successful");
                         ("status", VInt 200);
                         ("cookies",
                          VDict ((fun kv => (kv.1, VStr kv.2)) <$> jar))]),
             w2)
        | inl e => (inl e, w2)
        end
    | _ :: _ =>
        (inr (VDict [("success", VBool false);
                     ("error",
                      VStr ("Authentication failed: " +:+
                            Spec.banner_text (Spec.error_banners page)));
                     ("status", VInt 200)]), w2)
    end).
  { unfold classify, bind, lift, ret.
    rewrite Hst, Hpage. cbn [Z.eqb Pos.eqb].
    rewrite banners_found.
    destruct (Spec.error_banners page); [|reflexivity].
    unfold cookie_snapshot, client_cookies, jar_value.
    destruct (cookies (connection c) w2); reflexivity. }
  unfold try_except. rewrite Hv. clear Hv. split.
  - intros (b & Hin & Hb).
    destruct (Spec.error_banners page) as [|b0 bs] eqn:Hbs; [|reflexivity].
    exfalso. apply (filter_nil_not_elem_of _ _ b Hbs Hb Hin).
  - intros Hnone.
    destruct (Spec.error_banners page) as [|b0 bs] eqn:Hbs.
    + split; intros x Hx; rewrite Hx; reflexivity.
    + exfalso. assert (Hin : b0 ∈ Spec.error_banners page)
        by (rewrite Hbs; apply elem_of_cons; now left).
      apply list_elem_of_filter in Hin as [Hb Hin]. now apply (Hnone b0).
Qed.

End Verdicts.

(** C2, on the code.  A site answers the submission with 302 and the place
    /login?error=1, where it serves its login page again.  The session
    opened by [__aenter__] follows the redirection, so that [authenticate]
    judges the login page, answered with 200 and free of banners, and
    reports a success; the sending back to the login page is not
    reported. *)
Theorem redirect_back_followed :
  let sent_back := Fixture.html_response 302 "" (Some "/login?error=1") in
  let E := Fixture.login_env Fixture.login_html sent_back in
  let self := (__aenter__ (H := E) (__init__ Fixture.site) Fixture.fresh).1 in
  exists submission w1 w2,
    prepare self "ann" "wrong" Fixture.fresh = (inr submission, w1)
    /\ Fixture.login_server Fixture.login_html sent_back submission
       = inr sent_back
    /\ Spec.mentions "/login" "/login?error=1"
    /\ authenticate self "ann" "wrong" Fixture.fresh =
         (inr (VDict [("success", VBool true);
                      ("message", VStr "Authentication successful");
                      ("status", VInt 200);
                      ("cookies", VDict [("sessionid", VStr "s3cr3t")])]),
          w2)
    /\ Fixture.sent w2 =
         [Request "GET" "https://schools.by/" [] [] [];
          Request "GET" "https://schools.by/login" [] [] [];
          submission;
          Request "GET" "https://schools.by/login?error=1" [] []
            (req_headers submission)].
Proof.
  intros sent_back E self.
  evar (submission : request). evar (w1 : Fixture.world).
  evar (w2 : Fixture.world).
  exists submission, w1, w2.
  split; [subst submission w1; vm_compute; reflexivity|].
  split; [reflexivity|].
  split; [reflexivity|].
  split; [subst w2; vm_compute; reflexivity|].
  reflexivity.
Qed.

(** The same site sending to /dashboard: the redirection is followed as
    well, and the success that is reported is the plain one, without the
    place of the redirection. *)
Example redirect_to_dashboard :
  let E := Fixture.login_env Fixture.login_html
             (Fixture.html_response 302 "" (Some "/dashboard")) in
  let self := (__aenter__ (H := E) (__init__ Fixture.site) Fixture.fresh).1 in
  (authenticate self "ann" "pw" Fixture.fresh).1 =
    inr (VDict [("success", VBool true);
                ("message", VStr "Authentication successful");
                ("status", VInt 200);
                ("cookies", VDict [("sessionid", VStr "s3cr3t")])]).
Proof. vm_compute. reflexivity. Qed.

(** A site that sends from place to place without end: the client gives
    up after twenty redirections. *)
Example redirect_without_end :
  let E := Fixture.env
             (fun _ => inr (Fixture.html_response 302 "" (Some "/again")))
             Fixture.pages [] in
  exists w',
    client_request (Fixture.client E tt)
      (Request "GET" "https://schools.by/" [] [] []) Fixture.fresh
    = (inl (Exn RequestError "Exceeded maximum allowed redirects."), w')
    /\ length (Fixture.sent w') = 21%nat.
Proof. eexists. split; vm_compute; reflexivity. Qed.

(** A submission answered by a page with an alert in a [div]. *)
Lemma banner_verdict_witness :
  let E := Fixture.login_env Fixture.login_html
             (Fixture.html_response 200 Fixture.banner_html None) in
  exists w2,
    authenticate (Fixture.opened E tt) "ann" "pw" Fixture.fresh =
      (inr (VDict [("success", VBool false);
                   ("error", VStr "Authentication failed: Wrong password");
                   ("status", VInt 200)]), w2).
Proof.
  intros E.
  evar (submission : request). evar (w1 : Fixture.world).
  evar (w2 : Fixture.world).
  assert (Hprep : prepare (H := E) (Fixture.opened E tt) "ann" "pw"
                    Fixture.fresh = (inr submission, w1))
    by (subst submission w1; vm_compute; reflexivity).
  assert (Hsend : session_send (H := E) (Fixture.opened E tt) "post"
                    submission w1
                  = (inr (Fixture.client E tt,
                          Fixture.html_response 200 Fixture.banner_html None),
                     w2))
    by (subst w2; vm_compute; reflexivity).
  exists w2.
  apply (proj1 (banner_verdict (H := E) _ _ _ _ _ _ _ _ _ Fixture.banner_page
                  Hprep Hsend eq_refl eq_refl)).
  exists (Bs4.Tag "div" [] (Some ["alert"; "alert-danger"])
            [Fixture.txt " Wrong password "]).
  split.
  - apply elem_of_cons. now left.
  - split.
    + apply elem_of_cons. now left.
    + apply Exists_cons_hd. now right.
Defined.

(** C3 as stated fails: an error list in a [ul] carries a class that
    mentions error, and the submission is nevertheless a success. *)
Lemma errorlist_overlooked :
  let E := Fixture.login_env Fixture.login_html
             (Fixture.html_response 200 Fixture.errorlist_html None) in
  (Fixture.errorlist ∈ Bs4.descendants Fixture.errorlist_page
   /\ Spec.alarming_class Fixture.errorlist)
  /\ BeautifulSoup (VStr Fixture.errorlist_html) = inr Fixture.errorlist_page
  /\ exists w2,
       authenticate (Fixture.opened E tt) "ann" "pw" Fixture.fresh =
         (inr (VDict [("success", VBool true);
                      ("message", VStr "Authentication successful");
                      ("status", VInt 200);
                      ("cookies", VDict [("sessionid", VStr "s3cr3t")])]), w2).
Proof.
  intros E. split; [split|split].
  - apply elem_of_cons. now left.
  - apply Exists_cons_hd. now left.
  - reflexivity.
  - eexists. vm_compute. reflexivity.
Qed.

(** A page without banner and a jar that holds two cookies of one name:
    the jar does not read as a mapping, and the authentication fails. *)
Example conflicting_cookies :
  let E := Fixture.env_with
             (Fixture.login_server Fixture.login_html
                (Fixture.html_response 200 Fixture.welcome_html None))
             (inl (Exn OtherException
                     "Multiple cookies exist with name=sessionid"))
             Fixture.pages [] in
  (authenticate (Fixture.opened E tt) "ann" "pw" Fixture.fresh).1 =
    inl (Exn SchoolsAPIError
           "Authentication failed: Multiple cookies exist with name=sessionid").
Proof. vm_compute. reflexivity. Qed.

(** ** The inference of the login fields *)
Section Fields.

Lemma username_like_spec (inp : Bs4.node) :
  username_like inp = true <-> Spec.username_shaped inp.
Proof.
  unfold username_like, Spec.username_shaped, Spec.field_name, Spec.field_type.
  rewrite orb_true_iff, mem_true, String.eqb_eq. tauto.
Qed.

Lemma password_like_spec (inp : Bs4.node) :
  password_like inp = true <-> Spec.password_shaped inp.
Proof.
  unfold password_like, Spec.password_shaped, Spec.field_name, Spec.field_type.
  rewrite orb_true_iff, mem_true, String.eqb_eq. tauto.
Qed.

Lemma named_spec (inp : Bs4.node) :
  truthy_opt (Bs4.get inp "name") = true <-> Spec.field_name inp <> "".
Proof.
  unfold Spec.field_name, Bs4.get_or.
  destruct (Bs4.get inp "name") as [nm|]; simpl.
  - apply truthy_true.
  - split; [discriminate | congruence].
Qed.

Lemma unnamed_spec (inp : Bs4.node) :
  truthy_opt (Bs4.get inp "name") = false <-> Spec.field_name inp = "".
Proof.
  rewrite <- not_true_iff_false, named_spec.
  destruct (decide (Spec.field_name inp = "")); tauto.
Qed.

(** A username-shaped input that is no username field has no name. *)
Lemma shaped_unnamed_u (inp : Bs4.node) :
  ~ Spec.username_field inp -> username_like inp = true ->
  truthy_opt (Bs4.get inp "name") = false.
Proof.
  intros Hno Hlike. apply unnamed_spec. apply username_like_spec in Hlike.
  destruct (decide (Spec.field_name inp = "")) as [|Hne]; [assumption|].
  exfalso. apply Hno. now split.
Qed.

Lemma shaped_unnamed_p (inp : Bs4.node) :
  ~ Spec.password_field inp -> password_like inp = true ->
  truthy_opt (Bs4.get inp "name") = false.
Proof.
  intros Hno Hlike. apply unnamed_spec. apply password_like_spec in Hlike.
  destruct (decide (Spec.field_name inp = "")) as [|Hne]; [assumption|].
  exfalso. apply Hno. now split.
Qed.

(** Nothing found yet, and nothing to find. *)
Lemma fold_idle (l : list Bs4.node) (u p : option string) :
  Forall (fun x => ~ Spec.username_field x /\ ~ Spec.password_field x) l ->
  truthy_opt u = false -> truthy_opt p = false ->
  exists u' p', fold_left field_step l (u, p) = (u', p')
                /\ truthy_opt u' = false /\ truthy_opt p' = false.
Proof.
  intros Hl. revert u p.
  induction Hl as [|x l [Hnu Hnp] _ IH]; intros u p Hu Hp; [now eauto|].
  cbn [fold_left]. unfold field_step at 2. rewrite Hu, Hp. simpl.
  destruct (username_like x) eqn:Eu.
  - apply IH; [now apply shaped_unnamed_u | assumption].
  - destruct (password_like x) eqn:Ep.
    + apply IH; [assumption | now apply shaped_unnamed_p].
    + now apply IH.
Qed.

(** The username is known; the password is still looked for. *)
Lemma fold_user_set (l : list Bs4.node) (u p : option string) :
  Forall (fun x => ~ Spec.password_field x) l ->
  truthy_opt u = true -> truthy_opt p = false ->
  exists p', fold_left field_step l (u, p) = (u, p')
             /\ truthy_opt p' = false.
Proof.
  intros Hl. revert p.
  induction Hl as [|x l Hnp _ IH]; intros p Hu Hp; [now eauto|].
  cbn [fold_left]. unfold field_step at 2. rewrite Hu, Hp. simpl.
  destruct (password_like x) eqn:Ep.
  - apply IH; [assumption | now apply shaped_unnamed_p].
  - now apply IH.
Qed.

(** The password is known; the username is still looked for. *)
Lemma fold_pass_set (l : list Bs4.node) (u p : option string) :
  Forall (fun x => ~ Spec.username_field x) l ->
  truthy_opt u = false -> truthy_opt p = true ->
  exists u', fold_left field_step l (u, p) = (u', p)
             /\ truthy_opt u' = false.
Proof.
  intros Hl. revert u.
  induction Hl as [|x l Hnu _ IH]; intros u Hu Hp; [now eauto|].
  cbn [fold_left]. unfold field_step at 2. rewrite Hu, Hp. simpl.
  destruct (username_like x) eqn:Eu.
  - apply IH; [now apply shaped_unnamed_u | assumption].
  - now apply IH.
Qed.

(** Both are known: the remaining inputs are ignored. *)
Lemma fold_done (l : list Bs4.node) (u p : option string) :
  truthy_opt u = true -> truthy_opt p = true ->
  fold_left field_step l (u, p) = (u, p).
Proof.
  intros Hu Hp. induction l as [|x l IH]; [reflexivity|].
  cbn [fold_left]. unfold field_step at 2. rewrite Hu, Hp. simpl. exact IH.
Qed.

Lemma step_takes_username (x : Bs4.node) (u p : option string) :
  truthy_opt u = false -> Spec.username_field x ->
  field_step (u, p) x = (Bs4.get x "name", p).
Proof.
  intros Hu [Hs _]. unfold field_step. rewrite Hu.
  now rewrite (proj2 (username_like_spec x) Hs).
Qed.

Lemma step_takes_password (x : Bs4.node) (u p : option string) :
  truthy_opt u = true \/ ~ Spec.username_shaped x ->
  truthy_opt p = false -> Spec.password_field x ->
  field_step (u, p) x = (u, Bs4.get x "name").
Proof.
  intros Hu Hp [Hs _]. unfold field_step. rewrite Hp.
  rewrite (proj2 (password_like_spec x) Hs). simpl.
  destruct Hu as [Hu|Hu].
  - now rewrite Hu.
  - destruct (username_like x) eqn:E; [|now rewrite andb_false_r].
    apply username_like_spec in E. contradiction.
Qed.

(** The username comes first. *)
Lemma fields_username_first (l1 l2 l3 : list Bs4.node) (u p : Bs4.node) :
  Forall (fun x => ~ Spec.username_field x /\ ~ Spec.password_field x) l1 ->
  Forall (fun x => ~ Spec.password_field x) l2 ->
  Spec.username_field u -> Spec.password_field p ->
  find_fields (l1 ++ u :: l2 ++ p :: l3)
  = (Bs4.get u "name", Bs4.get p "name").
Proof.
  intros H1 H2 Hu Hp. unfold find_fields.
  rewrite fold_left_app.
  destruct (fold_idle l1 None None H1 eq_refl eq_refl) as (u0 & p0 & -> & Hu0 & Hp0).
  cbn [fold_left]. rewrite (step_takes_username u u0 p0 Hu0 Hu).
  rewrite fold_left_app.
  assert (Hnu : truthy_opt (Bs4.get u "name") = true)
    by (apply named_spec, Hu).
  destruct (fold_user_set l2 _ p0 H2 Hnu Hp0) as (p1 & -> & Hp1).
  cbn [fold_left]. rewrite (step_takes_password p _ p1 (or_introl Hnu) Hp1 Hp).
  apply fold_done; [assumption | apply named_spec, Hp].
Qed.

(** The password comes first. *)
Lemma fields_password_first (l1 l2 l3 : list Bs4.node) (u p : Bs4.node) :
  Forall (fun x => ~ Spec.username_field x /\ ~ Spec.password_field x) l1 ->
  Forall (fun x => ~ Spec.username_field x) l2 ->
  Spec.username_field u -> Spec.password_field p ->
  ~ Spec.username_field p ->
  find_fields (l1 ++ p :: l2 ++ u :: l3)
  = (Bs4.get u "name", Bs4.get p "name").
Proof.
  intros H1 H2 Hu Hp Hpu. unfold find_fields.
  rewrite fold_left_app.
  destruct (fold_idle l1 None None H1 eq_refl eq_refl) as (u0 & p0 & -> & Hu0 & Hp0).
  cbn [fold_left].
  assert (Hns : ~ Spec.username_shaped p).
  { intros Hs. apply Hpu. split; [assumption | apply Hp]. }
  rewrite (step_takes_password p u0 p0 (or_intror Hns) Hp0 Hp).
  rewrite fold_left_app.
  assert (Hnp : truthy_opt (Bs4.get p "name") = true)
    by (apply named_spec, Hp).
  destruct (fold_pass_set l2 u0 _ H2 Hu0 Hnp) as (u1 & -> & Hu1).
  cbn [fold_left]. rewrite (step_takes_username u u1 _ Hu1 Hu).
  apply fold_done; [apply named_spec, Hu | assumption].
Qed.

(** Two positions of a list, the lower one first. *)
Lemma split_two {A : Type} (l : list A) (i j : nat) (a b : A) :
  (i < j)%nat -> l !! i = Some a -> l !! j = Some b ->
  exists l1 l2 l3,
    l = l1 ++ a :: l2 ++ b :: l3
    /\ length l1 = i /\ (length l1 + 1 + length l2)%nat = j.
Proof.
  intros Hij Ha Hb.
  pose proof (take_drop_middle l i a Ha) as Hl.
  assert (Hb' : drop (S i) l !! (j - S i)%nat = Some b).
  { rewrite lookup_drop. replace (S i + (j - S i))%nat with j by lia.
    exact Hb. }
  pose proof (take_drop_middle _ _ b Hb') as Hd.
  exists (take i l), (take (j - S i) (drop (S i) l)),
         (drop (S (j - S i)) (drop (S i) l)).
  apply lookup_lt_Some in Ha. apply lookup_lt_Some in Hb'.
  rewrite Hd, Hl, !length_take. split; [reflexivity | lia].
Qed.

Lemma fields_of_form (form : Bs4.node) (u p : Bs4.node) :
  Spec.username_field u -> Spec.password_field p ->
  find_fields (Spec.inputs form) = (Bs4.get u "name", Bs4.get p "name") ->
  login_fields form = inr (Spec.field_name u, Spec.field_name p).
Proof.
  intros Hu Hp Hf. unfold login_fields.
  rewrite find_all_any. fold (Spec.inputs form). rewrite Hf.
  rewrite (proj2 (named_spec u) (proj2 Hu)), (proj2 (named_spec p) (proj2 Hp)).
  reflexivity.
Qed.

(** C1, amended.  Let the first form of a login page hold an input with
    a name that is a username field by its lowercased name (username,
    login, email, user, login_name) or by its type (email), and another
    input with a name that is a password field by its lowercased name
    (password, pass, pwd) or by its type (password).  Then the inference
    succeeds on that form: it yields the name of the first such username
    field and the name of the first such password field other than it,
    whichever of the two comes first in the form. *)
Theorem login_fields_found (page form u p : Bs4.node) (i j : nat) :
  Spec.first_form page = Some form ->
  Spec.inputs form !! i = Some u ->
  Spec.inputs form !! j = Some p ->
  i <> j ->
  Spec.username_field u ->
  Spec.password_field p ->
  (forall k x, (k < i)%nat -> Spec.inputs form !! k = Some x ->
               ~ Spec.username_field x) ->
  (forall k x, (k < j)%nat -> k <> i -> Spec.inputs form !! k = Some x ->
               ~ Spec.password_field x) ->
  Bs4.find page ["form"] Bs4.any = Some form
  /\ login_fields form = inr (Spec.field_name u, Spec.field_name p).
Proof.
  intros Hform Hi Hj Hij Hu Hp Hfu Hfp. split.
  { unfold Bs4.find. rewrite find_all_any. exact Hform. }
  apply fields_of_form; [assumption..|].
  destruct (Nat.lt_total i j) as [Hlt|[Heq|Hlt]]; [|contradiction|].
  - destruct (split_two _ _ _ _ _ Hlt Hi Hj) as (l1 & l2 & l3 & Hl & Hl1 & Hl2).
    rewrite Hl. apply fields_username_first; try assumption.
    + apply Forall_forall. intros x Hx.
      apply list_elem_of_lookup in Hx as [k Hk].
      pose proof (lookup_lt_Some _ _ _ Hk) as Hlen.
      assert (Hk' : Spec.inputs form !! k = Some x)
        by (rewrite Hl; now rewrite lookup_app_l).
      split; [apply (Hfu k x) | apply (Hfp k x)]; try assumption; lia.
    + apply Forall_forall. intros x Hx.
      apply list_elem_of_lookup in Hx as [k Hk].
      pose proof (lookup_lt_Some _ _ _ Hk) as Hlen.
      apply (Hfp (length l1 + 1 + k)%nat x); [lia | lia |].
      rewrite Hl. rewrite lookup_app_r by lia.
      replace (length l1 + 1 + k - length l1)%nat with (S k) by lia.
      simpl. now rewrite lookup_app_l.
  - destruct (split_two _ _ _ _ _ Hlt Hj Hi) as (l1 & l2 & l3 & Hl & Hl1 & Hl2).
    rewrite Hl. apply fields_password_first; try assumption.
    + apply Forall_forall. intros x Hx.
      apply list_elem_of_lookup in Hx as [k Hk].
      pose proof (lookup_lt_Some _ _ _ Hk) as Hlen.
      assert (Hk' : Spec.inputs form !! k = Some x)
        by (rewrite Hl; now rewrite lookup_app_l).
      split; [apply (Hfu k x) | apply (Hfp k x)]; try assumption; lia.
    + apply Forall_forall. intros x Hx.
      apply list_elem_of_lookup in Hx as [k Hk].
      pose proof (lookup_lt_Some _ _ _ Hk) as Hlen.
      apply (Hfu (length l1 + 1 + k)%nat x); [lia |].
      rewrite Hl. rewrite lookup_app_r by lia.
      replace (length l1 + 1 + k - length l1)%nat with (S k) by lia.
      simpl. now rewrite lookup_app_l.
    + apply (Hfu j p); assumption.
Qed.

(** Without any password-shaped input the password is never set. *)
Lemma fold_no_password (l : list Bs4.node) (u : option string) :
  Forall (fun x => ~ Spec.password_shaped x) l ->
  exists u', fold_left field_step l (u, None) = (u', None).
Proof.
  intros Hl. revert u.
  induction Hl as [|x l Hx _ IH]; intros u; [now eauto|].
  cbn [fold_left]. unfold field_step at 2.
  assert (Hno : password_like x = false).
  { apply not_true_iff_false. now rewrite password_like_spec. }
  rewrite Hno, andb_false_r.
  destruct (negb (truthy_opt u) && username_like x); apply IH.
Qed.

Lemma login_fields_no_password (form : Bs4.node) :
  (forall inp, inp ∈ Spec.inputs form -> ~ Spec.password_shaped inp) ->
  exists found,
    login_fields form =
      inl (Exn SchoolsAPIError
             ("Cannot find login fields. Found: username=" +:+ found +:+
              ", password=None")).
Proof.
  intros Hno. unfold login_fields. rewrite find_all_any.
  fold (Spec.inputs form).
  destruct (fold_no_password (Spec.inputs form) None) as [u' Hf].
  { now apply Forall_forall. }
  unfold find_fields. rewrite Hf. exists (str_opt u').
  cbn [truthy_opt]. now rewrite orb_true_r.
Qed.

End Fields.

(** The login page of the fixtures, fields in the usual order. *)
Lemma login_fields_found_witness :
  Bs4.find (Fixture.document [Fixture.login_form]) ["form"] Bs4.any
    = Some Fixture.login_form
  /\ login_fields Fixture.login_form = inr ("login", "password").
Proof.
  apply (login_fields_found (Fixture.document [Fixture.login_form])
           Fixture.login_form
           (Fixture.input "text" "login" "")
           (Fixture.input "password" "password" "") 1 2).
  - reflexivity.
  - reflexivity.
  - reflexivity.
  - lia.
  - split; [right; apply elem_of_cons; right; apply elem_of_cons; now left
           | discriminate].
  - split; [now left | discriminate].
  - intros k x Hk Hx. assert (k = 0%nat) as -> by lia.
    injection Hx as <-.
    intros [[Ht|Hn] _]; [discriminate|].
    apply list_elem_of_In in Hn. vm_compute in Hn. intuition discriminate.
  - intros k x Hk Hne Hx. assert (k = 0%nat) as -> by lia.
    injection Hx as <-.
    intros [[Ht|Hn] _]; [discriminate|].
    apply list_elem_of_In in Hn. vm_compute in Hn. intuition discriminate.
Defined.

(** The same fields with the password asked first. *)
Example login_fields_swapped :
  login_fields Fixture.swapped_form = inr ("login", "password").
Proof. reflexivity. Qed.

(** C1 as stated fails: the first form of the page holds a text field for
    the user and a field of type password, and the inference raises. *)
Lemma uid_field_unrecognised :
  Spec.first_form (Fixture.document [Fixture.uid_form])
    = Some Fixture.uid_form
  /\ Spec.inputs Fixture.uid_form
     = [Fixture.input "text" "uid" ""; Fixture.input "password" "password" ""]
  /\ login_fields Fixture.uid_form
     = inl (Exn SchoolsAPIError
              "Cannot find login fields. Found: username=None, password=password").
Proof. repeat split; reflexivity. Qed.

(** ** Forms without a password field *)
Section NoPassword.

Context `{Collaborators}.

Lemma session_get_ok (self : t) (endpoint : string) (c : Client)
    (url : string) (w w' : World) (r : response) :
  session self = Some c ->
  urljoin (base_url self) endpoint = inr url ->
  client_request c (Request "GET" url [] [] []) w = (inr r, w') ->
  session_get self endpoint w = (inr (c, r), w').
Proof.
  intros Hs Hurl Hget. unfold session_get, bind, lift, ret, _build_url.
  now rewrite Hs, Hurl, Hget.
Qed.

(** C6, amended.  The form of the login page holds no input of type
    password and no input whose lowercased name is password, pass or pwd.
    Then nothing is submitted: the authenticator fails in the world that
    the second GET left.  When the action of the form starts with http or
    is joined to the base address, the failure is that of the inference,
    which names both sides, the password side being None; when the join
    of the action is refused, the failure is this refusal, and the
    inference is not reached. *)
Theorem no_password_no_submission (self : t) (username password : string)
    (c : Client) (w w1 w2 : World) (home login : string) (r0 r1 : response)
    (page form : Bs4.node) :
  session self = Some c ->
  urljoin (base_url self) "/" = inr home ->
  urljoin (base_url self) "/login" = inr login ->
  client_request c (Request "GET" home [] [] []) w = (inr r0, w1) ->
  client_request c (Request "GET" login [] [] []) w1 = (inr r1, w2) ->
  status_code r1 = 200 ->
  BeautifulSoup (VStr (text r1)) = inr page ->
  Spec.first_form page = Some form ->
  (forall inp, inp ∈ Spec.inputs form -> ~ Spec.password_shaped inp) ->
  let action := default "/login" (Bs4.get form "action") in
  exists found,
    login_fields form =
      inl (Exn SchoolsAPIError
             ("Cannot find login fields. Found: username=" +:+ found +:+
              ", password=None"))
    /\ (startswith "http" action = true
        \/ (exists url, urljoin (base_url self) action = inr url) ->
        authenticate self username password w =
          (inl (Exn SchoolsAPIError
                  ("Authentication failed: Cannot find login fields. Found: username="
                   +:+ found +:+ ", password=None")), w2))
    /\ (forall e,
          startswith "http" action = false ->
          urljoin (base_url self) action = inl e ->
          authenticate self username password w =
            (inl (Exn SchoolsAPIError
                    ("Authentication failed: " +:+ exn_str e)), w2)).
Proof.
  intros Hs Hhome Hlogin Hget0 Hget1 Hst Hpage Hform Hno action.
  destruct (login_fields_no_password form Hno) as [found Hfields].
  exists found. split; [exact Hfields|].
  split; [intros Hres | intros e Hh He];
    unfold authenticate, try_except, prepare, bind;
    rewrite (session_get_ok self "/" c home w w1 r0 Hs Hhome Hget0);
    rewrite (session_get_ok self "/login" c login w1 w2 r1 Hs Hlogin Hget1);
    cbn [snd]; rewrite Hst; cbn [Z.eqb Pos.eqb negb];
    unfold lift at 1; rewrite Hpage;
    unfold Bs4.find; rewrite find_all_any; fold (Spec.first_form page);
    rewrite Hform; unfold Bs4.get_or; fold action;
    unfold _build_url, lift, ret.
  - destruct (startswith "http" action) eqn:Hh.
    + unfold get_csrf_token, rbind. rewrite Hpage, Hfields. reflexivity.
    + destruct Hres as [Hres|[url Hres]]; [discriminate|].
      rewrite Hres.
      unfold get_csrf_token, rbind. rewrite Hpage, Hfields. reflexivity.
  - rewrite Hh, He. reflexivity.
Qed.

End NoPassword.

(** A login page that asks for a login and nothing else: two requests are
    sent, both of them GETs. *)
Lemma no_password_no_submission_witness :
  let E := Fixture.login_env Fixture.no_password_html
             (Fixture.html_response 200 Fixture.welcome_html None) in
  exists found,
    login_fields Fixture.no_password_form =
      inl (Exn SchoolsAPIError
             ("Cannot find login fields. Found: username=" +:+ found +:+
              ", password=None"))
    /\ authenticate (Fixture.opened E tt) "ann" "pw" Fixture.fresh =
         (inl (Exn SchoolsAPIError
                 ("Authentication failed: Cannot find login fields. Found: username="
                  +:+ found +:+ ", password=None")),
          {| Fixture.closed := false;
             Fixture.sent :=
               [Request "GET" "https://schools.by/" [] [] [];
                Request "GET" "https://schools.by/login" [] [] []] |}).
Proof.
  intros E.
  destruct (no_password_no_submission (H := E) (Fixture.opened E tt)
           "ann" "pw" (Fixture.client E tt)
           Fixture.fresh
           {| Fixture.closed := false;
              Fixture.sent := [Request "GET" "https://schools.by/" [] [] []] |}
           {| Fixture.closed := false;
              Fixture.sent :=
                [Request "GET" "https://schools.by/" [] [] [];
                 Request "GET" "https://schools.by/login" [] [] []] |}
           "https://schools.by/" "https://schools.by/login"
           (Fixture.html_response 200
              "<html><body>schools.by</body></html>" None)
           (Fixture.html_response 200 Fixture.no_password_html None)
           (Fixture.document [Fixture.no_password_form])
           Fixture.no_password_form)
    as (found & Hfields & Hauth & _).
  - reflexivity.
  - reflexivity.
  - reflexivity.
  - reflexivity.
  - reflexivity.
  - reflexivity.
  - reflexivity.
  - reflexivity.
  - intros inp Hin.
    apply list_elem_of_In in Hin. vm_compute in Hin.
    destruct Hin as [<-|[<-|[]]]; intros [Ht|Hn]; try discriminate;
      apply list_elem_of_In in Hn; vm_compute in Hn; intuition discriminate.
  - exists found. split; [exact Hfields|].
    apply Hauth. right. now exists "https://schools.by/login".
Defined.

(** C6 as stated fails: a form without password field whose action
    cannot be joined to the base address.  The authenticator fails with
    the refusal of the join, which names no field. *)
Lemma malformed_action_reported :
  let E := Fixture.login_env Fixture.bracket_html
             (Fixture.html_response 200 Fixture.welcome_html None) in
  BeautifulSoup (VStr Fixture.bracket_html)
    = inr (Fixture.document [Fixture.bracket_form])
  /\ Spec.first_form (Fixture.document [Fixture.bracket_form])
     = Some Fixture.bracket_form
  /\ (forall inp, inp ∈ Spec.inputs Fixture.bracket_form ->
        ~ Spec.password_shaped inp)
  /\ authenticate (Fixture.opened E tt) "ann" "pw" Fixture.fresh =
       (inl (Exn SchoolsAPIError "Authentication failed: Invalid IPv6 URL"),
        {| Fixture.closed := false;
           Fixture.sent :=
             [Request "GET" "https://schools.by/" [] [] [];
              Request "GET" "https://schools.by/login" [] [] []] |}).
Proof.
  intros E. split; [reflexivity|]. split; [reflexivity|]. split.
  - intros inp Hin.
    apply list_elem_of_In in Hin. vm_compute in Hin.
    destruct Hin as [<-|[]]; intros [Ht|Hn]; try discriminate;
      apply list_elem_of_In in Hn; vm_compute in Hn; intuition discriminate.
  - vm_compute. reflexivity.
Qed.

(** ** The two patterns *)
Section Patterns.

(** *** The classes of characters *)

Lemma space_not_quote (c : ascii) : isspace c = true -> is_quote c = false.
Proof. destruct c as [[] [] [] [] [] [] [] []]; vm_compute; congruence. Qed.

Lemma assign_not_quote (c : ascii) : is_assign c = true -> is_quote c = false.
Proof. destruct c as [[] [] [] [] [] [] [] []]; vm_compute; congruence. Qed.

Lemma assign_not_space (c : ascii) : is_assign c = true -> isspace c = false.
Proof. destruct c as [[] [] [] [] [] [] [] []]; vm_compute; congruence. Qed.

Lemma quote_not_space (c : ascii) : is_quote c = true -> isspace c = false.
Proof. destruct c as [[] [] [] [] [] [] [] []]; vm_compute; congruence. Qed.

Lemma quote_not_token_char (c : ascii) :
  is_quote c = true -> is_token_char c = false.
Proof. destruct c as [[] [] [] [] [] [] [] []]; vm_compute; congruence. Qed.

Lemma lower_t_not_joiner (c : ascii) :
  lower_char c = "t"%char -> is_joiner c = false.
Proof. destruct c as [[] [] [] [] [] [] [] []]; vm_compute; congruence. Qed.

Lemma lower_underscore (c : ascii) :
  lower_char c = "_"%char -> c = "_"%char.
Proof. destruct c as [[] [] [] [] [] [] [] []]; vm_compute; congruence. Qed.

Lemma lower_hyphen (c : ascii) :
  lower_char c = "-"%char -> c = "-"%char.
Proof. destruct c as [[] [] [] [] [] [] [] []]; vm_compute; congruence. Qed.

Lemma joiner_cases (c : ascii) :
  is_joiner c = true -> c = "_"%char \/ c = "-"%char.
Proof.
  destruct c as [[] [] [] [] [] [] [] []]; vm_compute; intros Hc;
    try discriminate Hc; auto.
Qed.

(** *** Text taken apart *)

Lemma append_nil_l (s : string) : "" +:+ s = s.
Proof. reflexivity. Qed.

Lemma skip_word_spec (word s s' : string) :
  skip_word word s = Some s' <-> exists w, s = w +:+ s' /\ lower w = word.
Proof.
  revert s. induction word as [|a word IH]; intros s.
  - cbn. split.
    + intros [= ->]. now exists "".
    + intros (w & -> & Hw). destruct w; [reflexivity | discriminate].
  - destruct s as [|c s]; cbn.
    + split; [discriminate|].
      intros (w & Hs & Hw). destruct w; discriminate.
    + destruct (Ascii.eqb (lower_char c) a) eqn:Hc.
      * apply Ascii.eqb_eq in Hc. rewrite IH. split.
        -- intros (w & -> & <-). exists (String c w). cbn. now rewrite Hc.
        -- intros (w & Hs & Hw). destruct w as [|c' w]; [discriminate|].
           cbn in Hs, Hw. injection Hs as <- ->. injection Hw as _ <-.
           now exists w.
      * apply Ascii.eqb_neq in Hc. split; [discriminate|].
        intros (w & Hs & Hw). destruct w as [|c' w]; [discriminate|].
        cbn in Hs, Hw. injection Hs as <- ->. injection Hw as Hw _.
        contradiction.
Qed.

Lemma skip_one_spec (class : ascii -> bool) (s s' : string) :
  skip_one class s = Some s' <-> exists c, s = String c s' /\ class c = true.
Proof.
  destruct s as [|c s]; cbn.
  - split; [discriminate | intros (c & Hs & _); discriminate].
  - destruct (class c) eqn:Hc.
    + split.
      * intros [= <-]. now exists c.
      * intros (c' & [= <- <-] & _). reflexivity.
    + split; [discriminate|]. intros (c' & [= <- <-] & Hc'). congruence.
Qed.

Lemma skip_all_spec (class : ascii -> bool) (s s' : string) :
  skip_all class s = s' /\ Spec.stops class s'
  <-> exists ws, s = ws +:+ s' /\ Spec.all_of class ws /\ Spec.stops class s'.
Proof.
  split.
  - intros [Hs Hstop]. revert Hs. induction s as [|c s IH]; cbn.
    + intros <-. now exists "".
    + destruct (class c) eqn:Hc.
      * intros Hs. destruct (IH Hs) as (ws & -> & Hws & _).
        exists (String c ws). cbn. auto.
      * intros <-. now exists "".
  - intros (ws & -> & Hws & Hstop). split; [|exact Hstop].
    induction ws as [|c ws IH].
    + destruct s' as [|c s']; [reflexivity|].
      change (skip_all class (String c s') = String c s').
      cbn in Hstop |- *. now rewrite Hstop.
    + destruct Hws as [Hc Hws]. rewrite app_cons. cbn. rewrite Hc.
      now apply IH.
Qed.

Lemma skip_all_stops (class : ascii -> bool) (s : string) :
  Spec.stops class (skip_all class s).
Proof.
  induction s as [|c s IH]; cbn; [exact I|].
  destruct (class c) eqn:Hc; [exact IH | exact Hc].
Qed.

Lemma span_spec (class : ascii -> bool) (s g rest : string) :
  span class s = (g, rest)
  <-> s = g +:+ rest /\ Spec.all_of class g /\ Spec.stops class rest.
Proof.
  revert g. induction s as [|c s IH]; intros g; cbn.
  - split.
    + intros [= <- <-]. now split.
    + intros (Hs & _ & _). destruct g; [|discriminate].
      rewrite append_nil_l in Hs. now subst rest.
  - destruct (class c) eqn:Hc.
    + destruct (span class s) as [run rest0] eqn:Hspan. split.
      * intros [= <- <-]. destruct (proj1 (IH run) eq_refl) as (-> & Hr & Hst).
        rewrite app_cons. cbn. auto.
      * intros (Hs & Hg & Hst). destruct g as [|c' g].
        -- rewrite append_nil_l in Hs. subst rest. cbn in Hst. congruence.
        -- rewrite app_cons in Hs. injection Hs as <- ->.
           destruct Hg as [_ Hg].
           assert (Hi : (run, rest0) = (g, rest))
             by (apply IH; auto).
           now injection Hi as -> ->.
    + split.
      * intros [= <- <-]. cbn. auto.
      * intros (Hs & Hg & Hst). destruct g as [|c' g].
        -- rewrite append_nil_l in Hs. now subst rest.
        -- rewrite app_cons in Hs. injection Hs as <- ->.
           destruct Hg as [Hg _]. congruence.
Qed.

Lemma skip_optional_spec (class : ascii -> bool) (s : string) :
  exists q,
    s = q +:+ skip_optional class s
    /\ (q = "" \/ exists c, q = String c "" /\ class c = true).
Proof.
  destruct s as [|c s]; cbn.
  - exists "". auto.
  - destruct (class c) eqn:Hc.
    + exists (String c ""). split; [reflexivity|]. right. now exists c.
    + exists "". auto.
Qed.

Lemma skip_optional_stops (class : ascii -> bool) (s : string) :
  Spec.stops class s -> skip_optional class s = s.
Proof. destruct s as [|c s]; cbn; [reflexivity|]. now intros ->. Qed.

(** What the two patterns ask after the introducing word. *)
Lemma match_assignment_spec (s g : string) :
  match_assignment s = Some g
  <-> exists q ws1 sep ws2 q1 q2 after,
        s = q +:+ ws1 +:+
            String sep (ws2 +:+ String q1 (g +:+ String q2 after))
        /\ (q = "" \/ exists c, q = String c "" /\ is_quote c = true)
        /\ Spec.all_of isspace ws1
        /\ is_assign sep = true
        /\ Spec.all_of isspace ws2
        /\ is_quote q1 = true
        /\ g <> ""
        /\ Spec.all_of is_token_char g
        /\ is_quote q2 = true.
Proof.
  unfold match_assignment. split.
  - destruct (skip_optional_spec is_quote s) as (q & Hs & Hq).
    destruct (proj1 (skip_all_spec isspace (skip_optional is_quote s) _)
                (conj eq_refl (skip_all_stops _ _)))
      as (ws1 & Hs1 & Hws1 & _).
    destruct (skip_one is_assign _) as [s3|] eqn:H3; [|discriminate].
    apply skip_one_spec in H3 as (sep & H3 & Hsep).
    destruct (proj1 (skip_all_spec isspace s3 _)
                (conj eq_refl (skip_all_stops _ _)))
      as (ws2 & Hs3 & Hws2 & _).
    destruct (skip_one is_quote _) as [s5|] eqn:H5; [|discriminate].
    apply skip_one_spec in H5 as (q1 & H5 & Hq1).
    destruct (span is_token_char s5) as [group rest] eqn:Hspan.
    apply span_spec in Hspan as (Hs5 & Hgroup & _).
    destruct (truthy group) eqn:Htr; [|discriminate].
    destruct (skip_one is_quote rest) as [after|] eqn:H6; [|discriminate].
    apply skip_one_spec in H6 as (q2 & -> & Hq2).
    intros [= <-].
    exists q, ws1, sep, ws2, q1, q2, after.
    split; [|repeat (split; [assumption|]);
             split; [now apply truthy_true | now split]].
    rewrite Hs, Hs1, H3, Hs3, H5, Hs5. reflexivity.
  - intros (q & ws1 & sep & ws2 & q1 & q2 & after & -> & Hq & Hws1 & Hsep
            & Hws2 & Hq1 & Hg & Hgroup & Hq2).
    assert (H1 : skip_optional is_quote
                   (q +:+ ws1 +:+
                    String sep (ws2 +:+ String q1 (g +:+ String q2 after)))
                 = ws1 +:+
                   String sep (ws2 +:+ String q1 (g +:+ String q2 after))).
    { destruct Hq as [->|(c & -> & Hc)].
      - rewrite append_nil_l. apply skip_optional_stops.
        destruct ws1 as [|c ws1].
        + rewrite append_nil_l. cbn. now apply assign_not_quote.
        + rewrite app_cons. cbn. destruct Hws1 as [Hc _].
          now apply space_not_quote.
      - rewrite app_cons, append_nil_l. cbn. now rewrite Hc. }
    rewrite H1.
    assert (H2 : skip_all isspace
                   (ws1 +:+
                    String sep (ws2 +:+ String q1 (g +:+ String q2 after)))
                 = String sep (ws2 +:+ String q1 (g +:+ String q2 after))).
    { apply skip_all_spec. exists ws1. split; [reflexivity|].
      split; [exact Hws1|]. cbn. now apply assign_not_space. }
    rewrite H2. cbn [skip_one]. rewrite Hsep.
    assert (H3 : skip_all isspace
                   (ws2 +:+ String q1 (g +:+ String q2 after))
                 = String q1 (g +:+ String q2 after)).
    { apply skip_all_spec. exists ws2. split; [reflexivity|].
      split; [exact Hws2|]. cbn. now apply quote_not_space. }
    rewrite H3. cbn [skip_one]. rewrite Hq1.
    assert (H4 : span is_token_char (g +:+ String q2 after)
                 = (g, String q2 after)).
    { apply span_spec. split; [reflexivity|]. split; [exact Hgroup|].
      cbn. now apply quote_not_token_char. }
    rewrite H4. rewrite (proj2 (truthy_true g) Hg).
    cbn [skip_one]. now rewrite Hq2.
Qed.

Lemma lower_nil_inv (w : string) : lower w = "" -> w = "".
Proof. destruct w; [reflexivity | discriminate]. Qed.

Lemma lower_cons_inv (w rest : string) (a : ascii) :
  lower w = String a rest ->
  exists c w', w = String c w' /\ lower_char c = a /\ lower w' = rest.
Proof.
  destruct w as [|c w]; [discriminate|]. cbn. intros [= Hc Hw].
  now exists c, w.
Qed.

(** The words that introduce a token for the first pattern. *)
Lemma csrf_word_spec (s s' : string) :
  (exists s1, skip_word "csrf" s = Some s1
              /\ skip_word "token" (skip_optional is_joiner s1) = Some s')
  <-> exists word,
        s = word +:+ s'
        /\ lower word ∈ ["csrftoken"; "csrf_token"; "csrf-token"].
Proof.
  split.
  - intros (s1 & H1 & H2).
    apply skip_word_spec in H1 as (w1 & -> & Hw1).
    destruct (skip_optional_spec is_joiner s1) as (j & Hs1 & Hj).
    apply skip_word_spec in H2 as (w2 & H2 & Hw2).
    exists (w1 +:+ j +:+ w2). split.
    + rewrite Hs1, H2. now rewrite !str_app_assoc.
    + rewrite !lower_app, Hw1, Hw2.
      destruct Hj as [->|(c & -> & Hc)].
      * apply list_elem_of_here.
      * apply list_elem_of_further.
        destruct (joiner_cases c Hc) as [->| ->].
        -- apply list_elem_of_here.
        -- apply list_elem_of_further, list_elem_of_here.
  - intros (word & -> & Hword).
    apply elem_of_cons in Hword as [Hword|Hword];
      [|apply elem_of_cons in Hword as [Hword|Hword];
        [|apply elem_of_cons in Hword as [Hword|Hword];
          [|now apply elem_of_nil in Hword]]].
    + 
      apply lower_cons_inv in Hword as (c1 & w1 & -> & E1 & Hword).
      apply lower_cons_inv in Hword as (c2 & w2 & -> & E2 & Hword).
      apply lower_cons_inv in Hword as (c3 & w3 & -> & E3 & Hword).
      apply lower_cons_inv in Hword as (c4 & w4 & -> & E4 & Hword).
      apply lower_cons_inv in Hword as (c5 & w5 & -> & E5 & Hword).
      apply lower_cons_inv in Hword as (c6 & w6 & -> & E6 & Hword).
      apply lower_cons_inv in Hword as (c7 & w7 & -> & E7 & Hword).
      apply lower_cons_inv in Hword as (c8 & w8 & -> & E8 & Hword).
      apply lower_cons_inv in Hword as (c9 & w9 & -> & E9 & Hword).
      apply lower_nil_inv in Hword as ->.
      eexists. split.
      * apply skip_word_spec. exists (String c1 (String c2 (String c3 (String c4 "")))).
        split; [reflexivity|]. cbn. congruence.
      * rewrite skip_optional_stops
          by (rewrite ?app_cons; cbn; now apply lower_t_not_joiner).
        apply skip_word_spec. exists (String c5 (String c6 (String c7 (String c8 (String c9 ""))))).
        split; [reflexivity|]. cbn. congruence.
    + 
      apply lower_cons_inv in Hword as (c1 & w1 & -> & E1 & Hword).
      apply lower_cons_inv in Hword as (c2 & w2 & -> & E2 & Hword).
      apply lower_cons_inv in Hword as (c3 & w3 & -> & E3 & Hword).
      apply lower_cons_inv in Hword as (c4 & w4 & -> & E4 & Hword).
      apply lower_cons_inv in Hword as (c5 & w5 & -> & E5 & Hword).
      apply lower_cons_inv in Hword as (c6 & w6 & -> & E6 & Hword).
      apply lower_cons_inv in Hword as (c7 & w7 & -> & E7 & Hword).
      apply lower_cons_inv in Hword as (c8 & w8 & -> & E8 & Hword).
      apply lower_cons_inv in Hword as (c9 & w9 & -> & E9 & Hword).
      apply lower_cons_inv in Hword as (c10 & w10 & -> & E10 & Hword).
      apply lower_nil_inv in Hword as ->.
      apply lower_underscore in E5. subst c5.
      eexists. split.
      * apply skip_word_spec. exists (String c1 (String c2 (String c3 (String c4 "")))).
        split; [reflexivity|]. cbn. congruence.
      * rewrite ?app_cons, ?append_nil_l. cbn [skip_optional].
        change (is_joiner "_") with true. cbv iota.
        apply skip_word_spec. exists (String c6 (String c7 (String c8 (String c9 (String c10 ""))))).
        split; [reflexivity|]. cbn. congruence.
    + 
      apply lower_cons_inv in Hword as (c1 & w1 & -> & E1 & Hword).
      apply lower_cons_inv in Hword as (c2 & w2 & -> & E2 & Hword).
      apply lower_cons_inv in Hword as (c3 & w3 & -> & E3 & Hword).
      apply lower_cons_inv in Hword as (c4 & w4 & -> & E4 & Hword).
      apply lower_cons_inv in Hword as (c5 & w5 & -> & E5 & Hword).
      apply lower_cons_inv in Hword as (c6 & w6 & -> & E6 & Hword).
      apply lower_cons_inv in Hword as (c7 & w7 & -> & E7 & Hword).
      apply lower_cons_inv in Hword as (c8 & w8 & -> & E8 & Hword).
      apply lower_cons_inv in Hword as (c9 & w9 & -> & E9 & Hword).
      apply lower_cons_inv in Hword as (c10 & w10 & -> & E10 & Hword).
      apply lower_nil_inv in Hword as ->.
      apply lower_hyphen in E5. subst c5.
      eexists. split.
      * apply skip_word_spec. exists (String c1 (String c2 (String c3 (String c4 "")))).
        split; [reflexivity|]. cbn. congruence.
      * rewrite ?app_cons, ?append_nil_l. cbn [skip_optional].
        change (is_joiner "-") with true. cbv iota.
        apply skip_word_spec. exists (String c6 (String c7 (String c8 (String c9 (String c10 ""))))).
        split; [reflexivity|]. cbn. congruence.
Qed.

Lemma assignment_app (word q ws1 ws2 g after : string) (sep q1 q2 : ascii) :
  (word +:+ q +:+ ws1 +:+
   String sep (ws2 +:+ String q1 (g +:+ String q2 ""))) +:+ after
  = word +:+ q +:+ ws1 +:+
    String sep (ws2 +:+ String q1 (g +:+ String q2 after)).
Proof.
  repeat (rewrite str_app_assoc || rewrite app_cons).
  now rewrite append_nil_l.
Qed.

Lemma match_here_word (pattern : token_pattern) (s g : string) :
  match_here pattern s = Some g
  <-> exists word s', s = word +:+ s'
                      /\ Spec.introduces pattern word
                      /\ match_assignment s' = Some g.
Proof.
  destruct pattern; cbn [match_here Spec.introduces].
  - split.
    + destruct (skip_word "csrf" s) as [s1|] eqn:H1; [|discriminate].
      destruct (skip_word "token" _) as [s2|] eqn:H2; [|discriminate].
      intros Hg.
      destruct (proj1 (csrf_word_spec s s2)) as (word & Hs & Hword);
        [now exists s1|].
      now exists word, s2.
    + intros (word & s' & Hs & Hword & Hg).
      destruct (proj2 (csrf_word_spec s s')) as (s1 & H1 & H2);
        [now exists word|].
      now rewrite H1, H2.
  - split.
    + destruct (skip_word "_token" s) as [s1|] eqn:H1; [|discriminate].
      intros Hg. apply skip_word_spec in H1 as (word & Hs & Hword).
      now exists word, s1.
    + intros (word & s' & Hs & Hword & Hg).
      assert (H1 : skip_word "_token" s = Some s')
        by (apply skip_word_spec; now exists word).
      now rewrite H1.
Qed.

(** A match at the head of a text is an assignment that the text starts
    with. *)
Lemma match_here_spec (pattern : token_pattern) (s g : string) :
  match_here pattern s = Some g
  <-> exists m after, s = m +:+ after /\ Spec.assigns pattern m g.
Proof.
  rewrite match_here_word. split.
  - intros (word & s' & -> & Hword & Hg).
    apply match_assignment_spec in Hg
      as (q & ws1 & sep & ws2 & q1 & q2 & after & -> & Hrest).
    exists (word +:+ q +:+ ws1 +:+
            String sep (ws2 +:+ String q1 (g +:+ String q2 ""))), after.
    split; [now rewrite assignment_app|].
    exists word, q, ws1, sep, ws2, q1, q2. now split.
  - intros (m & after & -> & word & q & ws1 & sep & ws2 & q1 & q2 & ->
            & Hword & Hrest).
    exists word,
      (q +:+ ws1 +:+ String sep (ws2 +:+ String q1 (g +:+ String q2 after))).
    split; [now rewrite assignment_app|]. split; [exact Hword|].
    apply match_assignment_spec.
    exists q, ws1, sep, ws2, q1, q2, after. now split.
Qed.

Lemma match_here_after (pattern : token_pattern) (content g : string) :
  match_here pattern content = Some g
  <-> Spec.assigned_after pattern content "" g.
Proof.
  rewrite match_here_spec. unfold Spec.assigned_after.
  split; intros (m & after & Hs & Hm); exists m, after;
    (split; [|exact Hm]); now rewrite ?append_nil_l in *.
Qed.

Lemma assigned_after_cons (pattern : token_pattern) (c : ascii)
    (content before g : string) :
  Spec.assigned_after pattern (String c content) (String c before) g
  <-> Spec.assigned_after pattern content before g.
Proof.
  unfold Spec.assigned_after.
  split; intros (m & after & Hs & Hm); exists m, after;
    (split; [|exact Hm]).
  - rewrite app_cons in Hs. now injection Hs.
  - rewrite app_cons. now rewrite Hs.
Qed.

Lemma assigned_after_head (pattern : token_pattern) (c : ascii)
    (content before g : string) :
  Spec.assigned_after pattern (String c content) before g ->
  before = ""
  \/ exists before', before = String c before'
                     /\ Spec.assigned_after pattern content before' g.
Proof.
  destruct before as [|c' before]; [now left|]. intros Ha. right.
  assert (c' = c) as ->.
  { destruct Ha as (m & after & Hs & _). rewrite app_cons in Hs.
    now injection Hs. }
  exists before. split; [reflexivity|]. now apply assigned_after_cons in Ha.
Qed.

Lemma assigned_after_nil (pattern : token_pattern) (before g : string) :
  Spec.assigned_after pattern "" before g -> before = "".
Proof.
  intros (m & after & Hs & _). destruct before; [reflexivity|].
  rewrite app_cons in Hs. discriminate.
Qed.

(** The search finds the leftmost assignment, and nothing where there is
    none. *)
Lemma re_search_some (pattern : token_pattern) (content g : string) :
  re_search pattern content = Some g <-> Spec.leftmost pattern content g.
Proof.
  unfold Spec.leftmost. induction content as [|c content IH];
    cbn [re_search].
  - destruct (match_here pattern "") as [g0|] eqn:Hh.
    + split.
      * intros [= <-]. exists "". split; [now apply match_here_after|].
        intros; cbn; lia.
      * intros (before & Ha & _).
        pose proof (assigned_after_nil _ _ _ Ha) as ->.
        apply match_here_after in Ha. congruence.
    + split; [discriminate|]. intros (before & Ha & _).
      pose proof (assigned_after_nil _ _ _ Ha) as ->.
      apply match_here_after in Ha. congruence.
  - destruct (match_here pattern (String c content)) as [g0|] eqn:Hh.
    + split.
      * intros [= <-]. exists "". split; [now apply match_here_after|].
        intros; cbn; lia.
      * intros (before & Ha & Hmin).
        apply match_here_after in Hh.
        specialize (Hmin "" g0 Hh). destruct before; [|cbn in Hmin; lia].
        apply match_here_after in Ha, Hh. congruence.
    + rewrite IH. split.
      * intros (before & Ha & Hmin). exists (String c before). split.
        -- now apply assigned_after_cons.
        -- intros before' g' Ha'.
           destruct (assigned_after_head _ _ _ _ _ Ha')
             as [->|(b & -> & Hb)].
           ++ apply match_here_after in Ha'. congruence.
           ++ specialize (Hmin b g' Hb). cbn. lia.
      * intros (before & Ha & Hmin).
        destruct (assigned_after_head _ _ _ _ _ Ha) as [->|(b & -> & Hb)].
        -- apply match_here_after in Ha. congruence.
        -- exists b. split; [exact Hb|]. intros before' g' Ha'.
           apply (assigned_after_cons pattern c) in Ha'.
           specialize (Hmin _ _ Ha'). cbn in Hmin. lia.
Qed.

Lemma re_search_none (pattern : token_pattern) (content : string) :
  re_search pattern content = None <-> Spec.unmatched pattern content.
Proof.
  unfold Spec.unmatched. induction content as [|c content IH];
    cbn [re_search].
  - destruct (match_here pattern "") as [g0|] eqn:Hh.
    + split; [discriminate|]. intros Hno. exfalso.
      apply (Hno "" g0). now apply match_here_after.
    + split; [|reflexivity]. intros _ before g Ha.
      pose proof (assigned_after_nil _ _ _ Ha) as ->.
      apply match_here_after in Ha. congruence.
  - destruct (match_here pattern (String c content)) as [g0|] eqn:Hh.
    + split; [discriminate|]. intros Hno. exfalso.
      apply (Hno "" g0). now apply match_here_after.
    + rewrite IH. split.
      * intros Hno before g Ha.
        destruct (assigned_after_head _ _ _ _ _ Ha) as [->|(b & -> & Hb)].
        -- apply match_here_after in Ha. congruence.
        -- now apply (Hno b g).
      * intros Hno before g Ha. apply (Hno (String c before) g).
        now apply assigned_after_cons.
Qed.

End Patterns.
(** ** The discovery of the token *)
Section Tokens.

Context `{Collaborators}.

Lemma find_first_named (page : Bs4.soup) (tag nm : string) :
  Bs4.find page [tag] (Bs4.attr_is "name" nm) = Spec.first_named page tag nm.
Proof.
  unfold Bs4.find, Bs4.find_all, Spec.first_named. f_equal.
  apply list_filter_iff. intros n.
  rewrite Is_true_true, andb_true_iff, named_single.
  unfold Bs4.attr_is. destruct (Bs4.get n "name") as [x|].
  - rewrite String.eqb_eq. split; intros [? ?]; split; congruence.
  - split; intros [? ?]; discriminate.
Qed.

Lemma csrf_inputs_spec (page : Bs4.soup) :
  csrf_inputs page = Spec.token_carriers page.
Proof.
  unfold csrf_inputs, Spec.token_carriers.
  now rewrite !find_first_named.
Qed.

Lemma carried_some (e : Bs4.node) (t : string) :
  Spec.carried e = Some t -> token_of e = Some t /\ truthy t = true.
Proof.
  unfold Spec.carried, token_of, or_else.
  destruct (Bs4.get e "value") as [v|]; simpl.
  - destruct (decide (v = "")) as [->|Hv].
    + simpl. destruct (Bs4.get e "content") as [c|]; [|discriminate].
      destruct (decide (c = "")) as [->|Hc]; [discriminate|].
      intros [= <-]. split; [reflexivity | now apply truthy_true].
    + intros [= <-]. rewrite (proj2 (truthy_true v) Hv). now split.
  - destruct (Bs4.get e "content") as [c|]; [|discriminate].
    destruct (decide (c = "")) as [->|Hc]; [discriminate|].
    intros [= <-]. split; [reflexivity | now apply truthy_true].
Qed.

Lemma carried_none (e : Bs4.node) :
  Spec.carried e = None -> truthy_opt (token_of e) = false.
Proof.
  unfold Spec.carried, token_of, or_else.
  destruct (Bs4.get e "value") as [v|]; simpl.
  - destruct (decide (v = "")) as [->|Hv]; [|discriminate].
    simpl. destruct (Bs4.get e "content") as [c|]; [|reflexivity].
    destruct (decide (c = "")) as [->|Hc]; [reflexivity | discriminate].
  - destruct (Bs4.get e "content") as [c|]; [|reflexivity].
    destruct (decide (c = "")) as [->|Hc]; [reflexivity | discriminate].
Qed.

(** The loop stops at the first carrier that carries something. *)
Lemma scan_csrf_inputs_first (l : list (option Bs4.node)) (i : nat)
    (e : Bs4.node) (t : string) :
  l !! i = Some (Some e) ->
  Spec.carried e = Some t ->
  (forall k e', (k < i)%nat -> l !! k = Some (Some e') ->
                Spec.carried e' = None) ->
  scan_csrf_inputs l = Some t.
Proof.
  revert i. induction l as [|o l IH]; intros i Hi Ht Hbefore; [discriminate|].
  destruct i as [|i].
  - injection Hi as ->. simpl.
    destruct (carried_some e t Ht) as [-> Htr]. simpl. now rewrite Htr.
  - assert (Hrest : scan_csrf_inputs l = Some t).
    { apply (IH i Hi Ht). intros k e' Hk He'.
      apply (Hbefore (S k) e'); [lia | exact He']. }
    destruct o as [e0|]; simpl; [|exact Hrest].
    rewrite (carried_none e0 (Hbefore 0%nat e0 ltac:(lia) eq_refl)).
    exact Hrest.
Qed.

Lemma scan_csrf_inputs_none (l : list (option Bs4.node)) :
  (forall e, Some e ∈ l -> Spec.carried e = None) ->
  scan_csrf_inputs l = None.
Proof.
  induction l as [|o l IH]; intros Hl; [reflexivity|].
  assert (Hrest : scan_csrf_inputs l = None).
  { apply IH. intros e He. apply Hl. apply elem_of_cons. now right. }
  destruct o as [e0|]; simpl; [|exact Hrest].
  rewrite (carried_none e0); [exact Hrest|].
  apply Hl. apply elem_of_cons. now left.
Qed.

(** *** Tokens in scripts *)

Lemma scan_patterns_spec (content : string) (g : string) :
  scan_patterns token_patterns content = Some g
  <-> Spec.leftmost CsrfTokenPattern content g
      \/ (Spec.unmatched CsrfTokenPattern content
          /\ Spec.leftmost UnderscoreTokenPattern content g).
Proof.
  unfold token_patterns. cbn [scan_patterns].
  destruct (re_search CsrfTokenPattern content) as [g1|] eqn:H1.
  - split.
    + intros [= <-]. left. now apply re_search_some.
    + intros [Hl|[Hno _]].
      * apply re_search_some in Hl. congruence.
      * apply re_search_none in Hno. congruence.
  - destruct (re_search UnderscoreTokenPattern content) as [g2|] eqn:H2.
    + split.
      * intros [= <-]. right. split; [now apply re_search_none|].
        now apply re_search_some.
      * intros [Hl|[_ Hl]]; apply re_search_some in Hl; congruence.
    + split; [discriminate|].
      intros [Hl|[_ Hl]]; apply re_search_some in Hl; congruence.
Qed.

Lemma scan_token_script_spec (script : Bs4.node) (g : string) :
  scan_token_script script = Some g <-> Spec.offers script g.
Proof.
  unfold scan_token_script, Spec.offers, Spec.mentions.
  destruct (Bs4.string_of script) as [content|].
  - split.
    + destruct (truthy content) eqn:Htr; [|discriminate].
      destruct (contains "csrf" (lower content)
                || contains "token" (lower content)) eqn:Hm; [|discriminate].
      intros Hg. exists content. split; [reflexivity|].
      split; [now apply truthy_true|].
      split; [now apply orb_prop|]. now apply scan_patterns_spec.
    + intros (content' & [= <-] & Hne & Hm & Hg).
      rewrite (proj2 (truthy_true content) Hne).
      rewrite (orb_true_intro _ _ Hm). now apply scan_patterns_spec.
  - split; [discriminate|]. intros (content' & Hc & _). discriminate.
Qed.

Lemma scan_token_script_none (script : Bs4.node) :
  scan_token_script script = None <-> forall g, ~ Spec.offers script g.
Proof.
  split.
  - intros Hn g Hg. apply scan_token_script_spec in Hg. congruence.
  - intros Hno. destruct (scan_token_script script) as [g|] eqn:Hs;
      [|reflexivity].
    exfalso. apply (Hno g). now apply scan_token_script_spec.
Qed.

Lemma scan_token_scripts_sound (scripts : list Bs4.node) :
  match scan_token_scripts scripts with
  | Some g =>
      exists before script after,
        scripts = before ++ script :: after
        /\ Forall (fun s => forall g', ~ Spec.offers s g') before
        /\ Spec.offers script g
  | None => Forall (fun s => forall g', ~ Spec.offers s g') scripts
  end.
Proof.
  induction scripts as [|script rest IH]; cbn [scan_token_scripts].
  - constructor.
  - destruct (scan_token_script script) as [g|] eqn:Hs.
    + exists [], script, rest. split; [reflexivity|].
      split; [constructor | now apply scan_token_script_spec].
    + pose proof (proj1 (scan_token_script_none script) Hs) as Hno.
      destruct (scan_token_scripts rest) as [g|].
      * destruct IH as (before & s & after & -> & Hb & Hg).
        exists (script :: before), s, after.
        split; [reflexivity|]. split; [now constructor | exact Hg].
      * now constructor.
Qed.

(** The token that the scripts of a page hold is the one that the search
    in the scripts returns, and no other. *)
Lemma script_token_spec (page : Bs4.soup) (token : option string) :
  Spec.script_token page token
  <-> scan_token_scripts (Spec.scripts page) = token.
Proof.
  split.
  - unfold Spec.script_token.
    generalize (Spec.scripts page) as scripts. intros scripts.
    destruct token as [g|].
    + intros (before & script & after & -> & Hb & Hg).
      induction before as [|s before IH]; cbn [app scan_token_scripts].
      * apply scan_token_script_spec in Hg. now rewrite Hg.
      * apply Forall_cons in Hb as [Hs Hb].
        rewrite (proj2 (scan_token_script_none s) Hs). now apply IH.
    + induction scripts as [|s scripts IH]; [reflexivity|].
      intros Hall. apply Forall_cons in Hall as [Hs Hall].
      cbn [scan_token_scripts].
      rewrite (proj2 (scan_token_script_none s) Hs). now apply IH.
  - intros <-. apply scan_token_scripts_sound.
Qed.

(** A token found in a script is a run of letters, digits, hyphens and
    underscores that is not empty. *)
Lemma offered_token (script : Bs4.node) (g : string) :
  Spec.offers script g -> g <> "" /\ Spec.all_of is_token_char g.
Proof.
  intros (content & _ & _ & _ & Hg).
  assert (Ha : exists pattern before,
            Spec.assigned_after pattern content before g).
  { destruct Hg as [(before & Ha & _)|[_ (before & Ha & _)]]; eauto. }
  destruct Ha as (pattern & before & m & after & _ & Hm).
  destruct Hm as (word & q & ws1 & sep & ws2 & q1 & q2 & _ & _ & _ & _ & _
                  & _ & _ & Hne & Hg' & _).
  now split.
Qed.

(** C4, amended.  The discovery returns the first hit in the fixed
    order: the first input named csrfmiddlewaretoken, then the first
    input named _token, then the first input named csrf_token, whatever
    the type of these inputs, then the first meta tag named csrf-token;
    the token of such an element is its value attribute unless missing
    or empty, else its content attribute unless missing or empty, and an
    element without token is passed over.  When none of the four carries
    a token, the answer is the token matched in the inline scripts: that
    of the first script block whose text is not empty, mentions csrf or
    token and holds an assignment of a quoted run of letters, digits,
    hyphens and underscores to csrf-token, csrf_token or csrftoken or,
    failing that, to _token, the leftmost such assignment being taken;
    it is nothing when no script block holds one.  In particular, when
    the first input named _token has a value that is not empty and no
    input named csrfmiddlewaretoken carries a token, that value is
    returned whatever the meta tag holds. *)
Theorem csrf_priority (html : string) (page : Bs4.soup) :
  BeautifulSoup (VStr html) = inr page ->
  (forall i e t,
      Spec.token_carriers page !! i = Some (Some e) ->
      Spec.carried e = Some t ->
      (forall k e', (k < i)%nat ->
                    Spec.token_carriers page !! k = Some (Some e') ->
                    Spec.carried e' = None) ->
      get_csrf_token html = inr (Some t))
  /\ ((forall e, Some e ∈ Spec.token_carriers page ->
                 Spec.carried e = None) ->
      forall token,
        get_csrf_token html = inr token <-> Spec.script_token page token)
  /\ (forall h v,
         Spec.first_named page "input" "_token" = Some h ->
         Bs4.get h "value" = Some v -> v <> "" ->
         (forall e, Spec.first_named page "input" "csrfmiddlewaretoken"
                      = Some e -> Spec.carried e = None) ->
         get_csrf_token html = inr (Some v)).
Proof.
  intros Hpage.
  assert (Hfirst : forall i e t,
      Spec.token_carriers page !! i = Some (Some e) ->
      Spec.carried e = Some t ->
      (forall k e', (k < i)%nat ->
                    Spec.token_carriers page !! k = Some (Some e') ->
                    Spec.carried e' = None) ->
      get_csrf_token html = inr (Some t)).
  { intros i e t Hi Ht Hbefore.
    unfold get_csrf_token, rbind, csrf_token_in. rewrite Hpage.
    rewrite csrf_inputs_spec.
    now rewrite (scan_csrf_inputs_first _ i e t Hi Ht Hbefore). }
  split; [exact Hfirst | split].
  - intros Hnone token.
    unfold get_csrf_token, rbind, csrf_token_in. rewrite Hpage.
    rewrite csrf_inputs_spec, (scan_csrf_inputs_none _ Hnone).
    rewrite find_all_any. fold (Spec.scripts page).
    rewrite script_token_spec. split; [now intros [= ->] | now intros ->].
  - intros h v Hh Hv Hne Hmiddle.
    apply (Hfirst 1%nat h v).
    + unfold Spec.token_carriers. simpl. now rewrite Hh.
    + unfold Spec.carried. rewrite Hv. now destruct (decide (v = "")).
    + intros k e' Hk He'. assert (k = 0%nat) as -> by lia.
      apply Hmiddle. unfold Spec.token_carriers in He'. simpl in He'.
      congruence.
Qed.

End Tokens.

(** A page without carrier and with two script blocks: the first one
    mentions a token and assigns none; in the second one _token is
    assigned to the left of CSRF-Token, and the first pattern decides. *)
Lemma csrf_priority_witness :
  get_csrf_token (H := Fixture.page_env Fixture.two_scripts_html)
    Fixture.two_scripts_html = inr (Some "c-2")
  /\ Spec.script_token Fixture.two_scripts_page (Some "c-2").
Proof.
  assert (Hnone : forall e,
            Some e ∈ Spec.token_carriers Fixture.two_scripts_page ->
            Spec.carried e = None).
  { intros e He. apply list_elem_of_In in He. vm_compute in He.
    intuition discriminate. }
  pose proof (proj1 (proj2 (csrf_priority
                (H := Fixture.page_env Fixture.two_scripts_html)
                Fixture.two_scripts_html Fixture.two_scripts_page eq_refl))
              Hnone (Some "c-2")) as Hiff.
  split; [reflexivity|]. apply Hiff. reflexivity.
Defined.

(** A hidden [_token] input after a meta tag: the input wins. *)
Example hidden_token_before_meta :
  get_csrf_token (H := Fixture.page_env Fixture.token_meta_html)
    Fixture.token_meta_html = inr (Some "tok-1").
Proof. reflexivity. Qed.

(** One script block with one assignment. *)
Example token_in_script :
  get_csrf_token (H := Fixture.page_env Fixture.token_script_html)
    Fixture.token_script_html = inr (Some "js-77").
Proof. reflexivity. Qed.

(** The first pattern is asked before the second one, whatever the
    places of their matches. *)
Example first_pattern_first :
  re_search CsrfTokenPattern Fixture.two_assignments = Some "c-2"
  /\ re_search UnderscoreTokenPattern Fixture.two_assignments = Some "u-1"
  /\ scan_patterns token_patterns Fixture.two_assignments = Some "c-2".
Proof. repeat split. Qed.

(** C4 as stated fails: a hidden [_token] input of value A and a meta tag
    of content B are both on the page, and the token returned is neither:
    it is the value of a visible input of the same name that comes first. *)
Lemma visible_token_wins :
  let E := Fixture.page_env Fixture.two_tokens_html in
  BeautifulSoup (VStr Fixture.two_tokens_html) = inr Fixture.two_tokens_page
  /\ Fixture.input "hidden" "_token" "A"
       ∈ Bs4.descendants Fixture.two_tokens_page
  /\ Fixture.meta "csrf-token" "B" ∈ Bs4.descendants Fixture.two_tokens_page
  /\ get_csrf_token Fixture.two_tokens_html = inr (Some "X")
  /\ get_csrf_token Fixture.two_tokens_html <> inr (Some "A").
Proof.
  intros E. repeat split.
  - apply elem_of_cons. right. apply elem_of_cons. now left.
  - apply elem_of_cons. right. apply elem_of_cons. right.
    apply elem_of_cons. now left.
  - discriminate.
Qed.

(** A hidden [_token] input whose value is empty is passed over: the meta
    tag decides. *)
Example empty_hidden_token_skipped :
  get_csrf_token (H := Fixture.page_env Fixture.empty_token_html)
    Fixture.empty_token_html = inr (Some "B").
Proof. reflexivity. Qed.

(** ** Data found in scripts *)
Section Extraction.

Context `{Collaborators}.

Lemma scan_lines_app (l1 l2 : list string) :
  scan_lines (l1 ++ l2)
  = match scan_lines l1 with
    | Some r => Some r
    | None => scan_lines l2
    end.
Proof.
  induction l1 as [|x l1 IH]; [reflexivity|].
  simpl. destruct (scan_line x); [reflexivity | exact IH].
Qed.

(** A line that is no candidate is passed over. *)
Lemma scan_line_other (line : string) :
  ~ Spec.candidate_line line -> scan_line line = None.
Proof.
  unfold Spec.candidate_line, Spec.mentions, scan_line. intros Hno.
  destruct (contains "data" (lower line) || contains "config" (lower line))
    eqn:Ek; [|reflexivity].
  destruct (contains "{" line && contains "}" line) eqn:Eb; [|reflexivity].
  exfalso. apply Hno. apply orb_prop in Ek. apply andb_prop in Eb. tauto.
Qed.

(** A candidate is decoded between its outermost braces. *)
Lemma scan_line_candidate (line : string) :
  Spec.candidate_line line ->
  scan_line line
  = match json_loads (Spec.between_braces line) with
    | inr d => Some (inr d)
    | inl e => if is_ValueError e then None else Some (inl e)
    end.
Proof.
  unfold Spec.candidate_line, Spec.mentions, scan_line.
  intros (Hk & Ho & Hc).
  rewrite (orb_true_intro _ _ Hk), Ho, Hc. reflexivity.
Qed.

Lemma scan_lines_filter (lines : list string) :
  scan_lines lines = scan_lines (filter Spec.candidate_line lines).
Proof.
  induction lines as [|x l IH]; [reflexivity|].
  rewrite filter_cons. destruct (decide (Spec.candidate_line x)) as [Hx|Hx].
  - simpl. now rewrite IH.
  - simpl. now rewrite (scan_line_other x Hx).
Qed.

Lemma scan_script_spec (script : Bs4.node) :
  scan_script script = scan_lines (Spec.scanned_lines script).
Proof.
  unfold scan_script, Spec.scanned_lines.
  destruct (Bs4.string_of script) as [s|]; [|reflexivity].
  destruct (truthy s) eqn:Es.
  - now destruct (contains "window." (strip s) || contains "var " (strip s)).
  - apply truthy_false in Es. subst s. reflexivity.
Qed.

Lemma scan_scripts_spec (scripts : list Bs4.node) :
  scan_scripts scripts
  = scan_lines (concat (Spec.scanned_lines <$> scripts)).
Proof.
  induction scripts as [|x l IH]; [reflexivity|].
  simpl. rewrite scan_lines_app, <- scan_script_spec, IH. reflexivity.
Qed.

(** Among candidates, malformed ones are skipped and the first one that
    decodes is returned. *)
Lemma scan_candidates_first (lines : list string)
    (before after : list string) (cand : string) (d : dict) :
  Forall Spec.candidate_line lines ->
  Spec.between_braces <$> lines = before ++ cand :: after ->
  Forall Spec.malformed before ->
  json_loads cand = inr d ->
  scan_lines lines = Some (inr d).
Proof.
  revert lines. induction before as [|b before IH];
    intros lines Hc Heq Hbad Hd.
  - destruct lines as [|x lines]; [discriminate|].
    injection Heq as Hx _. apply Forall_cons in Hc as [Hcx _].
    simpl. rewrite (scan_line_candidate x Hcx), Hx, Hd. reflexivity.
  - destruct lines as [|x lines]; [discriminate|].
    injection Heq as Hx Heq. apply Forall_cons in Hc as [Hcx Hc].
    apply Forall_cons in Hbad as [(e & He & Hv) Hbad].
    simpl. rewrite (scan_line_candidate x Hcx), Hx, He, Hv.
    now apply IH.
Qed.

Lemma scan_candidates_none (lines : list string) :
  Forall Spec.candidate_line lines ->
  Forall Spec.malformed (Spec.between_braces <$> lines) ->
  scan_lines lines = None.
Proof.
  induction lines as [|x lines IH]; intros Hc Hbad; [reflexivity|].
  apply Forall_cons in Hc as [Hcx Hc].
  rewrite fmap_cons in Hbad. apply Forall_cons in Hbad as [(e & He & Hv) Hbad].
  simpl. rewrite (scan_line_candidate x Hcx), He, Hv. now apply IH.
Qed.

Lemma scan_page (page : Bs4.soup) :
  scan_scripts (Bs4.find_all page ["script"] Bs4.any)
  = scan_lines (filter Spec.candidate_line
                  (concat (Spec.scanned_lines <$> Spec.scripts page))).
Proof.
  rewrite find_all_any. fold (Spec.scripts page).
  now rewrite scan_scripts_spec, scan_lines_filter.
Qed.

Lemma filtered_candidates (lines : list string) :
  Forall Spec.candidate_line (filter Spec.candidate_line lines).
Proof.
  apply Forall_forall. intros x Hx. now apply list_elem_of_filter in Hx as [? _].
Qed.

Lemma extract_first (html : string) (page : Bs4.soup)
    (before after : list string) (cand : string) (d : dict) :
  BeautifulSoup (VStr html) = inr page ->
  Spec.candidates page = before ++ cand :: after ->
  Forall Spec.malformed before ->
  json_loads cand = inr d ->
  _extract_json_from_html html = inr d.
Proof.
  intros Hpage Hc Hbad Hd.
  unfold _extract_json_from_html, rbind. rewrite Hpage, scan_page.
  now rewrite (scan_candidates_first _ before after cand d
                 (filtered_candidates _) Hc Hbad Hd).
Qed.

Lemma extract_none (html : string) (page : Bs4.soup) :
  BeautifulSoup (VStr html) = inr page ->
  Forall Spec.malformed (Spec.candidates page) ->
  _extract_json_from_html html = inr [("html", VStr html)].
Proof.
  intros Hpage Hbad.
  unfold _extract_json_from_html, rbind. rewrite Hpage, scan_page.
  now rewrite (scan_candidates_none _ (filtered_candidates _) Hbad).
Qed.

(** What a 200 answer that is not JSON becomes, once the extraction has
    returned. *)
Lemma make_request_markup (self : t) (c : Client)
    (method endpoint url : string) (allow_errors : bool)
    (params : list (string * string)) (w w' : World) (r : response)
    (d : dict) :
  session self = Some c ->
  _build_url self endpoint = inr url ->
  client_request c (Request method url params [] []) w = (inr r, w') ->
  status_code r = 200 ->
  contains "application/json" (default "" (headers_get r "Content-Type"))
    = false ->
  _extract_json_from_html (text r) = inr d ->
  _make_request self method endpoint allow_errors params w
  = (inr (if negb (bool_decide (d = [])) && negb (dict_has "html" d)
          then VDict d
          else VDict [("html", VStr (text r)); ("status", VInt 200)]), w').
Proof.
  intros Hs Hurl Hreq Hst Hct Hex.
  unfold _make_request, try_except, bind, lift. rewrite Hs, Hurl, Hreq.
  rewrite Hst, Hct. cbn [Z.eqb Pos.eqb]. unfold lift. rewrite Hex.
  now destruct (negb (bool_decide (d = [])) && negb (dict_has "html" d)).
Qed.

(** C5, amended.  On a 200 answer that is not JSON and whose body
    parses, the extraction looks, in the script blocks whose stripped text
    holds a var declaration or a reference to window, at the lines that
    mention data or config (in any case of letters) and hold both braces,
    takes each from its first opening brace to its last closing brace,
    skips the malformed ones and returns the first one that decodes, which
    is the answer of the caller when it is not empty and has no key html;
    when all are malformed the extraction gives back the markup and the
    caller answers with the raw-markup envelope.  A page whose only script is the
    assignment of the object with key a and value 1 to the variable config
    yields that object; a page whose only script is the assignment of 5 to
    the variable x yields the raw-markup envelope. *)
Theorem script_data (self : t) (c : Client) (method endpoint url : string)
    (allow_errors : bool) (params : list (string * string))
    (w w' : World) (r : response) (page : Bs4.soup) :
  session self = Some c ->
  _build_url self endpoint = inr url ->
  client_request c (Request method url params [] []) w = (inr r, w') ->
  status_code r = 200 ->
  contains "application/json" (default "" (headers_get r "Content-Type"))
    = false ->
  BeautifulSoup (VStr (text r)) = inr page ->
  let envelope := VDict [("html", VStr (text r)); ("status", VInt 200)] in
  let answer := _make_request self method endpoint allow_errors params w in
  (forall before cand after d,
      Spec.candidates page = before ++ cand :: after ->
      Forall Spec.malformed before ->
      json_loads cand = inr d ->
      _extract_json_from_html (text r) = inr d
      /\ (d <> [] -> dict_has "html" d = false ->
          answer = (inr (VDict d), w')))
  /\ (Forall Spec.malformed (Spec.candidates page) ->
      _extract_json_from_html (text r) = inr [("html", VStr (text r))]
      /\ answer = (inr envelope, w'))
  /\ (forall script,
         Spec.scripts page = [script] ->
         Bs4.string_of script = Some Spec.var_config ->
         json_loads Spec.object_a1 = inr [("a", VInt 1)] ->
         answer = (inr (VDict [("a", VInt 1)]), w'))
  /\ (forall script,
         Spec.scripts page = [script] ->
         Bs4.string_of script = Some Spec.var_x ->
         answer = (inr envelope, w')).
Proof.
  intros Hs Hurl Hreq Hst Hct Hpage envelope answer.
  assert (Hnone : Forall Spec.malformed (Spec.candidates page) ->
      _extract_json_from_html (text r) = inr [("html", VStr (text r))]
      /\ answer = (inr envelope, w')).
  { intros Hbad. pose proof (extract_none _ _ Hpage Hbad) as Hex.
    split; [exact Hex|]. subst answer.
    rewrite (make_request_markup _ _ _ _ _ _ _ _ _ _ _ Hs Hurl Hreq Hst Hct Hex).
    reflexivity. }
  split; [|split; [exact Hnone | split]].
  - intros before cand after d Hc Hbad Hd.
    pose proof (extract_first _ _ _ _ _ _ Hpage Hc Hbad Hd) as Hex.
    split; [exact Hex|]. intros Hne Hhtml. subst answer.
    rewrite (make_request_markup _ _ _ _ _ _ _ _ _ _ _ Hs Hurl Hreq Hst Hct Hex).
    now rewrite Hhtml, (bool_decide_eq_false_2 _ Hne).
  - intros script Hscripts Hstr Hd.
    assert (Hc : Spec.candidates page = [] ++ Spec.object_a1 :: []).
    { unfold Spec.candidates. rewrite Hscripts.
      cbn [fmap list_fmap concat]. unfold Spec.scanned_lines. rewrite Hstr.
      vm_compute. reflexivity. }
    pose proof (extract_first _ _ _ _ _ _ Hpage Hc ltac:(constructor) Hd) as Hex.
    subst answer.
    rewrite (make_request_markup _ _ _ _ _ _ _ _ _ _ _ Hs Hurl Hreq Hst Hct Hex).
    reflexivity.
  - intros script Hscripts Hstr. apply Hnone.
    assert (Hc : Spec.candidates page = []).
    { unfold Spec.candidates. rewrite Hscripts.
      cbn [fmap list_fmap concat]. unfold Spec.scanned_lines. rewrite Hstr.
      vm_compute. reflexivity. }
    rewrite Hc. constructor.
Qed.

(** C10.  On a 200 answer that is not JSON, a mapping given back by the
    extraction that has the key html (in particular a decoded candidate
    with that key) is dropped and the raw-markup envelope, with the body
    and the status 200, is returned; so whatever is returned in that
    situation is this envelope or a mapping without the key html. *)
Theorem html_key_never_structured (self : t) (c : Client)
    (method endpoint url : string) (allow_errors : bool)
    (params : list (string * string)) (w w' : World) (r : response) :
  session self = Some c ->
  _build_url self endpoint = inr url ->
  client_request c (Request method url params [] []) w = (inr r, w') ->
  status_code r = 200 ->
  contains "application/json" (default "" (headers_get r "Content-Type"))
    = false ->
  let envelope := VDict [("html", VStr (text r)); ("status", VInt 200)] in
  let answer := _make_request self method endpoint allow_errors params w in
  (forall d,
      _extract_json_from_html (text r) = inr d ->
      dict_has "html" d = true ->
      answer = (inr envelope, w'))
  /\ (forall page before cand after d,
         BeautifulSoup (VStr (text r)) = inr page ->
         Spec.candidates page = before ++ cand :: after ->
         Forall Spec.malformed before ->
         json_loads cand = inr d ->
         dict_has "html" d = true ->
         answer = (inr envelope, w'))
  /\ (forall v w2,
         answer = (inr v, w2) ->
         v = envelope
         \/ exists d, v = VDict d /\ dict_has "html" d = false).
Proof.
  intros Hs Hurl Hreq Hst Hct envelope answer.
  assert (Hdrop : forall d,
      _extract_json_from_html (text r) = inr d ->
      dict_has "html" d = true ->
      answer = (inr envelope, w')).
  { intros d Hex Hhtml. subst answer.
    rewrite (make_request_markup _ _ _ _ _ _ _ _ _ _ _ Hs Hurl Hreq Hst Hct Hex).
    now rewrite Hhtml, andb_false_r. }
  split; [exact Hdrop | split].
  - intros page before cand after d Hpage Hc Hbad Hd Hhtml.
    apply (Hdrop d); [|exact Hhtml].
    exact (extract_first _ _ _ _ _ _ Hpage Hc Hbad Hd).
  - intros v w2 Hans. subst answer.
    destruct (_extract_json_from_html (text r)) as [e|d] eqn:Hex.
    + unfold _make_request, try_except, bind, lift in Hans.
      rewrite Hs, Hurl, Hreq, Hst, Hct in Hans. cbn [Z.eqb Pos.eqb] in Hans.
      rewrite Hex in Hans.
      destruct (is_RequestError e); [|discriminate].
      destruct allow_errors; [|discriminate].
      injection Hans as <- _. right. eexists. split; reflexivity.
    + rewrite (make_request_markup _ _ _ _ _ _ _ _ _ _ _ Hs Hurl Hreq Hst Hct Hex)
        in Hans.
      injection Hans as <- _.
      destruct (dict_has "html" d) eqn:Hhtml.
      * left. now rewrite andb_false_r.
      * destruct (bool_decide (d = [])); simpl; [now left|].
        right. now exists d.
Qed.

End Extraction.

(** A page whose only script assigns the object to the variable config. *)
Lemma script_data_witness :
  let E := Fixture.page_env (Fixture.in_script Fixture.var_config) in
  exists w',
    _make_request (Fixture.opened E tt) "GET" "/schedule" false []
      Fixture.fresh = (inr (VDict [("a", VInt 1)]), w').
Proof.
  intros E. eexists.
  eapply (proj1 (proj2 (proj2 (script_data (H := E) (Fixture.opened E tt)
            (Fixture.client E tt)
            "GET" "/schedule" "https://schools.by/schedule" false []
            Fixture.fresh _
            (Fixture.html_response 200 (Fixture.in_script Fixture.var_config)
               None)
            (Fixture.document [Fixture.script Fixture.var_config])
            eq_refl eq_refl eq_refl eq_refl eq_refl eq_refl)))
          (Fixture.script Fixture.var_config)); reflexivity.
Defined.

(** A page whose only script assigns 5 to the variable x. *)
Example script_without_data :
  let E := Fixture.page_env (Fixture.in_script Fixture.var_x) in
  fst (_make_request (Fixture.opened E tt) "GET" "/schedule" false []
         Fixture.fresh)
  = inr (VDict [("html", VStr "<script>var x = 5;</script>");
                ("status", VInt 200)]).
Proof. vm_compute. reflexivity. Qed.

(** C5 as stated fails: the only script of the page has a line that
    mentions config, holds both braces and decodes to the object, but the
    block neither declares a variable nor touches window; nothing is
    extracted and the caller answers with the raw-markup envelope. *)
Lemma undeclared_config_ignored :
  let E := Fixture.page_env (Fixture.in_script Fixture.bare_config) in
  let page := Fixture.document [Fixture.script Fixture.bare_config] in
  BeautifulSoup (VStr (Fixture.in_script Fixture.bare_config)) = inr page
  /\ Spec.scripts page = [Fixture.script Fixture.bare_config]
  /\ Bs4.string_of (Fixture.script Fixture.bare_config)
     = Some Fixture.bare_config
  /\ Spec.candidate_line Fixture.bare_config
  /\ json_loads (Spec.between_braces Fixture.bare_config)
     = inr [("a", VInt 1)]
  /\ _extract_json_from_html (Fixture.in_script Fixture.bare_config)
     = inr [("html", VStr (Fixture.in_script Fixture.bare_config))]
  /\ fst (_make_request (Fixture.opened E tt) "GET" "/schedule" false []
            Fixture.fresh)
     = inr (VDict [("html", VStr (Fixture.in_script Fixture.bare_config));
                   ("status", VInt 200)]).
Proof.
  intros E page. repeat split; try reflexivity.
  right. reflexivity.
Qed.

(** A script that assigns an object with the key html to the variable
    data: the object is decoded and dropped. *)
Lemma html_key_never_structured_witness :
  let E := Fixture.page_env (Fixture.in_script Fixture.var_data_html) in
  _extract_json_from_html (Fixture.in_script Fixture.var_data_html)
    = inr [("html", VInt 1)]
  /\ exists w',
       _make_request (Fixture.opened E tt) "GET" "/schedule" false []
         Fixture.fresh
       = (inr (VDict [("html",
                       VStr (Fixture.in_script Fixture.var_data_html));
                      ("status", VInt 200)]), w').
Proof.
  intros E. split; [reflexivity|]. eexists.
  eapply (proj1 (html_key_never_structured (H := E) (Fixture.opened E tt)
            (Fixture.client E tt)
            "GET" "/schedule" "https://schools.by/schedule" false []
            Fixture.fresh _
            (Fixture.html_response 200
               (Fixture.in_script Fixture.var_data_html) None)
            eq_refl eq_refl eq_refl eq_refl eq_refl)
          [("html", VInt 1)]); reflexivity.
Defined.

(** ** Harvesting *)
Section Harvesting.

Context `{Collaborators}.

(** *** The removal of duplicates *)

Lemma unique_from_fresh (seen : gset string) (l : list school) (x : school) :
  x ∈ unique_from seen l -> url_ x ∉ seen.
Proof.
  revert seen. induction l as [|s l IH]; intros seen Hx; simpl in Hx.
  - now apply elem_of_nil in Hx.
  - destruct (bool_decide (url_ s ∈ seen)) eqn:Es.
    + now apply IH.
    + apply bool_decide_eq_false in Es.
      apply elem_of_cons in Hx as [->|Hx]; [exact Es|].
      apply IH in Hx. intros Hin. apply Hx.
      apply elem_of_union. now right.
Qed.

Lemma unique_from_NoDup (seen : gset string) (l : list school) :
  NoDup (url_ <$> unique_from seen l).
Proof.
  revert seen. induction l as [|s l IH]; intros seen; simpl.
  - constructor.
  - destruct (bool_decide (url_ s ∈ seen)); [apply IH|].
    rewrite fmap_cons. apply NoDup_cons. split; [|apply IH].
    intros Hin. apply list_elem_of_fmap in Hin as (y & Hy & Hin).
    apply unique_from_fresh in Hin. apply Hin. rewrite <- Hy.
    apply elem_of_union. left. now apply elem_of_singleton.
Qed.

Lemma unique_from_sublist (seen : gset string) (l : list school) :
  unique_from seen l `sublist_of` l.
Proof.
  revert seen. induction l as [|s l IH]; intros seen; simpl.
  - constructor.
  - destruct (bool_decide (url_ s ∈ seen)).
    + apply sublist_cons, IH.
    + apply sublist_skip, IH.
Qed.

Lemma unique_from_covers (seen : gset string) (l : list school) (s : school) :
  s ∈ l -> url_ s ∈ seen \/ url_ s ∈ url_ <$> unique_from seen l.
Proof.
  revert seen. induction l as [|y l IH]; intros seen Hs.
  - now apply elem_of_nil in Hs.
  - simpl. apply elem_of_cons in Hs as [->|Hs].
    + destruct (bool_decide (url_ y ∈ seen)) eqn:Ey.
      * left. now apply bool_decide_eq_true in Ey.
      * right. rewrite fmap_cons. apply elem_of_cons. now left.
    + destruct (bool_decide (url_ y ∈ seen)) eqn:Ey; [now apply IH|].
      destruct (IH ({[url_ y]} ∪ seen) Hs) as [Hin|Hin].
      * apply elem_of_union in Hin as [Hin|Hin]; [|now left].
        apply elem_of_singleton in Hin. right. rewrite fmap_cons, Hin.
        apply elem_of_cons. now left.
      * right. rewrite fmap_cons. apply elem_of_cons. now right.
Qed.

Lemma unique_from_first (seen : gset string) (l : list school) (x : school) :
  x ∈ unique_from seen l -> Spec.first_with_its_url x l.
Proof.
  revert seen. induction l as [|s l IH]; intros seen Hx; simpl in Hx.
  - now apply elem_of_nil in Hx.
  - destruct (bool_decide (url_ s ∈ seen)) eqn:Es.
    + apply bool_decide_eq_true in Es.
      pose proof (unique_from_fresh _ _ _ Hx) as Hfresh.
      destruct (IH _ Hx) as (b & a & -> & Hb).
      exists (s :: b), a. split; [reflexivity|].
      constructor; [congruence | exact Hb].
    + apply elem_of_cons in Hx as [->|Hx].
      * exists [], l. split; [reflexivity | constructor].
      * pose proof (unique_from_fresh _ _ _ Hx) as Hfresh.
        destruct (IH _ Hx) as (b & a & -> & Hb).
        exists (s :: b), a. split; [reflexivity|].
        constructor; [|exact Hb].
        intros Heq. apply Hfresh. apply elem_of_union. left.
        apply elem_of_singleton. congruence.
Qed.

(** *** What can raise and what cannot *)

Lemma get_subdomains_page_total (self : t) (w : World) :
  exists found w', get_subdomains_page self w = (inr found, w').
Proof.
  unfold get_subdomains_page, try_except.
  destruct (bind _ _ w) as [[e|found] w']; simpl; eauto.
Qed.

(** A page that fails leaves the list as it was. *)
Lemma harvest_page_raises (self : t) (endpoint : string)
    (pick : Bs4.node -> option school) (st st' : World * list school)
    (e : exn) :
  harvest_page self endpoint pick st = (inl e, st') -> st'.2 = st.2.
Proof.
  unfold harvest_page, bind, in_world, lift, append_all, ret.
  destruct (_make_request self "GET" endpoint true [] st.1) as [[e0|page] w1];
    [now intros [= _ <-]|].
  destruct (contains_str "html" page) as [e1|[|]];
    [now intros [= _ <-] | | discriminate].
  destruct (subscript page "html") as [e2|html]; [now intros [= _ <-]|].
  destruct (BeautifulSoup html) as [e3|soup]; [now intros [= _ <-]|].
  discriminate.
Qed.

Lemma harvest_test_pages_total (self : t) (query : string)
    (pages : list string) (st : World * list school) :
  exists st', harvest_test_pages self query pages st = (inr tt, st').
Proof.
  revert st. induction pages as [|page rest IH]; intros st; simpl.
  - unfold ret. eauto.
  - unfold bind at 1, try_except.
    destruct (harvest_page self page (test_page_link query page) st)
      as [[e|[]] st1]; simpl; apply IH.
Qed.

(** The harvest fails only on the main page, before anything is kept. *)
Lemma harvest_raises (self : t) (query : string) (w : World)
    (e : exn) (st : World * list school) :
  harvest self query (w, []) = (inl e, st) -> st.2 = [].
Proof.
  unfold harvest. unfold bind at 1.
  destruct (harvest_page self "/" (main_page_link query) (w, []))
    as [[e0|[]] st0] eqn:Hmain.
  - intros [= _ <-]. now apply harvest_page_raises in Hmain.
  - unfold bind at 1, in_world.
    destruct (get_subdomains_page_total self st0.1) as (subs & w1 & ->).
    unfold bind at 1, append_all. cbn [fst snd].
    destruct (harvest_test_pages_total self query test_pages
                (w1, st0.2 ++ filter (fun school =>
                   contains (lower query) (lower (name school)) = true) subs))
      as [st2 ->].
    discriminate.
Qed.

(** A page adds its entries after those already gathered, and neither its
    outcome nor its entries depend on them. *)
Lemma harvest_page_gathers (self : t) (endpoint : string)
    (pick : Bs4.node -> option school) (w : World) (l : list school) :
  exists r w' new,
    harvest_page self endpoint pick (w, []) = (r, (w', new))
    /\ harvest_page self endpoint pick (w, l) = (r, (w', l ++ new))
    /\ (forall e, r = inl e -> new = []).
Proof.
  unfold harvest_page, bind, in_world, lift, append_all, ret. cbn [fst snd].
  destruct (_make_request self "GET" endpoint true [] w) as [[e0|page] w1].
  { exists (inl e0), w1, []. rewrite app_nil_r. auto. }
  destruct (contains_str "html" page) as [e1|[|]].
  { exists (inl e1), w1, []. rewrite app_nil_r. auto. }
  - destruct (subscript page "html") as [e2|html].
    { exists (inl e2), w1, []. rewrite app_nil_r. auto. }
    destruct (BeautifulSoup html) as [e3|soup].
    { exists (inl e3), w1, []. rewrite app_nil_r. auto. }
    exists (inr tt), w1, (omap pick (anchors soup)).
    split; [reflexivity|]. split; [reflexivity|]. discriminate.
  - exists (inr tt), w1, []. rewrite app_nil_r.
    split; [reflexivity|]. split; [reflexivity|]. discriminate.
Qed.

Lemma gathered_spec (self : t) (endpoint : string)
    (pick : Bs4.node -> option school) (w w' : World)
    (l new : list school) :
  Notions.gathered self endpoint pick w = (new, w') ->
  exists r,
    harvest_page self endpoint pick (w, l) = (r, (w', l ++ new))
    /\ (forall e, r = inl e -> new = []).
Proof.
  unfold Notions.gathered.
  destruct (harvest_page_gathers self endpoint pick w l)
    as (r & w1 & new1 & H0 & Hl & Hnew).
  rewrite H0. intros [= <- <-]. now exists r.
Qed.

(** One of the other pages: whether it fails or not, the search goes on
    with what it has gathered and what the page adds. *)
Lemma test_page_step (self : t) (query page : string) (rest : list string)
    (w w' : World) (l new : list school) :
  Notions.gathered self page (test_page_link query page) w = (new, w') ->
  harvest_test_pages self query (page :: rest) (w, l)
  = harvest_test_pages self query rest (w', l ++ new).
Proof.
  intros Hg. destruct (gathered_spec _ _ _ _ _ l _ Hg) as (r & Hp & Hnew).
  cbn [harvest_test_pages]. unfold bind at 1, try_except.
  rewrite Hp. destruct r as [e|[]]; reflexivity.
Qed.

(** C7.  Whatever the query and whatever fails on the way, the two
    helpers return a list and never raise.  A failure of the request for
    the page of subdomains gives the empty list.  A page of the search
    adds its entries after those gathered before it and, when it fails,
    leaves them as they are; a failure on the main page ends the search
    with the list gathered so far, and a failure on one of the other
    pages is skipped, the following pages being still visited.  So the
    search returns, without duplicates and cut at 15, the entries of the
    main page, then the matching entries of the page of subdomains, then
    those of each of the three other pages that did not fail. *)
Theorem harvesting_never_raises (self : t) (query : string) (w : World) :
  (exists found w', search_schools self query w = (inr found, w'))
  /\ (exists found w', get_subdomains_page self w = (inr found, w'))
  /\ (forall e w',
         _make_request self "GET" "/subdomains" true [] w = (inl e, w') ->
         get_subdomains_page self w = (inr [], w'))
  /\ (forall endpoint pick w0 l r st',
         harvest_page self endpoint pick (w0, l) = (r, st') ->
         exists new,
           st'.2 = l ++ new
           /\ (forall e, r = inl e -> new = [])
           /\ Notions.gathered self endpoint pick w0 = (new, st'.1))
  /\ (forall e st,
         harvest self query (w, []) = (inl e, st) ->
         search_schools self query w = (inr st.2, st.1))
  /\ (forall page rest st e st',
         harvest_page self page (test_page_link query page) st
           = (inl e, st') ->
         st'.2 = st.2
         /\ harvest_test_pages self query (page :: rest) st
            = harvest_test_pages self query rest st')
  /\ (forall e w0 l,
         harvest_page self "/" (main_page_link query) (w, []) = (inl e, (w0, l)) ->
         search_schools self query w = (inr [], w0))
  /\ (forall w0 w1 w2 w3 w4 main subdomains capabilities help about,
         harvest_page self "/" (main_page_link query) (w, [])
           = (inr tt, (w0, main)) ->
         get_subdomains_page self w0 = (inr subdomains, w1) ->
         Notions.gathered self "/capabilities"
           (test_page_link query "/capabilities") w1 = (capabilities, w2) ->
         Notions.gathered self "/help"
           (test_page_link query "/help") w2 = (help, w3) ->
         Notions.gathered self "/about"
           (test_page_link query "/about") w3 = (about, w4) ->
         search_schools self query w
         = (inr (take 15%nat
                   (unique_schools
                      (main ++ Notions.matching query subdomains
                       ++ capabilities ++ help ++ about))), w4)).
Proof.
  split; [|split; [|split; [|split; [|split; [|split; [|split]]]]]].
  - unfold search_schools.
    destruct (harvest self query (w, [])) as [[e|[]] [w' schools]]; eauto.
  - apply get_subdomains_page_total.
  - intros e w' Hreq. unfold get_subdomains_page, try_except, bind.
    now rewrite Hreq.
  - intros endpoint pick w0 l r [w' l'] Hp.
    destruct (harvest_page_gathers self endpoint pick w0 l)
      as (r1 & w1 & new & H0 & Hl & Hnew).
    rewrite Hl in Hp. injection Hp as <- <- <-.
    exists new. split; [reflexivity|]. split; [exact Hnew|].
    unfold Notions.gathered. now rewrite H0.
  - intros e [w' schools] Hh. unfold search_schools. now rewrite Hh.
  - intros page rest st e st' Hp. split.
    + now apply harvest_page_raises in Hp.
    + simpl. unfold bind at 1, try_except. now rewrite Hp.
  - intros e w0 l Hmain.
    pose proof (harvest_page_raises _ _ _ _ _ _ Hmain) as Hl.
    cbn in Hl. subst l.
    unfold search_schools, harvest. unfold bind at 1. now rewrite Hmain.
  - intros w0 w1 w2 w3 w4 main subdomains capabilities help about
      Hmain Hsub Hc Hh Ha.
    unfold search_schools, harvest. unfold bind at 1. rewrite Hmain.
    unfold bind at 1, in_world. cbn [fst snd]. rewrite Hsub.
    unfold bind at 1, append_all. cbn [fst snd].
    unfold test_pages.
    rewrite (test_page_step _ _ _ _ _ _ _ _ Hc).
    rewrite (test_page_step _ _ _ _ _ _ _ _ Hh).
    rewrite (test_page_step _ _ _ _ _ _ _ _ Ha).
    cbn [harvest_test_pages]. unfold ret, Notions.matching.
    now rewrite <- !app_assoc.
Qed.

(** C8.  The list returned by the search has no two entries with the
    same address and at most 15 entries; its entries are entries of the
    harvested list, in the order of that list, each one the first
    harvested entry with its address; and short of the cap of 15 every
    harvested address is in the list. *)
Theorem search_results_unique (self : t) (query : string) (w : World) :
  exists found w',
    search_schools self query w = (inr found, w')
    /\ NoDup (url_ <$> found)
    /\ (length found <= 15)%nat
    /\ let harvested := (harvest self query (w, [])).2.2 in
       found `sublist_of` harvested
       /\ (forall x, x ∈ found -> Spec.first_with_its_url x harvested)
       /\ ((length found < 15)%nat ->
           forall s, s ∈ harvested -> url_ s ∈ url_ <$> found).
Proof.
  unfold search_schools.
  destruct (harvest self query (w, [])) as [[e|[]] [w' schools]] eqn:Hh.
  - apply harvest_raises in Hh. simpl in Hh. subst schools.
    exists [], w'. cbn [fst snd]. repeat split.
    + constructor.
    + simpl. lia.
    + constructor.
    + intros x Hx. now apply elem_of_nil in Hx.
    + intros _ s Hs. now apply elem_of_nil in Hs.
  - exists (take 15%nat (unique_schools schools)), w'. cbn [fst snd].
    split; [reflexivity|]. unfold unique_schools. repeat split.
    + rewrite fmap_take.
      eapply sublist_NoDup; [apply unique_from_NoDup | apply sublist_take].
    + rewrite length_take. lia.
    + transitivity (unique_from ∅ schools).
      * apply sublist_take.
      * apply unique_from_sublist.
    + intros x Hx. apply (unique_from_first ∅).
      now apply (subseteq_take 15%nat).
    + intros Hshort s Hs. rewrite length_take in Hshort.
      rewrite take_ge by lia.
      destruct (unique_from_covers ∅ schools s Hs) as [Hin|Hin];
        [|exact Hin].
      now apply not_elem_of_empty in Hin.
Qed.

End Harvesting.

(** A site where the main page, the page of subdomains and the last of
    the other pages answer and the two pages in between fail: the
    entries gathered before and after the failures are returned. *)
Lemma harvesting_never_raises_witness :
  let E := Lab.patchy_env in
  fst (search_schools (Fixture.opened E tt) "minsk" Fixture.fresh)
  = inr [School "Gymnasium 1, Minsk" "https://gymn1.schools.by"
                "main_page_link" None;
         School "School 24 (MINSK)" "https://sch24.schools.by"
                "main_page_link" None;
         School "Lyceum of Minsk" "https://lyceum.schools.by"
                "main_page_link" None;
         School "School 5 of Minsk" "https://sch5.schools.by"
                "subdomain" None;
         School "Gymnasium 9, Minsk" "https://gymn9.schools.by"
                "from_/about" (Some "/about")]
  /\ (exists e st,
        harvest_page (Fixture.opened E tt) "/capabilities"
          (test_page_link "minsk" "/capabilities")
          ({| Fixture.closed := false; Fixture.sent := [] |}, []) = (inl e, st))
  /\ (exists e st,
        harvest_page (Fixture.opened E tt) "/help"
          (test_page_link "minsk" "/help")
          ({| Fixture.closed := false; Fixture.sent := [] |}, []) = (inl e, st)).
Proof.
  intros E.
  destruct (harvesting_never_raises (H := E) (Fixture.opened E tt) "minsk"
              Fixture.fresh) as (_ & _ & _ & _ & _ & _ & _ & Hsearch).
  split; [|split; (eexists; eexists; vm_compute; reflexivity)].
  evar (w0 : Fixture.world). evar (w1 : Fixture.world).
  evar (w2 : Fixture.world). evar (w3 : Fixture.world).
  evar (w4 : Fixture.world).
  evar (main : list school). evar (subdomains : list school).
  evar (capabilities : list school). evar (help : list school).
  evar (about : list school).
  assert (Hmain : harvest_page (H := E) (Fixture.opened E tt) "/"
                    (main_page_link "minsk") (Fixture.fresh, [])
                  = (inr tt, (w0, main)))
    by (subst w0 main; vm_compute; reflexivity).
  assert (Hsub : get_subdomains_page (H := E) (Fixture.opened E tt) w0
                 = (inr subdomains, w1))
    by (subst w1 subdomains; vm_compute; reflexivity).
  assert (Hc : Notions.gathered (H := E) (Fixture.opened E tt) "/capabilities"
                 (test_page_link "minsk" "/capabilities") w1
               = (capabilities, w2))
    by (subst w2 capabilities; vm_compute; reflexivity).
  assert (Hh : Notions.gathered (H := E) (Fixture.opened E tt) "/help"
                 (test_page_link "minsk" "/help") w2 = (help, w3))
    by (subst w3 help; vm_compute; reflexivity).
  assert (Ha : Notions.gathered (H := E) (Fixture.opened E tt) "/about"
                 (test_page_link "minsk" "/about") w3 = (about, w4))
    by (subst w4 about; vm_compute; reflexivity).
  rewrite (Hsearch w0 w1 w2 w3 w4 main subdomains capabilities help about
             Hmain Hsub Hc Hh Ha).
  vm_compute. reflexivity.
Defined.

(** Every request fails: both helpers return the empty list. *)
Example nothing_answers :
  let E := Fixture.broken_env in
  fst (search_schools (Fixture.opened E tt) "minsk" Fixture.fresh) = inr []
  /\ fst (get_subdomains_page (Fixture.opened E tt) Fixture.fresh) = inr [].
Proof. split; vm_compute; reflexivity. Qed.

(** Ten links, three of them schools of Minsk, one of these twice on the
    page and all of them again on the other pages: three results. *)
Example search_minsk :
  let E := Fixture.page_env Fixture.links_html in
  fst (search_schools (Fixture.opened E tt) "minsk" Fixture.fresh)
  = inr [School "Gymnasium 1, Minsk" "https://gymn1.schools.by"
                "main_page_link" None;
         School "School 24 (MINSK)" "https://sch24.schools.by"
                "main_page_link" None;
         School "Lyceum of Minsk" "https://lyceum.schools.by"
                "main_page_link" None].
Proof. vm_compute. reflexivity. Qed.

(** ** The life of a session *)
Section Sessions.

Context `{Collaborators}.

(** C9, amended.  A request through a session that was never opened
    fails with the error of the client that says the session is not
    initialized, and nothing is sent; closing such a session does
    nothing.  Opening always installs a client and closing never removes
    it: closing an opened session, a first or a second time, is handed to
    the transport, and so is a request through a session that has been
    closed; there the client raises no error of its own, and an exception
    of the transport that is no httpx request error reaches the caller
    unchanged. *)
Theorem session_guard (self : t) :
  (session self = None ->
   (forall method endpoint allow_errors params w,
       _make_request self method endpoint allow_errors params w
       = (inl (Exn SchoolsAPIError
                 "Session not initialized. Use async context manager."), w))
   /\ (forall w, __aexit__ self w = (inr tt, w)))
  /\ (forall w, session (__aenter__ self w).1 <> None)
  /\ (forall c,
        session self = Some c ->
        (forall w, __aexit__ self w = client_aclose c w)
        /\ (forall w,
               bind (__aexit__ self) (fun _ => __aexit__ self) w
               = bind (client_aclose c) (fun _ => client_aclose c) w)
        /\ (forall method endpoint url allow_errors params w e w',
               _build_url self endpoint = inr url ->
               client_request c (Request method url params [] []) w
                 = (inl e, w') ->
               is_RequestError e = false ->
               _make_request self method endpoint allow_errors params w
               = (inl e, w'))).
Proof.
  split; [|split].
  - intros Hs. split.
    + intros method endpoint allow_errors params w.
      unfold _make_request. now rewrite Hs.
    + intros w. unfold __aexit__. now rewrite Hs.
  - intros w. unfold __aenter__. now destruct (AsyncClient true w).
  - intros c Hs. split; [|split].
    + intros w. unfold __aexit__. now rewrite Hs.
    + intros w. unfold __aexit__. now rewrite Hs.
    + intros method endpoint url allow_errors params w e w' Hurl Hreq He.
      unfold _make_request, try_except, bind, lift.
      now rewrite Hs, Hurl, Hreq, He.
Qed.

End Sessions.

(** A client that was never opened. *)
Lemma session_guard_witness :
  let E := Fixture.page_env Fixture.welcome_html in
  _make_request (H := E) (__init__ "https://schools.by") "GET" "/profile"
    false [] Fixture.fresh
  = (inl (Exn SchoolsAPIError
            "Session not initialized. Use async context manager."),
     Fixture.fresh).
Proof.
  intros E.
  apply (proj1 (session_guard (H := E) (__init__ "https://schools.by"))).
  reflexivity.
Defined.

(** C9 as stated fails.  In front of a transport that, as httpx does,
    accepts to be closed again and refuses to send once closed, a session
    is opened and closed twice: both closings succeed, and a request sent
    afterwards fails with the error of the transport, which is not the
    error of the client. *)
Lemma closed_session_not_guarded :
  let E := Fixture.page_env Fixture.welcome_html in
  let opened := __aenter__ (H := E) (__init__ "https://schools.by")
                  Fixture.fresh in
  let first := __aexit__ opened.1 opened.2 in
  let second := __aexit__ opened.1 first.2 in
  let late := _make_request opened.1 "GET" "/profile" false [] second.2 in
  first.1 = inr tt
  /\ second.1 = inr tt
  /\ late.1 = inl (Exn RuntimeError
                     "Cannot send a request, as the client has been closed.")
  /\ (forall e, late.1 = inl e -> is_SchoolsAPIError e = false).
Proof.
  intros E opened first second late. repeat split.
  intros e He. vm_compute in He. now injection He as <-.
Qed.

(** * Further properties *)

(** ** More on text *)
Section MoreText.

(** [startswith] says what it should. *)
Lemma prefix_spec (p s : string) :
  String.prefix p s = true <-> exists t, s = p +:+ t.
Proof.
  revert s. induction p as [|x p IH]; intros s.
  - split; [intros _; now exists s | intros _; now destruct s].
  - destruct s as [|c s]; simpl.
    + split; [discriminate | intros [t Ht]; rewrite app_cons in Ht; discriminate].
    + destruct (ascii_dec x c) as [->|Hne].
      * rewrite IH. split; intros [t Ht]; exists t;
          [rewrite app_cons | rewrite app_cons in Ht]; congruence.
      * split; [discriminate | intros [t Ht]; rewrite app_cons in Ht; congruence].
Qed.

(** [sub in s] holds exactly when [s] is [sub] between two texts. *)
Lemma contains_spec (sub s : string) :
  contains sub s = true <-> exists pre post, s = pre +:+ sub +:+ post.
Proof.
  induction s as [|c s IH].
  - split.
    + intros Hc. apply contains_nil in Hc. subst. now exists "", "".
    + intros (pre & post & Heq). destruct pre; [|discriminate].
      destruct sub; [reflexivity | discriminate].
  - rewrite contains_cons, orb_true_iff, prefix_spec, IH. split.
    + intros [[t Ht]|(pre & post & Ht)].
      * exists "", t. exact Ht.
      * exists (String c pre), post. now rewrite app_cons, Ht.
    + intros (pre & post & Heq). destruct pre as [|x pre].
      * left. now exists post.
      * right. rewrite app_cons in Heq. injection Heq as _ Heq.
        now exists pre, post.
Qed.

Lemma contains_trans (a b s : string) :
  contains a b = true -> contains b s = true -> contains a s = true.
Proof.
  rewrite !contains_spec. intros (p1 & q1 & ->) (p2 & q2 & ->).
  exists (p2 +:+ p1), (q1 +:+ q2). now rewrite !str_app_assoc.
Qed.

Lemma contains_app_r (sub a b : string) :
  contains sub b = true -> contains sub (a +:+ b) = true.
Proof.
  rewrite !contains_spec. intros (p & q & ->).
  exists (a +:+ p), q. now rewrite !str_app_assoc.
Qed.

(** *** Slices from the start *)

Lemma substring_head (n : nat) (s : string) :
  exists t, s = String.substring 0 n s +:+ t
            /\ String.length (String.substring 0 n s)
               = Nat.min n (String.length s).
Proof.
  revert n. induction s as [|c s IH]; intros n.
  - exists "". now destruct n.
  - destruct n as [|n]; simpl.
    + now exists (String c s).
    + destruct (IH n) as (t & Ht & Hl). exists t.
      split; [rewrite app_cons; now rewrite <- Ht | now rewrite Hl].
Qed.

Lemma clamp_nonneg (n i : Z) : 0 <= i -> clamp n i = Z.min i n.
Proof.
  intros Hi. unfold clamp.
  now replace (i <? 0) with false by (symmetry; apply Z.ltb_ge; lia).
Qed.

(** [s[:n]] is the start of [s], cut at [n] characters. *)
Lemma slice_head (s : string) (n : Z) :
  0 <= n ->
  (exists t, s = slice s 0 n +:+ t)
  /\ Z.of_nat (String.length (slice s 0 n)) = Z.min n (len s)
  /\ (len s <= n -> slice s 0 n = s).
Proof.
  intros Hn. unfold slice, len.
  rewrite (clamp_nonneg _ 0) by lia. rewrite (clamp_nonneg _ n) by lia.
  rewrite (Z.min_l 0) by lia. rewrite Z.sub_0_r.
  change (Z.to_nat 0) with 0%nat.
  set (m := Z.to_nat (Z.min n (Z.of_nat (String.length s)))).
  destruct (substring_head m s) as (t & Ht & Hl).
  split; [now exists t | split].
  - rewrite Hl. subst m. lia.
  - intros Hle.
    assert (Hlen : String.length (String.substring 0 m s +:+ t)
                   = String.length (String.substring 0 m s))
      by (rewrite <- Ht, Hl; subst m; lia).
    rewrite str_length_app in Hlen.
    assert (t = "") as -> by (destruct t; [reflexivity | simpl in Hlen; lia]).
    now rewrite str_app_nil_r in Ht.
Qed.

(** *** Case *)

Lemma lower_char_idem (c : ascii) : lower_char (lower_char c) = lower_char c.
Proof.
  destruct c as [[] [] [] [] [] [] [] []]; reflexivity.
Qed.

Lemma lower_idem (s : string) : lower (lower s) = lower s.
Proof.
  induction s as [|c s IH]; simpl; [reflexivity|].
  now rewrite lower_char_idem, IH.
Qed.

(** *** Stripping *)

Lemma rstrip_idem (s : string) : rstrip (rstrip s) = rstrip s.
Proof.
  induction s as [|c s IH]; [reflexivity|].
  simpl. destruct (rstrip s) as [|d r] eqn:Er.
  - destruct (isspace c) eqn:Ec; [reflexivity|]. simpl. now rewrite Ec.
  - simpl. simpl in IH. destruct (rstrip r) as [|d' r'] eqn:Er'.
    + destruct (isspace d) eqn:Ed; [discriminate|]. now rewrite IH.
    + now rewrite IH.
Qed.

(** Stripping on the right keeps a first character that is no space. *)
Lemma rstrip_keeps_head (c : ascii) (s : string) :
  isspace c = false -> exists r, rstrip (String c s) = String c r.
Proof.
  intros Hc. simpl. destruct (rstrip s); [|eauto].
  rewrite Hc. eauto.
Qed.

Lemma lstrip_head (s : string) :
  lstrip s = "" \/ exists c r, lstrip s = String c r /\ isspace c = false.
Proof.
  induction s as [|c s IH]; [now left|].
  simpl. destruct (isspace c) eqn:Ec; [exact IH|]. right. eauto.
Qed.

(** [strip] is idempotent: a stripped text has nothing left to strip. *)
Lemma strip_idem (s : string) : strip (strip s) = strip s.
Proof.
  unfold strip. destruct (lstrip_head s) as [->|(c & r & -> & Hc)].
  - reflexivity.
  - destruct (rstrip_keeps_head c r Hc) as [r' Hr]. rewrite Hr.
    simpl lstrip. rewrite Hc. rewrite <- Hr. apply rstrip_idem.
Qed.

End MoreText.

(** ** Mappings *)
Section Mappings.

Context {A : Type}.

Lemma dict_get_set (k : string) (v : A) (d : list (string * A)) :
  dict_get k (dict_set k v d) = Some v.
Proof.
  induction d as [|[k' v'] d IH]; simpl.
  - now rewrite String.eqb_refl.
  - destruct (String.eqb k k') eqn:E; simpl; rewrite ?String.eqb_refl, ?E;
      [reflexivity | exact IH].
Qed.

Lemma dict_get_set_other (k k' : string) (v : A) (d : list (string * A)) :
  k <> k' -> dict_get k' (dict_set k v d) = dict_get k' d.
Proof.
  intros Hne. induction d as [|[k0 v0] d IH]; simpl.
  - apply String.eqb_neq in Hne. rewrite String.eqb_sym. now rewrite Hne.
  - destruct (String.eqb k k0) eqn:E; simpl.
    + apply String.eqb_eq in E. subst k0.
      assert (String.eqb k' k = false) as ->
        by (apply String.eqb_neq; congruence). reflexivity.
    + destruct (String.eqb k' k0); [reflexivity | exact IH].
Qed.

(** Setting a key adds no other key. *)
Lemma dict_has_set (k k' : string) (v : A) (d : list (string * A)) :
  dict_has k' (dict_set k v d) = true -> k' = k \/ dict_has k' d = true.
Proof.
  intros Hh. destruct (decide (k' = k)) as [->|Hne]; [now left|]. right.
  unfold dict_has in *. now rewrite dict_get_set_other in Hh by congruence.
Qed.

End Mappings.

(** ** The answers of [_make_request] *)
Section Requests.

Context `{Collaborators}.

(** X1.  Whatever happens, a transport error of httpx never leaves
    [_make_request]: an exception that escapes is of another class. *)
Theorem no_request_error_escapes (self : t) (method endpoint : string)
    (allow_errors : bool) (params : list (string * string))
    (w w' : World) (e : exn) :
  _make_request self method endpoint allow_errors params w = (inl e, w') ->
  is_RequestError e = false.
Proof.
  unfold _make_request. destruct (session self) as [c|].
  - unfold bind at 1, lift, _build_url, urljoin.
    destruct (join_address (base_url self) endpoint) as [message|url].
    + now intros [= <- _].
    + unfold try_except.
      destruct (bind _ _ w) as [[e0|v] w0].
      * destruct (is_RequestError e0) eqn:He0.
        -- destruct allow_errors; [discriminate|]. now intros [= <- _].
        -- now intros [= <- _].
      * discriminate.
  - now intros [= <- _].
Qed.

(** X2.  With errors allowed and a session open, an answer whose status is
    not 200 is returned as a mapping with the body, the status, the error
    flag and the final address, and a transport error as a mapping with its
    message and the client_error flag: in neither case is anything
    raised. *)
Theorem soft_errors (self : t) (c : Client) (method endpoint address : string)
    (params : list (string * string)) (w : World) :
  session self = Some c ->
  _build_url self endpoint = inr address ->
  let sent := Request method address params [] [] in
  (forall r w',
      client_request c sent w = (inr r, w') ->
      status_code r <> 200 ->
      _make_request self method endpoint true params w
      = (inr (VDict [("html", VStr (text r));
                     ("status", VInt (status_code r));
                     ("error", VBool true);
                     ("url", VStr (url r))]), w'))
  /\ (forall e w',
         client_request c sent w = (inl e, w') ->
         is_RequestError e = true ->
         _make_request self method endpoint true params w
         = (inr (VDict [("error", VStr (exn_str e));
                        ("client_error", VBool true)]), w')).
Proof.
  intros Hs Hurl sent. split.
  - intros r w' Hreq Hst. unfold _make_request, try_except, bind, lift.
    rewrite Hs, Hurl. fold sent. rewrite Hreq.
    now rewrite (proj2 (Z.eqb_neq _ _) Hst).
  - intros e w' Hreq He. unfold _make_request, try_except, bind, lift.
    rewrite Hs, Hurl. fold sent. now rewrite Hreq, He.
Qed.

(** X3.  With errors not allowed and a session open: a 500 whose content
    type mentions html is returned as a mapping with the error flag; any
    other status but 200 raises the error of the client whose message is
    HTTP, the status, and an excerpt of the body followed by three dots, the
    excerpt being the start of the body, at most 200 characters long and
    the whole body when that is no longer; a transport error raises the
    error of the client with the message of the transport. *)
Theorem hard_errors (self : t) (c : Client) (method endpoint address : string)
    (params : list (string * string)) (w : World) :
  session self = Some c ->
  _build_url self endpoint = inr address ->
  let sent := Request method address params [] [] in
  (forall r w',
      client_request c sent w = (inr r, w') ->
      status_code r = 500 ->
      contains "html" (default "" (headers_get r "Content-Type")) = true ->
      _make_request self method endpoint false params w
      = (inr (VDict [("html", VStr (text r)); ("status", VInt 500);
                     ("error", VBool true)]), w'))
  /\ (forall r w',
         client_request c sent w = (inr r, w') ->
         status_code r <> 200 ->
         (status_code r = 500 ->
          contains "html" (default "" (headers_get r "Content-Type")) = false) ->
         exists excerpt rest,
           _make_request self method endpoint false params w
           = (inl (Exn SchoolsAPIError
                     ("HTTP " +:+ str_int (status_code r) +:+ ": " +:+
                      excerpt +:+ "...")), w')
           /\ text r = excerpt +:+ rest
           /\ (String.length excerpt <= 200)%nat
           /\ (len (text r) <= 200 -> excerpt = text r))
  /\ (forall e w',
         client_request c sent w = (inl e, w') ->
         is_RequestError e = true ->
         _make_request self method endpoint false params w
         = (inl (Exn SchoolsAPIError ("Request failed: " +:+ exn_str e)), w')).
Proof.
  intros Hs Hurl sent. split; [|split].
  - intros r w' Hreq Hst Hct. unfold _make_request, try_except, bind, lift.
    rewrite Hs, Hurl. fold sent. now rewrite Hreq, Hst, Hct.
  - intros r w' Hreq Hst Hct.
    destruct (slice_head (text r) 200 ltac:(lia)) as ([rest Hrest] & Hlen & Hall).
    exists (slice (text r) 0 200), rest. repeat split.
    + unfold _make_request, try_except, bind, lift.
      rewrite Hs, Hurl. fold sent. rewrite Hreq.
      rewrite (proj2 (Z.eqb_neq _ _) Hst).
      destruct (status_code r =? 500) eqn:E500; [|reflexivity].
      apply Z.eqb_eq in E500. now rewrite (Hct E500).
    + exact Hrest.
    + lia.
    + exact Hall.
  - intros e w' Hreq He. unfold _make_request, try_except, bind, lift.
    rewrite Hs, Hurl. fold sent. now rewrite Hreq, He.
Qed.

(** X4.  With a session open, a 200 answer whose content type mentions
    application/json is decoded and returned as it is, also when it is a
    mapping with the key html; when the decoding fails, its exception
    reaches the caller unchanged unless it is a transport error. *)
Theorem json_answers (self : t) (c : Client) (method endpoint address : string)
    (allow_errors : bool) (params : list (string * string))
    (w w' : World) (r : response) :
  session self = Some c ->
  _build_url self endpoint = inr address ->
  client_request c (Request method address params [] []) w
    = (inr r, w') ->
  status_code r = 200 ->
  contains "application/json" (default "" (headers_get r "Content-Type"))
    = true ->
  (forall v, json r = inr v ->
             _make_request self method endpoint allow_errors params w
             = (inr v, w'))
  /\ (forall e, json r = inl e -> is_RequestError e = false ->
                _make_request self method endpoint allow_errors params w
                = (inl e, w')).
Proof.
  intros Hs Hurl Hreq Hst Hct. split.
  - intros v Hv. unfold _make_request, try_except, bind, lift.
    now rewrite Hs, Hurl, Hreq, Hst, Hct, Hv.
  - intros e He Hcls. unfold _make_request, try_except, bind, lift.
    rewrite Hs, Hurl, Hreq, Hst, Hct, He. simpl. now rewrite Hcls.
Qed.

End Requests.

(** A timeout with errors not allowed: the error of the client. *)
Lemma no_request_error_escapes_witness :
  let E := Lab.constant_env (inl Lab.timed_out) in
  _make_request (H := E) (Fixture.opened E tt) "GET" "/profile" false []
    Fixture.fresh
  = (inl (Exn SchoolsAPIError "Request failed: timed out"),
     {| Fixture.closed := false;
        Fixture.sent := [Request "GET" "https://schools.by/profile" [] [] []] |})
  /\ is_RequestError (Exn SchoolsAPIError "Request failed: timed out") = false.
Proof.
  intros E. split; [reflexivity|].
  apply (no_request_error_escapes (H := E) (Fixture.opened E tt) "GET"
           "/profile" false [] Fixture.fresh
           {| Fixture.closed := false;
              Fixture.sent :=
                [Request "GET" "https://schools.by/profile" [] [] []] |}).
  reflexivity.
Defined.

(** A missing page with errors allowed. *)
Lemma soft_errors_witness :
  let E := Lab.constant_env
             (inr (Lab.answer 404 "text/html" "not found" Lab.not_json)) in
  exists w',
    _make_request (H := E) (Fixture.opened E tt) "GET" "/search" true []
      Fixture.fresh
    = (inr (VDict [("html", VStr "not found"); ("status", VInt 404);
                   ("error", VBool true);
                   ("url", VStr "https://schools.by/final")]), w').
Proof.
  intros E. eexists.
  apply (proj1 (soft_errors (H := E) (Fixture.opened E tt)
                  (Fixture.client E tt) "GET" "/search"
                  "https://schools.by/search" [] Fixture.fresh eq_refl
                  eq_refl)
           (Lab.answer 404 "text/html" "not found" Lab.not_json)).
  - reflexivity.
  - discriminate.
Defined.

(** A missing page of 250 characters with errors not allowed: the message
    keeps the first 200. *)
Lemma hard_errors_witness :
  let E := Lab.constant_env
             (inr (Lab.answer 404 "text/html" Lab.long_body Lab.not_json)) in
  exists excerpt rest w',
    _make_request (H := E) (Fixture.opened E tt) "GET" "/grades" false []
      Fixture.fresh
    = (inl (Exn SchoolsAPIError ("HTTP 404: " +:+ excerpt +:+ "...")), w')
    /\ Lab.long_body = excerpt +:+ rest
    /\ (String.length excerpt <= 200)%nat.
Proof.
  intros E.
  destruct (proj1 (proj2 (hard_errors (H := E) (Fixture.opened E tt)
                            (Fixture.client E tt) "GET" "/grades"
                            "https://schools.by/grades" [] Fixture.fresh
                            eq_refl eq_refl))
              (Lab.answer 404 "text/html" Lab.long_body Lab.not_json)
              {| Fixture.closed := false;
                 Fixture.sent :=
                   [Request "GET" "https://schools.by/grades" [] [] []] |}
              eq_refl ltac:(discriminate) ltac:(discriminate))
    as (excerpt & rest & Hr & Hb & Hl & _).
  exists excerpt, rest. eexists. split; [exact Hr | split; assumption].
Defined.

(** A JSON answer that has the key html is returned as it is. *)
Lemma json_answers_witness :
  let payload := VDict [("html", VInt 1)] in
  let E := Lab.constant_env
             (inr (Lab.answer 200 "application/json; charset=utf-8" "{...}"
                     (inr payload))) in
  exists w',
    _make_request (H := E) (Fixture.opened E tt) "GET" "/profile" false []
      Fixture.fresh = (inr payload, w').
Proof.
  intros payload E. eexists.
  apply (proj1 (json_answers (H := E) (Fixture.opened E tt)
                  (Fixture.client E tt) "GET" "/profile"
                  "https://schools.by/profile"
                  false [] Fixture.fresh _
                  (Lab.answer 200 "application/json; charset=utf-8" "{...}"
                     (inr payload))
                  eq_refl eq_refl eq_refl eq_refl eq_refl)).
  reflexivity.
Defined.

(** ** The ways out of [authenticate] *)
Section WaysOut.

Context `{Collaborators}.

(** X5.  Every exception that leaves [authenticate] is the error of the
    client, and its message is the message of the cause after the words
    Authentication failed. *)
Theorem authenticate_wraps (self : t) (username password : string)
    (w w' : World) (e : exn) :
  authenticate self username password w = (inl e, w') ->
  exn_cls e = SchoolsAPIError
  /\ exists cause, exn_str e = "Authentication failed: " +:+ cause.
Proof.
  unfold authenticate, try_except.
  destruct (bind _ _ w) as [[e0|v] w0]; [|discriminate].
  unfold any_exception, raise. intros [= <- _]. split; [reflexivity|].
  now exists (exn_str e0).
Qed.

(** X6.  When the login page is answered with a status other than 200,
    the authentication fails with the message that the login page cannot
    be accessed and with that status; the page is not parsed and nothing is
    submitted: the world is left as the second GET left it. *)
Theorem login_page_refused (self : t) (username password : string)
    (c : Client) (w w1 w2 : World) (home login : string)
    (r0 r1 : response) :
  session self = Some c ->
  _build_url self "/" = inr home ->
  _build_url self "/login" = inr login ->
  client_request c (Request "GET" home [] [] []) w = (inr r0, w1) ->
  client_request c (Request "GET" login [] [] []) w1 = (inr r1, w2) ->
  status_code r1 <> 200 ->
  authenticate self username password w
  = (inl (Exn SchoolsAPIError
            ("Authentication failed: Cannot access login page: HTTP " +:+
             str_int (status_code r1))), w2).
Proof.
  intros Hs Hhome Hlogin Hget0 Hget1 Hst.
  unfold authenticate, try_except, prepare, bind.
  rewrite (session_get_ok self "/" c home w w1 r0 Hs Hhome Hget0).
  rewrite (session_get_ok self "/login" c login w1 w2 r1 Hs Hlogin Hget1).
  cbn [snd]. now rewrite (proj2 (Z.eqb_neq _ _) Hst).
Qed.

(** X7.  When the login page is answered with 200 and its body holds no
    form, the authentication fails with the message that the login form
    was not found, and nothing is submitted. *)
Theorem login_form_missing (self : t) (username password : string)
    (c : Client) (w w1 w2 : World) (home login : string)
    (r0 r1 : response) (page : Bs4.soup) :
  session self = Some c ->
  _build_url self "/" = inr home ->
  _build_url self "/login" = inr login ->
  client_request c (Request "GET" home [] [] []) w = (inr r0, w1) ->
  client_request c (Request "GET" login [] [] []) w1 = (inr r1, w2) ->
  status_code r1 = 200 ->
  BeautifulSoup (VStr (text r1)) = inr page ->
  Spec.first_form page = None ->
  authenticate self username password w
  = (inl (Exn SchoolsAPIError
            "Authentication failed: Login form not found on the page"), w2).
Proof.
  intros Hs Hhome Hlogin Hget0 Hget1 Hst Hpage Hform.
  unfold authenticate, try_except, prepare, bind.
  rewrite (session_get_ok self "/" c home w w1 r0 Hs Hhome Hget0).
  rewrite (session_get_ok self "/login" c login w1 w2 r1 Hs Hlogin Hget1).
  cbn [snd]. rewrite Hst. cbn [Z.eqb Pos.eqb negb].
  unfold lift at 1. rewrite Hpage.
  unfold Bs4.find. rewrite find_all_any. fold (Spec.first_form page).
  now rewrite Hform.
Qed.

(** X8.  When the submission is answered with a status that is none of
    200, 302, 303 and 307, the outcome is a failure that carries the status
    and an excerpt of the body: the start of the body, at most 500
    characters long, and the whole body when that is no longer. *)
Theorem other_status_verdict (self : t) (username password : string)
    (w w1 w2 : World) (submission : request) (c : Client) (r : response) :
  prepare self username password w = (inr submission, w1) ->
  session_send self "post" submission w1 = (inr (c, r), w2) ->
  status_code r ∉ [200; 302; 303; 307] ->
  exists excerpt rest,
    authenticate self username password w
    = (inr (VDict [("success", VBool false);
                   ("error", VStr ("Authentication failed: HTTP " +:+
                                   str_int (status_code r)));
                   ("status", VInt (status_code r));
                   ("response", VStr excerpt)]), w2)
    /\ text r = excerpt +:+ rest
    /\ (String.length excerpt <= 500)%nat
    /\ (len (text r) <= 500 -> excerpt = text r).
Proof.
  intros Hprep Hsend Hst.
  destruct (slice_head (text r) 500 ltac:(lia)) as ([rest Hrest] & Hlen & Hall).
  exists (slice (text r) 0 500), rest. repeat split; [|exact Hrest|lia|exact Hall].
  rewrite (authenticate_submitted _ _ _ _ _ _ _ _ _ Hprep Hsend).
  unfold classify, try_except.
  assert (H200 : (status_code r =? 200) = false).
  { apply Z.eqb_neq. intros Heq. apply Hst. rewrite Heq.
    apply elem_of_cons. now left. }
  assert (H30x : bool_decide (status_code r ∈ [302; 303; 307]) = false).
  { apply bool_decide_eq_false. intros Hin. apply Hst.
    apply elem_of_cons. now right. }
  now rewrite H200, H30x.
Qed.

End WaysOut.

(** No session at all: the wrapped attribute error. *)
Lemma authenticate_wraps_witness :
  let E := Fixture.login_env Fixture.login_html
             (Fixture.html_response 200 Fixture.welcome_html None) in
  exn_cls (Exn SchoolsAPIError
             "Authentication failed: 'NoneType' object has no attribute 'get'")
  = SchoolsAPIError
  /\ exists cause,
       "Authentication failed: 'NoneType' object has no attribute 'get'"
       = "Authentication failed: " +:+ cause.
Proof.
  intros E.
  apply (authenticate_wraps (H := E) (__init__ "https://schools.by") "ann" "pw"
           Fixture.fresh Fixture.fresh
           (Exn SchoolsAPIError
              "Authentication failed: 'NoneType' object has no attribute 'get'")).
  reflexivity.
Defined.

(** A login page answered with 403. *)
Lemma login_page_refused_witness :
  let r := Lab.answer 403 "text/html" "forbidden" Lab.not_json in
  let E := Lab.constant_env (inr r) in
  authenticate (H := E) (Fixture.opened E tt) "ann" "pw" Fixture.fresh
  = (inl (Exn SchoolsAPIError
            "Authentication failed: Cannot access login page: HTTP 403"),
     {| Fixture.closed := false;
        Fixture.sent :=
          [Request "GET" "https://schools.by/" [] [] [];
           Request "GET" "https://schools.by/login" [] [] []] |}).
Proof.
  intros r E.
  apply (login_page_refused (H := E) (Fixture.opened E tt) "ann" "pw"
           (Fixture.client E tt)
           Fixture.fresh
           {| Fixture.closed := false;
              Fixture.sent := [Request "GET" "https://schools.by/" [] [] []] |}
           _ "https://schools.by/" "https://schools.by/login" r r);
    try reflexivity.
  discriminate.
Defined.

(** A login page without any form. *)
Lemma login_form_missing_witness :
  let E := Fixture.login_env Fixture.welcome_html
             (Fixture.html_response 200 Fixture.welcome_html None) in
  authenticate (H := E) (Fixture.opened E tt) "ann" "pw" Fixture.fresh
  = (inl (Exn SchoolsAPIError
            "Authentication failed: Login form not found on the page"),
     {| Fixture.closed := false;
        Fixture.sent :=
          [Request "GET" "https://schools.by/" [] [] [];
           Request "GET" "https://schools.by/login" [] [] []] |}).
Proof.
  intros E.
  apply (login_form_missing (H := E) (Fixture.opened E tt) "ann" "pw"
           (Fixture.client E tt)
           Fixture.fresh
           {| Fixture.closed := false;
              Fixture.sent := [Request "GET" "https://schools.by/" [] [] []] |}
           _ "https://schools.by/" "https://schools.by/login"
           (Fixture.html_response 200
              "<html><body>schools.by</body></html>" None)
           (Fixture.html_response 200 Fixture.welcome_html None)
           Fixture.welcome_page); reflexivity.
Defined.

(** A submission answered with 503 and a body of 250 characters. *)
Lemma other_status_verdict_witness :
  let r := Lab.answer 503 "text/html" Lab.long_body Lab.not_json in
  let E := Fixture.login_env Fixture.login_html r in
  exists w2,
    authenticate (H := E) (Fixture.opened E tt) "ann" "pw" Fixture.fresh
    = (inr (VDict [("success", VBool false);
                   ("error", VStr "Authentication failed: HTTP 503");
                   ("status", VInt 503);
                   ("response", VStr Lab.long_body)]), w2).
Proof.
  intros r E.
  evar (submission : request). evar (w1 : Fixture.world).
  evar (w2 : Fixture.world).
  assert (Hprep : prepare (H := E) (Fixture.opened E tt) "ann" "pw"
                    Fixture.fresh = (inr submission, w1))
    by (subst submission w1; vm_compute; reflexivity).
  assert (Hsend : session_send (H := E) (Fixture.opened E tt) "post"
                    submission w1 = (inr (Fixture.client E tt, r), w2))
    by (subst w2; vm_compute; reflexivity).
  exists w2.
  destruct (other_status_verdict (H := E) _ _ _ _ _ _ _ _ _ Hprep Hsend)
    as (excerpt & rest & Hr & _ & _ & Hall).
  - intros Hin. apply list_elem_of_In in Hin. vm_compute in Hin.
    intuition discriminate.
  - rewrite Hr. rewrite Hall; [reflexivity|]. vm_compute. discriminate.
Defined.

(** ** What is submitted *)
Section Submission.

Context `{Collaborators}.

Lemma find_all_hidden (form : Bs4.node) :
  Bs4.find_all form ["input"] (Bs4.attr_is "type" "hidden")
  = Notions.hidden_inputs form.
Proof.
  unfold Bs4.find_all, Notions.hidden_inputs. apply list_filter_iff. intros n.
  rewrite Is_true_true, andb_true_iff, named_single.
  unfold Bs4.attr_is. destruct (Bs4.get n "type") as [x|].
  - rewrite String.eqb_eq. split; intros [? ?]; split; congruence.
  - split; intros [? ?]; discriminate.
Qed.

Lemma session_get_inv (self : t) (endpoint : string) (c : Client)
    (w w' : World) (r : response) :
  session_get self endpoint w = (inr (c, r), w') ->
  session self = Some c
  /\ exists address,
       _build_url self endpoint = inr address
       /\ client_request c (Request "GET" address [] [] []) w = (inr r, w').
Proof.
  unfold session_get, bind, lift, ret.
  destruct (session self) as [c0|]; [|discriminate].
  destruct (_build_url self endpoint) as [e|address]; [discriminate|].
  destruct (client_request c0 _ w) as [[e|r0] w0] eqn:Hget; [discriminate|].
  intros [= <- <- <-]. split; [reflexivity|]. now exists address.
Qed.

(** The steps of [prepare] that a submission has gone through. *)
Lemma prepare_inv (self : t) (username password : string) (w w' : World)
    (sub : request) :
  prepare self username password w = (inr sub, w') ->
  exists r1 page form token uf pf,
    Notions.login_page self w w' r1 page form
    /\ get_csrf_token (text r1) = inr token
    /\ login_fields form = inr (uf, pf)
    /\ exists target referer,
         Notions.target self form = inr target
         /\ _build_url self "/login" = inr referer
         /\ sub = Request "POST" target []
                    (add_csrf token (Notions.hidden_inputs form)
                       (dict_set pf password
                          (dict_set uf username
                             (fold_left hidden_step
                                (Notions.hidden_inputs form) []))))
                    [("Content-Type", "application/x-www-form-urlencoded");
                     ("Referer", referer);
                     ("Origin", base_url self)].
Proof.
  unfold prepare. unfold bind at 1.
  destruct (session_get self "/" w) as [[e0|[c0 r0]] w1] eqn:Hget0;
    [discriminate|].
  unfold bind at 1.
  destruct (session_get self "/login" w1) as [[e1|[c r1]] w2] eqn:Hget1;
    [discriminate|].
  cbn [snd].
  apply session_get_inv in Hget0 as (Hs0 & home & Hhome & Hget0).
  apply session_get_inv in Hget1 as (Hs & login & Hlogin & Hget1).
  assert (c0 = c) as -> by congruence.
  destruct (status_code r1 =? 200) eqn:Hst; [|discriminate].
  cbn [negb]. unfold bind at 1, lift at 1.
  destruct (BeautifulSoup (VStr (text r1))) as [e2|page] eqn:Hpage;
    [discriminate|].
  destruct (Bs4.find page ["form"] Bs4.any) as [form|] eqn:Hform;
    [|discriminate].
  unfold bind at 1.
  assert (Hta : (if startswith "http" (Bs4.get_or form "action" "/login")
                 then ret (Bs4.get_or form "action" "/login")
                 else lift (_build_url self
                              (Bs4.get_or form "action" "/login"))) w2
                = (Notions.target self form, w2)).
  { unfold Notions.target, Bs4.get_or, _build_url, lift, ret.
    now destruct (startswith "http" _). }
  rewrite Hta. destruct (Notions.target self form) as [e5|target] eqn:Htarget;
    [discriminate|].
  unfold bind at 1, lift at 1.
  destruct (get_csrf_token (text r1)) as [e3|token] eqn:Htok; [discriminate|].
  unfold bind at 1, lift at 1.
  destruct (login_fields form) as [e4|[uf pf]] eqn:Hf; [discriminate|].
  unfold bind, lift, auth_headers, rbind. rewrite Hlogin.
  unfold ret. intros [= <- <-].
  exists r1, page, form, token, uf, pf.
  split; [|split; [exact Htok|split; [exact Hf|]]].
  - exists c, home, login, r0, w1. repeat split; try assumption.
    + now apply Z.eqb_eq.
    + unfold Bs4.find in Hform. now rewrite find_all_any in Hform.
  - exists target, login. split; [exact Htarget|]. split; [reflexivity|].
    now rewrite find_all_hidden.
Qed.

Lemma csrf_name_of_spec (l : list Bs4.node) :
  csrf_name_of l
  = head (filter (fun n => n ∈ Notions.canonical_names)
                 (omap (fun h => Bs4.get h "name") l)).
Proof.
  induction l as [|h l IH]; [reflexivity|].
  simpl. destruct (Bs4.get h "name") as [n|]; [|exact IH].
  rewrite filter_cons. unfold mem.
  destruct (decide (n ∈ Notions.canonical_names)) as [Hin|Hout].
  - now rewrite (bool_decide_eq_true_2 _ Hin).
  - now rewrite (bool_decide_eq_false_2 _ Hout).
Qed.

Lemma token_field_sound (form : Bs4.node) (n : string) :
  Notions.token_field form = Some n ->
  n ∈ Notions.canonical_names
  /\ exists h, h ∈ Notions.hidden_inputs form /\ Bs4.get h "name" = Some n.
Proof.
  unfold Notions.token_field. intros Hh.
  apply head_Some_elem_of in Hh. apply list_elem_of_filter in Hh as [Hc Hin].
  split; [exact Hc|]. apply list_elem_of_omap in Hin as (h & Hh & Hn). eauto.
Qed.

(** *** The hidden fields *)

Lemma hidden_step_other (n : string) (h : Bs4.node)
    (d : list (string * string)) :
  Bs4.get h "name" <> Some n ->
  dict_get n (hidden_step d h) = dict_get n d.
Proof.
  intros Hne. unfold hidden_step. destruct (Bs4.get h "name") as [m|]; [|reflexivity].
  destruct (truthy m); [|reflexivity].
  apply dict_get_set_other. congruence.
Qed.

Lemma fold_hidden_other (n : string) (l : list Bs4.node)
    (d : list (string * string)) :
  Forall (fun x => Bs4.get x "name" <> Some n) l ->
  dict_get n (fold_left hidden_step l d) = dict_get n d.
Proof.
  intros Hl. revert d. induction Hl as [|x l Hx _ IH]; intros d; [reflexivity|].
  cbn [fold_left]. rewrite IH. now apply hidden_step_other.
Qed.

Lemma fold_hidden_last (n : string) (h : Bs4.node) (l : list Bs4.node)
    (d : list (string * string)) :
  Notions.last_named n h l -> n <> "" ->
  dict_get n (fold_left hidden_step l d) = Some (Bs4.get_or h "value" "").
Proof.
  intros (before & after & -> & Hn & Hafter) Hne.
  rewrite fold_left_app. cbn [fold_left].
  rewrite (fold_hidden_other n after _ Hafter).
  unfold hidden_step at 1. rewrite Hn, (proj2 (truthy_true n) Hne).
  apply dict_get_set.
Qed.

Lemma fold_hidden_keys (k : string) (l : list Bs4.node)
    (d : list (string * string)) :
  dict_has k (fold_left hidden_step l d) = true ->
  dict_has k d = true \/ exists h, h ∈ l /\ Bs4.get h "name" = Some k.
Proof.
  revert d. induction l as [|x l IH]; intros d Hk; [now left|].
  cbn [fold_left] in Hk. destruct (IH _ Hk) as [Hd|(h & Hin & Hh)].
  - unfold hidden_step in Hd. destruct (Bs4.get x "name") as [m|] eqn:Hm;
      [|now left].
    destruct (truthy m); [|now left].
    apply dict_has_set in Hd as [->|Hd]; [|now left].
    right. exists x. split; [apply elem_of_cons; now left | exact Hm].
  - right. exists h. split; [apply elem_of_cons; now right | exact Hh].
Qed.

(** *** The token *)

Lemma add_csrf_cases (token : option string) (form : Bs4.node)
    (d : list (string * string)) :
  (exists t n, token = Some t /\ t <> ""
               /\ Notions.token_field form = Some n
               /\ add_csrf token (Notions.hidden_inputs form) d
                  = dict_set n t d)
  \/ ((token = None \/ token = Some "" \/ Notions.token_field form = None)
      /\ add_csrf token (Notions.hidden_inputs form) d = d).
Proof.
  unfold add_csrf, Notions.token_field. rewrite csrf_name_of_spec.
  destruct token as [t|]; [|right; split; [now left | reflexivity]].
  destruct (truthy t) eqn:Et.
  - apply truthy_true in Et.
    destruct (head _) as [n|] eqn:Hh.
    + left. exists t, n. repeat split; try assumption.
      assert (Hn : n ∈ Notions.canonical_names).
      { apply head_Some_elem_of in Hh.
        now apply list_elem_of_filter in Hh as [? _]. }
      assert (Hne : truthy n = true).
      { apply truthy_true. intros ->. apply list_elem_of_In in Hn.
        vm_compute in Hn. intuition discriminate. }
      now rewrite Hne.
    + right. split; [now right; right | reflexivity].
  - apply truthy_false in Et. subst t.
    right. split; [now right; left | reflexivity].
Qed.

(** X9.  A submission is a POST to the action of the first form of the
    login page, taken as it is when it starts with http, joined to the base
    address otherwise, and [/login] when the form has no action; it has no
    query parameters and carries three headers: the content type of a url
    encoded form, the login page as referer and the base address as
    origin. *)
Theorem submission_target (self : t) (username password : string)
    (w w' : World) (sub : request) :
  prepare self username password w = (inr sub, w') ->
  exists r1 page form,
    Notions.login_page self w w' r1 page form
    /\ req_method sub = "POST"
    /\ Notions.target self form = inr (req_url sub)
    /\ req_params sub = []
    /\ exists referer,
         urljoin (base_url self) "/login" = inr referer
         /\ req_headers sub
            = [("Content-Type", "application/x-www-form-urlencoded");
               ("Referer", referer);
               ("Origin", base_url self)].
Proof.
  intros Hp.
  destruct (prepare_inv _ _ _ _ _ _ Hp)
    as (r1 & page & form & token & uf & pf & Hl & _ & _ & ta & re & Hta & Hre & ->).
  exists r1, page, form.
  split; [exact Hl|]. split; [reflexivity|]. split; [exact Hta|].
  split; [reflexivity|]. now exists re.
Qed.

(** X10.  In a submission the password is under the name of the password
    field, and the username under the name of the username field when the
    two names differ, provided these names are none of the three names of a
    token: whatever hidden field has the same name is overwritten. *)
Theorem submission_credentials (self : t) (username password : string)
    (w w' : World) (sub : request) :
  prepare self username password w = (inr sub, w') ->
  exists r1 page form uf pf,
    Notions.login_page self w w' r1 page form
    /\ login_fields form = inr (uf, pf)
    /\ (pf ∉ Notions.canonical_names ->
        dict_get pf (req_data sub) = Some password)
    /\ (uf <> pf -> uf ∉ Notions.canonical_names ->
        dict_get uf (req_data sub) = Some username).
Proof.
  intros Hp.
  destruct (prepare_inv _ _ _ _ _ _ Hp)
    as (r1 & page & form & token & uf & pf & Hl & _ & Hf & ta & re & Hta & Hre & ->).
  exists r1, page, form, uf, pf. split; [exact Hl | split; [exact Hf|]].
  cbn [req_data].
  destruct (add_csrf_cases token form
              (dict_set pf password
                 (dict_set uf username
                    (fold_left hidden_step (Notions.hidden_inputs form) []))))
    as [(t & n & _ & _ & Hn & ->)|[_ ->]].
  - apply token_field_sound in Hn as [Hn _]. split.
    + intros Hpf. rewrite dict_get_set_other by congruence. apply dict_get_set.
    + intros Hne Huf. rewrite dict_get_set_other by congruence.
      rewrite dict_get_set_other by congruence. apply dict_get_set.
  - split.
    + intros _. apply dict_get_set.
    + intros Hne _. rewrite dict_get_set_other by congruence.
      apply dict_get_set.
Qed.

(** X11.  A submission invents no field: each of its keys is the name of
    the username field, the name of the password field, or the name of a
    hidden input of the form; in particular, when no hidden input bears one
    of the three names of a token, no such name is a key unless it names a
    credential field. *)
Theorem submission_keys (self : t) (username password : string)
    (w w' : World) (sub : request) :
  prepare self username password w = (inr sub, w') ->
  exists r1 page form uf pf,
    Notions.login_page self w w' r1 page form
    /\ login_fields form = inr (uf, pf)
    /\ (forall k, dict_has k (req_data sub) = true ->
                  k = uf \/ k = pf
                  \/ exists h, h ∈ Notions.hidden_inputs form
                               /\ Bs4.get h "name" = Some k)
    /\ (Notions.token_field form = None ->
        forall k, k ∈ Notions.canonical_names -> k <> uf -> k <> pf ->
                  dict_has k (req_data sub) = false).
Proof.
  intros Hp.
  destruct (prepare_inv _ _ _ _ _ _ Hp)
    as (r1 & page & form & token & uf & pf & Hl & _ & Hf & ta & re & Hta & Hre & ->).
  exists r1, page, form, uf, pf. split; [exact Hl | split; [exact Hf|]].
  cbn [req_data].
  assert (Hkeys : forall k,
    dict_has k (add_csrf token (Notions.hidden_inputs form)
                  (dict_set pf password
                     (dict_set uf username
                        (fold_left hidden_step
                           (Notions.hidden_inputs form) [])))) = true ->
    k = uf \/ k = pf
    \/ exists h, h ∈ Notions.hidden_inputs form /\ Bs4.get h "name" = Some k).
  { intros k Hk.
    assert (Hbase : dict_has k (dict_set pf password
                       (dict_set uf username
                          (fold_left hidden_step
                             (Notions.hidden_inputs form) []))) = true ->
                    k = uf \/ k = pf
                    \/ exists h, h ∈ Notions.hidden_inputs form
                                 /\ Bs4.get h "name" = Some k).
    { intros Hb. apply dict_has_set in Hb as [->|Hb]; [now right; left|].
      apply dict_has_set in Hb as [->|Hb]; [now left|].
      apply fold_hidden_keys in Hb as [Hb|Hb]; [discriminate|].
      now right; right. }
    destruct (add_csrf_cases token form
                (dict_set pf password
                   (dict_set uf username
                      (fold_left hidden_step (Notions.hidden_inputs form) []))))
      as [(t & n & _ & _ & Hn & Heq)|[_ Heq]]; rewrite Heq in Hk.
    - apply dict_has_set in Hk as [->|Hk]; [|now apply Hbase].
      right; right. now apply token_field_sound in Hn as [_ Hh].
    - now apply Hbase. }
  split; [exact Hkeys|].
  intros Hnone k Hk Hu Hpf.
  apply not_true_iff_false. intros Hhas.
  destruct (Hkeys k Hhas) as [->|[->|(h & Hin & Hh)]]; try contradiction.
  unfold Notions.token_field in Hnone.
  apply head_None in Hnone.
  assert (Hmem : k ∈ filter (fun n => n ∈ Notions.canonical_names)
                   (omap (fun h => Bs4.get h "name")
                         (Notions.hidden_inputs form))).
  { apply list_elem_of_filter. split; [exact Hk|].
    apply list_elem_of_omap. eauto. }
  rewrite Hnone in Hmem. now apply elem_of_nil in Hmem.
Qed.

(** X12.  When a token that is not empty has been found on the login page
    and the form has a hidden input bearing one of the three names of a
    token, the submission carries the token under the first such name, in
    place of the value that the hidden input had; when no token was found,
    or no hidden input bears such a name, the submission is the hidden
    fields and the credentials and nothing else. *)
Theorem submission_token (self : t) (username password : string)
    (w w' : World) (sub : request) :
  prepare self username password w = (inr sub, w') ->
  exists r1 page form token uf pf,
    Notions.login_page self w w' r1 page form
    /\ get_csrf_token (text r1) = inr token
    /\ login_fields form = inr (uf, pf)
    /\ (forall t n, token = Some t -> t <> "" ->
                    Notions.token_field form = Some n ->
                    dict_get n (req_data sub) = Some t)
    /\ (token = None \/ token = Some "" \/ Notions.token_field form = None ->
        forall k, dict_get k (req_data sub)
                  = if decide (k = pf) then Some password
                    else if decide (k = uf) then Some username
                    else dict_get k (fold_left hidden_step
                                       (Notions.hidden_inputs form) [])).
Proof.
  intros Hp.
  destruct (prepare_inv _ _ _ _ _ _ Hp)
    as (r1 & page & form & token & uf & pf & Hl & Ht & Hf & ta & re & Hta & Hre & ->).
  exists r1, page, form, token, uf, pf.
  split; [exact Hl | split; [exact Ht | split; [exact Hf|]]].
  cbn [req_data].
  destruct (add_csrf_cases token form
              (dict_set pf password
                 (dict_set uf username
                    (fold_left hidden_step (Notions.hidden_inputs form) []))))
    as [(t & n & -> & Hne & Hn & ->)|[Hcase ->]].
  - split.
    + intros t' n' [= <-] _ Hn'. rewrite Hn in Hn'. injection Hn' as <-.
      apply dict_get_set.
    + intros [Hc|[Hc|Hc]]; congruence.
  - split.
    + intros t n -> Hne Hn. destruct Hcase as [Hc|[Hc|Hc]]; congruence.
    + intros _ k. destruct (decide (k = pf)) as [->|Hkp]; [apply dict_get_set|].
      rewrite dict_get_set_other by congruence.
      destruct (decide (k = uf)) as [->|Hku]; [apply dict_get_set|].
      now rewrite dict_get_set_other by congruence.
Qed.

(** X13.  A hidden input of the form with a name that is not empty, that
    is not the name of a credential field and is none of the three names of
    a token, is submitted under its name with its value (the empty text
    without one); of several hidden inputs with one name the last one
    decides. *)
Theorem submission_hidden (self : t) (username password : string)
    (w w' : World) (sub : request) :
  prepare self username password w = (inr sub, w') ->
  exists r1 page form uf pf,
    Notions.login_page self w w' r1 page form
    /\ login_fields form = inr (uf, pf)
    /\ forall n h,
         Notions.last_named n h (Notions.hidden_inputs form) ->
         n <> "" -> n <> uf -> n <> pf -> n ∉ Notions.canonical_names ->
         dict_get n (req_data sub) = Some (default "" (Bs4.get h "value")).
Proof.
  intros Hp.
  destruct (prepare_inv _ _ _ _ _ _ Hp)
    as (r1 & page & form & token & uf & pf & Hl & _ & Hf & ta & re & Hta & Hre & ->).
  exists r1, page, form, uf, pf. split; [exact Hl | split; [exact Hf|]].
  intros n h Hlast Hne Hu Hpf Hc. cbn [req_data].
  assert (Hbase : dict_get n (dict_set pf password
                     (dict_set uf username
                        (fold_left hidden_step
                           (Notions.hidden_inputs form) [])))
                  = Some (default "" (Bs4.get h "value"))).
  { rewrite dict_get_set_other by congruence.
    rewrite dict_get_set_other by congruence.
    now apply fold_hidden_last. }
  destruct (add_csrf_cases token form
              (dict_set pf password
                 (dict_set uf username
                    (fold_left hidden_step (Notions.hidden_inputs form) []))))
    as [(t & m & _ & _ & Hm & ->)|[_ ->]]; [|exact Hbase].
  apply token_field_sound in Hm as [Hm _].
  rewrite dict_get_set_other by congruence. exact Hbase.
Qed.

End Submission.

(** The submission for the login page with an absolute action, a token
    outside the form and two hidden fields. *)
Lemma submission_target_witness :
  let E := Lab.rich_env (Fixture.html_response 200 Fixture.welcome_html None) in
  exists r1 page form,
    Notions.login_page (H := E) (Fixture.opened E tt) Fixture.fresh
      Lab.two_gets r1 page form
    /\ req_method Lab.rich_submission = "POST"
    /\ Notions.target (Fixture.opened E tt) form
       = inr (req_url Lab.rich_submission)
    /\ req_params Lab.rich_submission = []
    /\ exists referer,
         urljoin (base_url (Fixture.opened E tt)) "/login" = inr referer
         /\ req_headers Lab.rich_submission
            = [("Content-Type", "application/x-www-form-urlencoded");
               ("Referer", referer);
               ("Origin", base_url (Fixture.opened E tt))].
Proof.
  intros E.
  apply (submission_target (H := E) (Fixture.opened E tt) "ann" "pw"
           Fixture.fresh Lab.two_gets Lab.rich_submission).
  vm_compute. reflexivity.
Defined.

Lemma submission_credentials_witness :
  let E := Lab.rich_env (Fixture.html_response 200 Fixture.welcome_html None) in
  exists r1 page form uf pf,
    Notions.login_page (H := E) (Fixture.opened E tt) Fixture.fresh
      Lab.two_gets r1 page form
    /\ login_fields form = inr (uf, pf)
    /\ (pf ∉ Notions.canonical_names ->
        dict_get pf (req_data Lab.rich_submission) = Some "pw")
    /\ (uf <> pf -> uf ∉ Notions.canonical_names ->
        dict_get uf (req_data Lab.rich_submission) = Some "ann").
Proof.
  intros E.
  apply (submission_credentials (H := E) (Fixture.opened E tt) "ann" "pw"
           Fixture.fresh Lab.two_gets Lab.rich_submission).
  vm_compute. reflexivity.
Defined.

Lemma submission_keys_witness :
  let E := Lab.rich_env (Fixture.html_response 200 Fixture.welcome_html None) in
  exists r1 page form uf pf,
    Notions.login_page (H := E) (Fixture.opened E tt) Fixture.fresh
      Lab.two_gets r1 page form
    /\ login_fields form = inr (uf, pf)
    /\ (forall k, dict_has k (req_data Lab.rich_submission) = true ->
                  k = uf \/ k = pf
                  \/ exists h, h ∈ Notions.hidden_inputs form
                               /\ Bs4.get h "name" = Some k)
    /\ (Notions.token_field form = None ->
        forall k, k ∈ Notions.canonical_names -> k <> uf -> k <> pf ->
                  dict_has k (req_data Lab.rich_submission) = false).
Proof.
  intros E.
  apply (submission_keys (H := E) (Fixture.opened E tt) "ann" "pw"
           Fixture.fresh Lab.two_gets Lab.rich_submission).
  vm_compute. reflexivity.
Defined.

Lemma submission_token_witness :
  let E := Lab.rich_env (Fixture.html_response 200 Fixture.welcome_html None) in
  exists r1 page form token uf pf,
    Notions.login_page (H := E) (Fixture.opened E tt) Fixture.fresh
      Lab.two_gets r1 page form
    /\ get_csrf_token (text r1) = inr token
    /\ login_fields form = inr (uf, pf)
    /\ (forall t n, token = Some t -> t <> "" ->
                    Notions.token_field form = Some n ->
                    dict_get n (req_data Lab.rich_submission) = Some t)
    /\ (token = None \/ token = Some "" \/ Notions.token_field form = None ->
        forall k, dict_get k (req_data Lab.rich_submission)
                  = if decide (k = pf) then Some "pw"
                    else if decide (k = uf) then Some "ann"
                    else dict_get k (fold_left hidden_step
                                       (Notions.hidden_inputs form) [])).
Proof.
  intros E.
  apply (submission_token (H := E) (Fixture.opened E tt) "ann" "pw"
           Fixture.fresh Lab.two_gets Lab.rich_submission).
  vm_compute. reflexivity.
Defined.

Lemma submission_hidden_witness :
  let E := Lab.rich_env (Fixture.html_response 200 Fixture.welcome_html None) in
  exists r1 page form uf pf,
    Notions.login_page (H := E) (Fixture.opened E tt) Fixture.fresh
      Lab.two_gets r1 page form
    /\ login_fields form = inr (uf, pf)
    /\ forall n h,
         Notions.last_named n h (Notions.hidden_inputs form) ->
         n <> "" -> n <> uf -> n <> pf -> n ∉ Notions.canonical_names ->
         dict_get n (req_data Lab.rich_submission)
         = Some (default "" (Bs4.get h "value")).
Proof.
  intros E.
  apply (submission_hidden (H := E) (Fixture.opened E tt) "ann" "pw"
           Fixture.fresh Lab.two_gets Lab.rich_submission).
  vm_compute. reflexivity.
Defined.

(** The submission of that page, field by field. *)
Example rich_submission_fields :
  let E := Lab.rich_env (Fixture.html_response 200 Fixture.welcome_html None) in
  prepare (H := E) (Fixture.opened E tt) "ann" "pw" Fixture.fresh
  = (inr Lab.rich_submission, Lab.two_gets).
Proof. vm_compute. reflexivity. Qed.

(** ** What is harvested *)
Section Harvested.

Context `{Collaborators}.

Lemma anchors_spec (page : Bs4.soup) : anchors page = Notions.links page.
Proof.
  unfold anchors, Bs4.find_all, Notions.links. apply list_filter_iff. intros n.
  rewrite Is_true_true, andb_true_iff, named_single.
  unfold Bs4.attr_present. destruct (Bs4.get n "href") as [x|].
  - split; intros [? _]; split; eauto.
  - split; intros [? Hh]; [discriminate | now destruct Hh].
Qed.

Lemma len_truthy (s : string) : 3 < len s -> truthy s = true.
Proof. intros Hl. apply truthy_true. intros ->. unfold len in Hl. simpl in Hl. lia. Qed.

(** The test of [get_subdomains_page] on one anchor. *)
Lemma subdomain_link_spec (a : Bs4.node) :
  subdomain_link a
  = if decide (Notions.school_site a)
    then Some (School (Notions.label a) (Notions.href a) "subdomain" None)
    else None.
Proof.
  unfold subdomain_link, Notions.school_site, link_text, Bs4.get_or.
  fold (Notions.href a). fold (Notions.label a).
  destruct (decide _) as [[Hu Hl]|Hno].
  - rewrite (proj2 (orb_true_iff _ _) Hu), (len_truthy _ Hl).
    now rewrite (proj2 (Z.ltb_lt _ _) Hl).
  - destruct (contains ".schools.by" (Notions.href a)
              || contains "schools.by/" (Notions.href a)) eqn:Eu;
      [|reflexivity].
    destruct (truthy (Notions.label a)); [|reflexivity].
    destruct (3 <? len (Notions.label a)) eqn:El; [|reflexivity].
    exfalso. apply Hno. split; [now apply orb_true_iff | now apply Z.ltb_lt].
Qed.

Lemma omap_subdomain_link (l : list Bs4.node) :
  omap subdomain_link l
  = (fun a => School (Notions.label a) (Notions.href a) "subdomain" None)
      <$> filter Notions.school_site l.
Proof.
  induction l as [|a l IH]; [reflexivity|].
  cbn [omap list_omap]. rewrite subdomain_link_spec, filter_cons.
  destruct (decide (Notions.school_site a)); [|exact IH].
  rewrite fmap_cons. now rewrite <- IH.
Qed.

Lemma school_site_entry (a : Bs4.node) :
  Notions.school_site a ->
  let s := School (Notions.label a) (Notions.href a) "subdomain" None in
  Notions.well_named s /\ contains "schools.by" (url_ s) = true.
Proof.
  intros [Hu Hl]. split; [split|].
  - apply strip_idem.
  - exact Hl.
  - simpl. destruct Hu as [Hu|Hu];
      refine (contains_trans _ _ _ _ Hu); reflexivity.
Qed.

(** What [get_subdomains_page] returns is always a list of entries made by
    [subdomain_link]. *)
Lemma subdomains_shape (self : t) (w : World) :
  exists found w',
    get_subdomains_page self w = (inr found, w')
    /\ (found = []
        \/ exists page,
             found = (fun a => School (Notions.label a) (Notions.href a)
                                 "subdomain" None)
                       <$> filter Notions.school_site (Notions.links page)).
Proof.
  unfold get_subdomains_page, try_except, bind, lift.
  destruct (_make_request self "GET" "/subdomains" true [] w)
    as [[e|result] w1]; [now exists [], w1; split; [|left]|].
  destruct (contains_str "html" result) as [e|[|]];
    [now exists [], w1; split; [|left] | | now exists [], w1; split; [|left]].
  destruct (subscript result "html") as [e|html];
    [now exists [], w1; split; [|left]|].
  destruct (BeautifulSoup html) as [e|page];
    [now exists [], w1; split; [|left]|].
  eexists _, w1. split; [reflexivity|]. right. exists page.
  now rewrite anchors_spec, omap_subdomain_link.
Qed.

(** X14.  [get_subdomains_page] never raises, and each entry it returns is
    of type subdomain, has no source page, bears a name that is stripped
    and longer than three characters, and an address in which schools.by
    occurs. *)
Theorem subdomains_entries (self : t) (w : World) :
  exists found w',
    get_subdomains_page self w = (inr found, w')
    /\ Forall (fun s => type_ s = "subdomain" /\ source s = None
                        /\ Notions.well_named s
                        /\ contains "schools.by" (url_ s) = true) found.
Proof.
  destruct (subdomains_shape self w) as (found & w' & Hg & Hshape).
  exists found, w'. split; [exact Hg|].
  destruct Hshape as [->|[page ->]]; [constructor|].
  apply Forall_fmap, Forall_forall. intros a Ha.
  apply list_elem_of_filter in Ha as [Ha _].
  destruct (school_site_entry a Ha) as [Hw Hu].
  split; [reflexivity|]. split; [reflexivity|]. split; [exact Hw | exact Hu].
Qed.

(** X15.  When the request for the page of subdomains gives a mapping
    whose markup parses (the body of a 200 answer, or of an answer with
    another status, errors being allowed), the entries are, in document
    order and with repetitions, those of the anchors with an address whose
    address holds .schools.by or schools.by/ and whose stripped text is
    longer than three characters: the name is that text, the address is
    taken as written. *)
Theorem subdomains_listed (self : t) (w w' : World) (d : dict)
    (body : value) (page : Bs4.soup) :
  _make_request self "GET" "/subdomains" true [] w = (inr (VDict d), w') ->
  dict_get "html" d = Some body ->
  BeautifulSoup body = inr page ->
  get_subdomains_page self w
  = (inr ((fun a => School (Notions.label a) (Notions.href a) "subdomain" None)
            <$> filter Notions.school_site (Notions.links page)), w').
Proof.
  intros Hreq Hd Hpage.
  unfold get_subdomains_page, try_except, bind, lift. rewrite Hreq.
  cbn [contains_str]. unfold dict_has. rewrite Hd.
  cbn [subscript]. rewrite Hd, Hpage.
  now rewrite anchors_spec, omap_subdomain_link.
Qed.

(** *** The search *)

Lemma main_page_link_hit (query : string) (a : Bs4.node) (s : school) :
  main_page_link query a = Some s -> Notions.hit query s.
Proof.
  unfold main_page_link, link_text.
  destruct (_ || _); [|discriminate].
  destruct (truthy _ && (3 <? _) && contains _ _) eqn:E; [|discriminate].
  intros [= <-]. apply andb_true_iff in E as [E Hc].
  apply andb_true_iff in E as [_ Hl]. apply Z.ltb_lt in Hl.
  split; [split; [apply strip_idem | exact Hl]|].
  split; [exact Hc|].
  split; [|left; split; [reflexivity | apply list_elem_of_here]].
  apply elem_of_cons. now left.
Qed.

Lemma test_page_link_hit (query page : string) (a : Bs4.node) (s : school) :
  page ∈ test_pages ->
  test_page_link query page a = Some s -> Notions.hit query s.
Proof.
  intros Hp. unfold test_page_link, link_text.
  destruct (_ && truthy _); [|discriminate].
  destruct (contains _ _ && (3 <? _)) eqn:E; [|discriminate].
  intros [= <-]. apply andb_true_iff in E as [Hc Hl]. apply Z.ltb_lt in Hl.
  split; [split; [apply strip_idem | exact Hl]|].
  split; [exact Hc|]. split; [|right; now exists page].
  cbn [type_]. unfold test_pages in Hp. unfold Notions.result_types.
  repeat (apply elem_of_cons in Hp as [->|Hp];
          [repeat (first [now apply list_elem_of_here | apply list_elem_of_further])|]).
  now apply elem_of_nil in Hp.
Qed.

(** A page adds only entries picked from its anchors. *)
Lemma harvest_page_keeps (P : school -> Prop) (self : t) (endpoint : string)
    (pick : Bs4.node -> option school) (st st' : World * list school)
    (r : result unit) :
  (forall a s, pick a = Some s -> P s) ->
  Forall P st.2 ->
  harvest_page self endpoint pick st = (r, st') -> Forall P st'.2.
Proof.
  intros Hpick Hst.
  unfold harvest_page, bind, in_world, lift, append_all, ret.
  destruct (_make_request self "GET" endpoint true [] st.1) as [[e0|page] w1];
    [now intros [= _ <-]|].
  destruct (contains_str "html" page) as [e1|[|]];
    [now intros [= _ <-] | | now intros [= _ <-]].
  destruct (subscript page "html") as [e2|html]; [now intros [= _ <-]|].
  destruct (BeautifulSoup html) as [e3|soup]; [now intros [= _ <-]|].
  intros [= _ <-]. cbn [fst snd]. apply Forall_app. split; [exact Hst|].
  apply Forall_forall. intros s Hs.
  apply list_elem_of_omap in Hs as (a & _ & Ha). eauto.
Qed.

Lemma harvest_test_pages_keeps (P : school -> Prop) (self : t)
    (query : string) (pages : list string) (st st' : World * list school)
    (r : result unit) :
  (forall page a s, page ∈ pages ->
                    test_page_link query page a = Some s -> P s) ->
  Forall P st.2 ->
  harvest_test_pages self query pages st = (r, st') -> Forall P st'.2.
Proof.
  revert st. induction pages as [|page rest IH]; intros st Hpick Hst; simpl.
  - unfold ret. now intros [= _ <-].
  - unfold bind at 1, try_except.
    destruct (harvest_page self page (test_page_link query page) st)
      as [[e|[]] st1] eqn:Hp; simpl;
      (apply IH;
       [ intros p a s Hin; apply Hpick; now apply list_elem_of_further
       | eapply harvest_page_keeps; [|exact Hst|exact Hp];
         intros a s; apply Hpick; apply list_elem_of_here ]).
Qed.

Lemma harvest_hits (self : t) (query : string) (w : World)
    (r : result unit) (st : World * list school) :
  harvest self query (w, []) = (r, st) -> Forall (Notions.hit query) st.2.
Proof.
  unfold harvest. unfold bind at 1.
  destruct (harvest_page self "/" (main_page_link query) (w, []))
    as [r0 st0] eqn:Hmain.
  assert (Forall (Notions.hit query) st0.2) as H0.
  { apply (harvest_page_keeps _ self "/" (main_page_link query) (w, [])
             st0 r0); [apply main_page_link_hit | constructor | exact Hmain]. }
  destruct r0 as [e0|[]]; [now intros [= _ <-]|].
  unfold bind at 1, in_world.
  destruct (subdomains_shape self st0.1) as (subs & w1 & Hsub & Hshape).
  rewrite Hsub. unfold bind at 1, append_all. cbn [fst snd].
  apply harvest_test_pages_keeps.
  - intros page a s. apply test_page_link_hit.
  - cbn [snd]. apply Forall_app. split; [exact H0|].
    apply Forall_forall. intros s Hs.
    apply list_elem_of_filter in Hs as [Hq Hs].
    destruct Hshape as [->|[page ->]]; [now apply elem_of_nil in Hs|].
    apply list_elem_of_fmap in Hs as (a & -> & Ha).
    apply list_elem_of_filter in Ha as [Ha _].
    destruct (school_site_entry a Ha) as [Hw _].
    split; [exact Hw|]. split; [exact Hq|].
    split; [|left; split;
              [reflexivity | apply list_elem_of_further, list_elem_of_here]].
    apply list_elem_of_further, list_elem_of_here.
Qed.

(** X16.  Every entry that [search_schools] returns for a query bears a
    name that is stripped, longer than three characters and holds the
    query, letter case apart; its type is one of main_page_link, subdomain,
    from_/capabilities, from_/help and from_/about, and its source is a
    page exactly when its type is from_ followed by that page: an entry
    without source is a main_page_link or a subdomain. *)
Theorem search_results_match (self : t) (query : string) (w : World) :
  exists found w',
    search_schools self query w = (inr found, w')
    /\ Forall (fun s =>
                 Notions.well_named s
                 /\ contains (lower query) (lower (name s)) = true
                 /\ type_ s ∈ Notions.result_types
                 /\ ((source s = None
                      /\ type_ s ∈ ["main_page_link"; "subdomain"])
                     \/ exists page, page ∈ test_pages
                                     /\ source s = Some page
                                     /\ type_ s = "from_" +:+ page)) found.
Proof.
  unfold search_schools.
  destruct (harvest self query (w, [])) as [r [w' schools]] eqn:Hh.
  apply harvest_hits in Hh. cbn [snd] in Hh.
  destruct r as [e|[]]; eexists _, w'; (split; [reflexivity|]).
  - exact Hh.
  - apply Forall_take. rewrite Forall_forall in Hh |- *.
    intros s Hs. apply Hh. unfold unique_schools in Hs.
    eapply elem_of_sublist; [exact Hs | apply unique_from_sublist].
Qed.

Lemma omap_pick_ext (pick pick' : Bs4.node -> option school)
    (l : list Bs4.node) :
  (forall a, pick a = pick' a) -> omap pick l = omap pick' l.
Proof.
  intros Hp. induction l as [|a l IH]; [reflexivity|].
  cbn [omap list_omap]. now rewrite Hp, IH.
Qed.

Lemma harvest_page_ext (self : t) (endpoint : string)
    (pick pick' : Bs4.node -> option school) (st : World * list school) :
  (forall a, pick a = pick' a) ->
  harvest_page self endpoint pick st = harvest_page self endpoint pick' st.
Proof.
  intros Hp. unfold harvest_page, bind, in_world, lift, append_all, ret.
  destruct (_make_request self "GET" endpoint true [] st.1) as [[e0|page] w1];
    [reflexivity|].
  destruct (contains_str "html" page) as [e1|[|]]; try reflexivity.
  destruct (subscript page "html") as [e2|html]; [reflexivity|].
  destruct (BeautifulSoup html) as [e3|soup]; [reflexivity|].
  now rewrite (omap_pick_ext pick pick' _ Hp).
Qed.

Lemma harvest_test_pages_ext (self : t) (q q' : string)
    (pages : list string) (st : World * list school) :
  lower q = lower q' ->
  harvest_test_pages self q pages st = harvest_test_pages self q' pages st.
Proof.
  intros Hq. revert st. induction pages as [|page rest IH]; intros st;
    [reflexivity|].
  cbn [harvest_test_pages]. unfold bind, try_except.
  rewrite (harvest_page_ext self page (test_page_link q page)
             (test_page_link q' page) st)
    by (intros a; unfold test_page_link; now rewrite Hq).
  destruct (harvest_page self page (test_page_link q' page) st)
    as [[e|[]] st1]; simpl; apply IH.
Qed.

(** X17.  The search does not tell the letter case of the query: two
    queries that are the same in lower case give the same requests and the
    same list. *)
Theorem search_ignores_case (self : t) (q q' : string) (w : World) :
  lower q = lower q' ->
  search_schools self q w = search_schools self q' w.
Proof.
  intros Hq. unfold search_schools.
  assert (harvest self q (w, []) = harvest self q' (w, [])) as ->;
    [|reflexivity].
  unfold harvest, bind.
  rewrite (harvest_page_ext self "/" (main_page_link q) (main_page_link q'))
    by (intros a; unfold main_page_link; now rewrite Hq).
  destruct (harvest_page self "/" (main_page_link q') (w, []))
    as [[e|[]] st0]; [reflexivity|].
  destruct (in_world (get_subdomains_page self) st0) as [[e|subs] st1];
    [reflexivity|].
  unfold append_all. cbn [fst snd]. rewrite Hq.
  apply harvest_test_pages_ext, Hq.
Qed.

End Harvested.

(** The page of ten links: the five that lead to a school, as they come. *)
Lemma subdomains_listed_witness :
  let E := Fixture.page_env Fixture.links_html in
  fst (get_subdomains_page (H := E) (Fixture.opened E tt) Fixture.fresh)
  = inr [School "Gymnasium 1, Minsk" "https://gymn1.schools.by" "subdomain"
           None;
         School "School 24 (MINSK)" "https://sch24.schools.by" "subdomain"
           None;
         School "School 7, Brest" "https://sch7brest.schools.by" "subdomain"
           None;
         School "Gymnasium 1, Minsk" "https://gymn1.schools.by" "subdomain"
           None;
         School "Lyceum of Minsk" "https://lyceum.schools.by" "subdomain"
           None].
Proof.
  intros E.
  evar (d : dict). evar (w1 : Fixture.world).
  assert (_make_request (H := E) (Fixture.opened E tt) "GET" "/subdomains"
            true [] Fixture.fresh = (inr (VDict d), w1)) as Hreq
    by (subst d w1; vm_compute; reflexivity).
  rewrite (subdomains_listed (H := E) (Fixture.opened E tt) Fixture.fresh w1
             d (VStr Fixture.links_html) Fixture.links_page Hreq
             eq_refl eq_refl).
  vm_compute. reflexivity.
Defined.

(** Capitals in the query change nothing. *)
Lemma search_ignores_case_witness :
  let E := Fixture.page_env Fixture.links_html in
  search_schools (H := E) (Fixture.opened E tt) "MINSK" Fixture.fresh
  = search_schools (H := E) (Fixture.opened E tt) "minsk" Fixture.fresh.
Proof.
  intros E.
  apply (search_ignores_case (H := E) (Fixture.opened E tt) "MINSK" "minsk"
           Fixture.fresh).
  reflexivity.
Defined.

(** ** The probe of the endpoints *)
Section Probe.

Context `{Collaborators}.

Import Endpoints.

(** One endpoint adds one entry, to one of the three lists. *)
Lemma probe_adds_one (self : t) (found : endpoints) (endpoint : string)
    (w : World) :
  exists entry w',
    Notions.entry_endpoint entry = Some endpoint
    /\ ((Notions.answered entry
         /\ probe self found endpoint w
            = (inr {| working := working found ++ [entry];
                      failing := failing found;
                      redirects := redirects found |}, w'))
        \/ (Notions.redirected entry
            /\ probe self found endpoint w
               = (inr {| working := working found;
                         failing := failing found;
                         redirects := redirects found ++ [entry] |}, w'))
        \/ (Notions.failed entry
            /\ probe self found endpoint w
               = (inr {| working := working found;
                         failing := failing found ++ [entry];
                         redirects := redirects found |}, w'))).
Proof.
  unfold probe, try_except, bind, lift.
  destruct (_build_url self endpoint) as [e|address].
  { exists [("endpoint", VStr endpoint); ("error", VStr (exn_str e))], w.
    split; [reflexivity|]. right. right.
    split; [|reflexivity]. right. now eexists. }
  destruct (session_get_unfollowed self address w)
    as [[e|response] w1].
  - exists [("endpoint", VStr endpoint); ("error", VStr (exn_str e))], w1.
    split; [reflexivity|]. right. right.
    split; [|reflexivity]. right. now eexists.
  - destruct (status_code response =? 200) eqn:E200.
    + apply Z.eqb_eq in E200.
      exists [("endpoint", VStr endpoint);
              ("status", VInt (status_code response));
              ("content_type",
               VStr (default "" (headers_get response "Content-Type")))], w1.
      split; [reflexivity|]. left.
      split; [|reflexivity]. split.
      * unfold Notions.entry_status. cbn. now rewrite E200.
      * now eexists.
    + apply Z.eqb_neq in E200.
      destruct (bool_decide (status_code response ∈ redirect_statuses))
        eqn:Ered.
      * apply bool_decide_eq_true in Ered.
        exists [("endpoint", VStr endpoint);
                ("status", VInt (status_code response));
                ("location",
                 VStr (default "" (headers_get response "Location")))], w1.
        split; [reflexivity|]. right. left.
        split; [|reflexivity]. eexists _, _. split; [reflexivity|].
        split; [exact Ered | reflexivity].
      * apply bool_decide_eq_false in Ered.
        exists [("endpoint", VStr endpoint);
                ("status", VInt (status_code response))], w1.
        split; [reflexivity|]. right. right.
        split; [|reflexivity]. left. eexists. split; [reflexivity|].
        split; [exact E200|]. split; [exact Ered | reflexivity].
Qed.

Lemma probe_all_adds (self : t) (todo : list string) :
  forall (found : endpoints) (w : World),
  exists wk rd fl w',
    probe_all self found todo w
    = (inr {| working := working found ++ wk;
              failing := failing found ++ fl;
              redirects := redirects found ++ rd |}, w')
    /\ omap Notions.entry_endpoint (wk ++ rd ++ fl) ≡ₚ todo
    /\ length (wk ++ rd ++ fl) = length todo
    /\ omap Notions.entry_endpoint wk `sublist_of` todo
    /\ omap Notions.entry_endpoint rd `sublist_of` todo
    /\ omap Notions.entry_endpoint fl `sublist_of` todo
    /\ Forall Notions.answered wk
    /\ Forall Notions.redirected rd
    /\ Forall Notions.failed fl.
Proof.
  induction todo as [|endpoint rest IH]; intros found w.
  - exists [], [], [], w. cbn [probe_all]. unfold ret.
    rewrite !app_nil_r. destruct found.
    repeat split; try constructor.
  - cbn [probe_all]. unfold bind.
    destruct (probe_adds_one self found endpoint w)
      as (entry & w1 & Hend & [[Hk ->]|[[Hk ->]|[Hk ->]]]);
      match goal with
      | |- context [probe_all self ?f rest w1] =>
          destruct (IH f w1)
            as (wk & rd & fl & w' & -> & Hperm & Hlen & Hwk & Hrd & Hfl
                & Fwk & Frd & Ffl)
      end; cbn [working failing redirects].
    + exists (entry :: wk), rd, fl, w'.
      rewrite <- !app_assoc. cbn [app].
      split; [reflexivity|].
      cbn [omap list_omap app]. rewrite Hend.
      split; [now constructor|].
      split; [cbn [length]; now rewrite Hlen|].
      split; [now apply sublist_skip|].
      split; [now apply sublist_cons|].
      split; [now apply sublist_cons|].
      split; [now constructor|]. now split.
    + exists wk, (entry :: rd), fl, w'.
      rewrite <- !app_assoc. cbn [app].
      split; [reflexivity|].
      split.
      { rewrite omap_app. cbn [omap list_omap app]. rewrite Hend.
        rewrite <- Permutation_middle. constructor.
        now rewrite <- omap_app. }
      split; [rewrite !length_app in Hlen |- *; cbn [length]; lia|].
      split; [now apply sublist_cons|].
      split; [cbn [omap list_omap]; rewrite Hend; now apply sublist_skip|].
      split; [now apply sublist_cons|].
      split; [exact Fwk|]. split; [now constructor | exact Ffl].
    + exists wk, rd, (entry :: fl), w'.
      rewrite <- !app_assoc. cbn [app].
      split; [reflexivity|].
      split.
      { rewrite app_assoc, omap_app. cbn [omap list_omap app]. rewrite Hend.
        rewrite <- Permutation_middle. constructor.
        now rewrite <- omap_app, <- app_assoc. }
      split; [rewrite !length_app in Hlen |- *; cbn [length]; lia|].
      split; [now apply sublist_cons|].
      split; [now apply sublist_cons|].
      split; [cbn [omap list_omap]; rewrite Hend; now apply sublist_skip|].
      split; [exact Fwk|]. split; [exact Frd | now constructor].
Qed.

(** One endpoint through an open session: its answer decides the list
    that gets its entry. *)
Lemma probe_files (self : t) (c : Client) (found : endpoints)
    (endpoint : string) (w w1 : World) (answer : result response) :
  session self = Some c ->
  Notions.answers self c [endpoint] w = ([answer], w1) ->
  probe self found endpoint w
  = (inr {| working :=
              working found
              ++ omap Notions.working_entry [(endpoint, answer)];
            failing :=
              failing found
              ++ omap Notions.failing_entry [(endpoint, answer)];
            redirects :=
              redirects found
              ++ omap Notions.redirect_entry [(endpoint, answer)] |}, w1).
Proof.
  intros Hs. cbn [Notions.answers].
  unfold probe, try_except, bind, lift, session_get_unfollowed.
  rewrite Hs.
  destruct (_build_url self endpoint) as [e|address].
  { intros [= <- <-]. cbn. now rewrite !app_nil_r. }
  destruct (client_send c (Some false) _ w) as [[e|r] w2].
  { intros [= <- <-]. cbn. now rewrite !app_nil_r. }
  intros [= <- <-].
  unfold Notions.working_entry, Notions.redirect_entry,
    Notions.failing_entry. cbn [omap list_omap fst snd].
  destruct (status_code r =? 200) eqn:E200.
  - apply Z.eqb_eq in E200.
    assert (Hnr : ~ status_code r ∈ redirect_statuses).
    { rewrite E200. intros Hin. apply list_elem_of_In in Hin.
      cbn in Hin. intuition discriminate. }
    rewrite (decide_True (P := status_code r = 200)) by exact E200.
    rewrite (decide_False (P := status_code r ∈ redirect_statuses))
      by exact Hnr.
    rewrite (decide_True
               (P := status_code r = 200
                     \/ status_code r ∈ redirect_statuses)) by now left.
    cbn. rewrite !app_nil_r. now rewrite E200.
  - apply Z.eqb_neq in E200.
    rewrite (decide_False (P := status_code r = 200)) by exact E200.
    destruct (bool_decide (status_code r ∈ redirect_statuses)) eqn:Ered.
    + apply bool_decide_eq_true in Ered.
      rewrite (decide_True (P := status_code r ∈ redirect_statuses))
        by exact Ered.
      rewrite (decide_True
                 (P := status_code r = 200
                       \/ status_code r ∈ redirect_statuses)) by now right.
      cbn. now rewrite !app_nil_r.
    + apply bool_decide_eq_false in Ered.
      rewrite (decide_False (P := status_code r ∈ redirect_statuses))
        by exact Ered.
      rewrite (decide_False
                 (P := status_code r = 200
                       \/ status_code r ∈ redirect_statuses)) by tauto.
      cbn. now rewrite !app_nil_r.
Qed.

Lemma answers_cons (self : t) (c : Client) (endpoint : string)
    (rest : list string) (w : World) :
  exists answer w1 others w',
    Notions.answers self c [endpoint] w = ([answer], w1)
    /\ Notions.answers self c rest w1 = (others, w')
    /\ Notions.answers self c (endpoint :: rest) w = (answer :: others, w').
Proof.
  cbn [Notions.answers].
  destruct (match _build_url self endpoint with
            | inl e => (inl e, w)
            | inr address =>
                client_send c (Some false) (Request "GET" address [] [] []) w
            end) as [answer w1].
  destruct (Notions.answers self c rest w1) as [others w'] eqn:Hrest.
  now exists answer, w1, others, w'.
Qed.

Lemma probe_all_files (self : t) (c : Client) (todo : list string) :
  session self = Some c ->
  forall (found : endpoints) (w w' : World) (got : list (result response)),
    Notions.answers self c todo w = (got, w') ->
    probe_all self found todo w
    = (inr {| working :=
                working found ++ omap Notions.working_entry (zip todo got);
              failing :=
                failing found ++ omap Notions.failing_entry (zip todo got);
              redirects :=
                redirects found
                ++ omap Notions.redirect_entry (zip todo got) |}, w').
Proof.
  intros Hs. induction todo as [|endpoint rest IH]; intros found w w' got.
  - cbn. intros [= <- <-]. unfold ret. rewrite !app_nil_r.
    now destruct found.
  - destruct (answers_cons self c endpoint rest w)
      as (answer & w1 & others & w2 & H1 & Hrest & Hall).
    rewrite Hall. intros [= <- <-].
    cbn [probe_all]. unfold bind.
    rewrite (probe_files self c found endpoint w w1 answer Hs H1).
    rewrite (IH _ w1 w2 others Hrest).
    cbn [working failing redirects zip zip_with].
    rewrite <- !app_assoc. f_equal. f_equal.
    cbn [omap list_omap].
    destruct (Notions.working_entry (endpoint, answer));
      destruct (Notions.failing_entry (endpoint, answer));
      destruct (Notions.redirect_entry (endpoint, answer)); reflexivity.
Qed.

(** X18.  [discover_endpoints] never raises, whatever the transport does.
    Each of the thirteen endpoints is reported once, in exactly one of the
    three lists, and each list keeps the order of the probe.  An entry is
    in working when the answer was 200, and then bears the content type;
    in redirects when the answer was 301, 302, 303, 307 or 308, and then
    bears the location; in failing otherwise, with the status when there
    was an answer and with the message of the exception when there was
    none.  Through an open session the answers are those of the site:
    each endpoint in turn is asked with a GET of its address that does not
    follow redirections, in the world that the previous endpoints left,
    and the three lists are exactly the entries that these answers
    give. *)
Theorem probe_partition (self : t) (w : World) :
  (exists found w',
     discover_endpoints self w = (inr found, w')
     /\ omap Notions.entry_endpoint (Notions.all_entries found)
        ≡ₚ test_endpoints
     /\ length (Notions.all_entries found) = 13%nat
     /\ omap Notions.entry_endpoint (working found)
        `sublist_of` test_endpoints
     /\ omap Notions.entry_endpoint (redirects found)
        `sublist_of` test_endpoints
     /\ omap Notions.entry_endpoint (failing found)
        `sublist_of` test_endpoints
     /\ Forall Notions.answered (working found)
     /\ Forall Notions.redirected (redirects found)
     /\ Forall Notions.failed (failing found))
  /\ (forall c got w',
        session self = Some c ->
        Notions.answers self c test_endpoints w = (got, w') ->
        let probed := zip test_endpoints got in
        discover_endpoints self w
        = (inr {| working := omap Notions.working_entry probed;
                  failing := omap Notions.failing_entry probed;
                  redirects := omap Notions.redirect_entry probed |}, w')).
Proof.
  split.
  - unfold discover_endpoints.
    destruct (probe_all_adds self test_endpoints
                {| working := []; failing := []; redirects := [] |} w)
      as (wk & rd & fl & w' & -> & Hperm & Hlen & Hwk & Hrd & Hfl
          & Fwk & Frd & Ffl).
    eexists _, w'. split; [reflexivity|].
    unfold Notions.all_entries. cbn [working failing redirects app].
    split; [exact Hperm|]. split; [exact Hlen|].
    repeat split; assumption.
  - intros c got w' Hs Hgot probed. unfold discover_endpoints.
    now rewrite (probe_all_files self c test_endpoints Hs _ w w' got Hgot).
Qed.

End Probe.

(** A site on which two endpoints answer, one has moved, one is not
    reached and the others are not found: the thirteen requests are sent,
    none of them followed, and each endpoint is filed by its answer. *)
Lemma probe_partition_witness :
  let E := Lab.probe_env in
  exists w',
    Endpoints.discover_endpoints (Fixture.opened E tt) Fixture.fresh
    = (inr {| Endpoints.working :=
                [[("endpoint", VStr "/"); ("status", VInt 200);
                  ("content_type", VStr "text/html")];
                 [("endpoint", VStr "/login"); ("status", VInt 200);
                  ("content_type", VStr "text/html")]];
              Endpoints.failing :=
                [[("endpoint", VStr "/help"); ("status", VInt 404)];
                 [("endpoint", VStr "/about"); ("status", VInt 404)];
                 [("endpoint", VStr "/capabilities"); ("status", VInt 404)];
                 [("endpoint", VStr "/cost"); ("status", VInt 404)];
                 [("endpoint", VStr "/contact"); ("status", VInt 404)];
                 [("endpoint", VStr "/news"); ("status", VInt 404)];
                 [("endpoint", VStr "/subdomains"); ("status", VInt 404)];
                 [("endpoint", VStr "/api");
                  ("error", VStr "connection refused")];
                 [("endpoint", VStr "/mobile"); ("status", VInt 404)];
                 [("endpoint", VStr "/app"); ("status", VInt 404)]];
              Endpoints.redirects :=
                [[("endpoint", VStr "/registration"); ("status", VInt 301);
                  ("location", VStr "/signup")]] |}, w')
    /\ length (Fixture.sent w') = 13%nat.
Proof.
  intros E.
  evar (got : list (result response)). evar (w' : Fixture.world).
  assert (Hgot : Notions.answers (H := E) (Fixture.opened E tt)
                   (Fixture.client E tt) Endpoints.test_endpoints
                   Fixture.fresh = (got, w'))
    by (subst got w'; vm_compute; reflexivity).
  exists w'. split; [|reflexivity].
  rewrite (proj2 (probe_partition (H := E) (Fixture.opened E tt)
                    Fixture.fresh)
             (Fixture.client E tt) got w' eq_refl Hgot).
  reflexivity.
Defined.

(** ** A client that was never opened *)
Section Unopened.

Context `{Collaborators}.

Import Endpoints.

Lemma probe_all_unopened (self : t) (todo : list string) :
  session self = None ->
  forall (found : endpoints) (w : World),
    probe_all self found todo w
    = (inr {| working := working found;
              failing :=
                failing found ++
                ((fun endpoint =>
                    [("endpoint", VStr endpoint);
                     ("error",
                      VStr match _build_url self endpoint with
                           | inl e => exn_str e
                           | inr _ =>
                               "'NoneType' object has no attribute 'get'"
                           end)])
                   <$> todo);
              redirects := redirects found |}, w).
Proof.
  intros Hs. induction todo as [|endpoint rest IH]; intros found w.
  - cbn. rewrite app_nil_r. now destruct found.
  - cbn [probe_all]. unfold bind at 1.
    assert (Hp : probe self found endpoint w
      = (inr {| working := working found;
                failing :=
                  failing found ++
                  [[("endpoint", VStr endpoint);
                    ("error",
                     VStr match _build_url self endpoint with
                          | inl e => exn_str e
                          | inr _ =>
                              "'NoneType' object has no attribute 'get'"
                          end)]];
                redirects := redirects found |}, w)).
    { unfold probe, try_except, bind, lift, session_get_unfollowed.
      rewrite Hs. now destruct (_build_url self endpoint). }
    rewrite Hp, IH. cbn [working failing redirects fmap list_fmap].
    now rewrite <- app_assoc.
Qed.

(** X19.  Outside of [async with] the client has no session, and no entry
    point sends anything.  The getters fail with the error of the client
    that says the session is not initialized.  [authenticate] fails with
    the error of the client too, but with the message of the attribute
    error, since it goes to the session without the guard.  The two
    harvesters return the empty list, the analysis of the login form
    returns the message of the guard under the key error, and the probe
    lists each of the thirteen endpoints as failing with the message of the
    attribute error, or with that of the refusal when the address of the
    endpoint cannot be built. *)
Theorem never_opened (self : t) :
  session self = None ->
  let guard := "Session not initialized. Use async context manager." in
  let attribute := "'NoneType' object has no attribute 'get'" in
  (forall w, get_user_info self w = (inl (Exn SchoolsAPIError guard), w))
  /\ (forall date w,
         get_schedule self date w = (inl (Exn SchoolsAPIError guard), w))
  /\ (forall period w,
         get_grades self period w = (inl (Exn SchoolsAPIError guard), w))
  /\ (forall date w,
         get_homework self date w = (inl (Exn SchoolsAPIError guard), w))
  /\ (forall w,
         get_announcements self w = (inl (Exn SchoolsAPIError guard), w))
  /\ (forall username password w,
         authenticate self username password w
         = (inl (Exn SchoolsAPIError
                   ("Authentication failed: " +:+ attribute)), w))
  /\ (forall query w, search_schools self query w = (inr [], w))
  /\ (forall w, get_subdomains_page self w = (inr [], w))
  /\ (forall w,
         analyze_login_form self w
         = (inr (VDict [("error", VStr guard)]), w))
  /\ (forall w,
         discover_endpoints self w
         = (inr {| working := [];
                   failing :=
                     (fun endpoint =>
                        [("endpoint", VStr endpoint);
                         ("error",
                          VStr match _build_url self endpoint with
                               | inl e => exn_str e
                               | inr _ => attribute
                               end)]) <$> test_endpoints;
                   redirects := [] |}, w)).
Proof.
  intros Hs guard attribute.
  assert (forall method endpoint allow_errors params w,
             _make_request self method endpoint allow_errors params w
             = (inl (Exn SchoolsAPIError guard), w)) as Hreq.
  { intros. unfold _make_request. now rewrite Hs. }
  repeat split; intros.
  - apply Hreq.
  - apply Hreq.
  - apply Hreq.
  - apply Hreq.
  - apply Hreq.
  - unfold authenticate, try_except, bind, prepare, session_get.
    now rewrite Hs.
  - unfold search_schools, harvest, harvest_page, bind, in_world.
    cbn [fst snd]. now rewrite Hreq.
  - unfold get_subdomains_page, try_except, bind. now rewrite Hreq.
  - unfold analyze_login_form, try_except, bind. now rewrite Hreq.
  - unfold discover_endpoints. now rewrite probe_all_unopened.
Qed.

End Unopened.

(** A client made by the constructor alone. *)
Lemma never_opened_witness :
  let self := __init__ (H := Lab.probe_env) "https://schools.by" in
  authenticate self "ann" "pw" Fixture.fresh
  = (inl (Exn SchoolsAPIError
            "Authentication failed: 'NoneType' object has no attribute 'get'"),
     Fixture.fresh)
  /\ search_schools self "minsk" Fixture.fresh = (inr [], Fixture.fresh).
Proof.
  intros self.
  pose proof (never_opened (H := Lab.probe_env) self eq_refl) as Hn.
  split; [apply Hn | apply Hn].
Defined.

(** ** The analysis of the login form *)
Section Analysis.

Context `{Collaborators}.

Import Endpoints.

Lemma find_form_spec (page : Bs4.soup) :
  Bs4.find page ["form"] Bs4.any = Spec.first_form page.
Proof. unfold Bs4.find. now rewrite find_all_any. Qed.

Lemma find_all_controls (form : Bs4.node) :
  Bs4.find_all form ["input"; "textarea"; "select"] Bs4.any
  = Notions.controls form.
Proof.
  unfold Bs4.find_all, Notions.controls. apply list_filter_iff. intros n.
  unfold Bs4.any, Bs4.named, Notions.control.
  rewrite andb_true_r, Is_true_true.
  destruct (Bs4.tag_name n) as [nm|]; [apply mem_true|].
  split; [discriminate | intros []].
Qed.

(** The report on a form. *)
Lemma analysis_of_markup (self : t) (w w' : World) (d : dict)
    (body : value) (page : Bs4.soup) :
  _make_request self "GET" "/login" false [] w = (inr (VDict d), w') ->
  dict_get "html" d = Some body ->
  BeautifulSoup body = inr page ->
  analyze_login_form self w
  = (inr match Spec.first_form page with
         | Some form =>
             VDict [("action", VStr (default "" (Bs4.get form "action")));
                    ("method", VStr (default "POST" (Bs4.get form "method")));
                    ("fields",
                     VList (field_info <$> Notions.controls form))]
         | None => VDict [("error", VStr "No form found")]
         end, w').
Proof.
  intros Hreq Hd Hpage.
  unfold analyze_login_form, try_except, bind, lift. rewrite Hreq.
  cbn [contains_str]. unfold dict_has. rewrite Hd.
  cbn [subscript]. rewrite Hd, Hpage, find_form_spec.
  destruct (Spec.first_form page) as [form|]; [|reflexivity].
  now rewrite find_all_controls.
Qed.

(** X20.  [analyze_login_form] never raises.  It returns a mapping that
    holds either the single key error, or the keys action, method and
    fields of the first form of a page: the action and the method as
    written, empty and POST when missing, and one description for each
    input, textarea and select of the form, in document order. *)
Theorem analysis_never_raises (self : t) (w : World) :
  exists d w',
    analyze_login_form self w = (inr (VDict d), w')
    /\ ((exists message, d = [("error", VStr message)])
        \/ (exists page form,
               Spec.first_form page = Some form
               /\ d = [("action",
                        VStr (default "" (Bs4.get form "action")));
                       ("method",
                        VStr (default "POST" (Bs4.get form "method")));
                       ("fields",
                        VList (field_info <$> Notions.controls form))])).
Proof.
  unfold analyze_login_form, try_except, bind, lift.
  destruct (_make_request self "GET" "/login" false [] w)
    as [[e|result] w1]; [eexists _, w1; split; [reflexivity|]; left; eauto|].
  destruct (contains_str "html" result) as [e|[|]];
    [eexists _, w1; split; [reflexivity|]; left; eauto | |
     eexists _, w1; split; [reflexivity|]; left; eauto].
  destruct (subscript result "html") as [e|html];
    [eexists _, w1; split; [reflexivity|]; left; eauto|].
  destruct (BeautifulSoup html) as [e|page];
    [eexists _, w1; split; [reflexivity|]; left; eauto|].
  rewrite find_form_spec.
  destruct (Spec.first_form page) as [form|] eqn:Hform;
    [|eexists _, w1; split; [reflexivity|]; left; eauto].
  rewrite find_all_controls.
  eexists _, w1. split; [reflexivity|]. right. now exists page, form.
Qed.

(** X21.  What the analysis says and when.  A failure of the request is
    reported by its message under the key error; a page without form, or
    an answer without markup, by the message No form found; and for a page
    with a form the report describes the first form of the page. *)
Theorem analysis_report (self : t) (w : World) :
  (forall e w',
      _make_request self "GET" "/login" false [] w = (inl e, w') ->
      analyze_login_form self w
      = (inr (VDict [("error", VStr (exn_str e))]), w'))
  /\ (forall d w',
         _make_request self "GET" "/login" false [] w = (inr (VDict d), w') ->
         dict_get "html" d = None ->
         analyze_login_form self w
         = (inr (VDict [("error", VStr "No form found")]), w'))
  /\ (forall d body page w',
         _make_request self "GET" "/login" false [] w = (inr (VDict d), w') ->
         dict_get "html" d = Some body ->
         BeautifulSoup body = inr page ->
         analyze_login_form self w
         = (inr match Spec.first_form page with
                | Some form =>
                    VDict
                      [("action",
                        VStr (default "" (Bs4.get form "action")));
                       ("method",
                        VStr (default "POST" (Bs4.get form "method")));
                       ("fields",
                        VList (field_info <$> Notions.controls form))]
                | None => VDict [("error", VStr "No form found")]
                end, w')).
Proof.
  split; [|split].
  - intros e w' Hreq. unfold analyze_login_form, try_except, bind.
    now rewrite Hreq.
  - intros d w' Hreq Hd. unfold analyze_login_form, try_except, bind, lift.
    rewrite Hreq. cbn [contains_str]. unfold dict_has. now rewrite Hd.
  - intros d body page w'. apply analysis_of_markup.
Qed.

End Analysis.

(** The login page with a token outside the form: the report lists the four
    inputs of the form. *)
Lemma analysis_report_witness :
  let E := Lab.rich_env (Lab.answer 200 "text/html" "" Lab.not_json) in
  fst (Endpoints.analyze_login_form (H := E) (Fixture.opened E tt)
         Fixture.fresh)
  = inr (VDict
           [("action", VStr "https://sso.schools.by/enter");
            ("method", VStr "POST");
            ("fields",
             VList
               [VDict [("name", VStr "next"); ("type", VStr "hidden");
                       ("value", VStr "/home"); ("required", VBool false)];
                VDict [("name", VStr "_token"); ("type", VStr "hidden");
                       ("value", VStr "inner"); ("required", VBool false)];
                VDict [("name", VStr "mail"); ("type", VStr "email");
                       ("value", VStr ""); ("required", VBool false)];
                VDict [("name", VStr "pwd"); ("type", VStr "password");
                       ("value", VStr ""); ("required", VBool false)]])]).
Proof.
  intros E.
  evar (d : dict). evar (w1 : Fixture.world).
  assert (_make_request (H := E) (Fixture.opened E tt) "GET" "/login"
            false [] Fixture.fresh = (inr (VDict d), w1)) as Hreq
    by (subst d w1; vm_compute; reflexivity).
  rewrite (proj2 (proj2 (analysis_report (H := E) (Fixture.opened E tt)
                           Fixture.fresh))
             d (VStr Lab.rich_html) Lab.rich_page w1 Hreq eq_refl eq_refl).
  vm_compute. reflexivity.
Defined.

(** ** The shape of a verdict *)
Section Shapes.

Context `{Collaborators}.

Lemma classify_shape (c : Client) (r : response) (w w' : World) (v : value) :
  classify c r w = (inr v, w') ->
  w' = w
  /\ exists d,
    v = VDict d
    /\ dict_get "status" d = Some (VInt (status_code r))
    /\ (Notions.success_verdict d \/ Notions.failure_verdict d)
    /\ (Notions.success_verdict d -> status_code r ∈ [200; 302; 303; 307])
    /\ (Notions.success_verdict d ->
        exists jar,
          cookies (connection c) w = inr jar
          /\ dict_get "cookies" d
             = Some (VDict ((fun kv => (kv.1, VStr kv.2)) <$> jar))).
Proof.
  assert (Hsnap : forall (k : value -> value) (v0 : value) (w0 : World),
            (let* cookies := cookie_snapshot c in ret (k cookies)) w
            = (inr v0, w0) ->
            w0 = w
            /\ exists jar,
                 cookies (connection c) w = inr jar
                 /\ v0 = k (VDict ((fun kv => (kv.1, VStr kv.2)) <$> jar))).
  { intros k v0 w0. unfold bind, cookie_snapshot, client_cookies, ret.
    destruct (cookies (connection c) w) as [e|jar]; [discriminate|].
    intros [= <- <-]. split; [reflexivity|]. now exists jar. }
  unfold classify.
  destruct (status_code r =? 200) eqn:E200.
  - apply Z.eqb_eq in E200. unfold bind at 1, lift.
    destruct (BeautifulSoup (VStr (text r))) as [e|page]; [discriminate|].
    destruct (Bs4.find_all page _ _) as [|b bs].
    + intros Hc.
      apply (Hsnap (fun cookies =>
               VDict [("success", VBool true);
                      ("message", VStr "Authentication successful");
                      ("status", VInt (status_code r));
                      ("cookies", cookies)])) in Hc
        as (-> & jar & Hjar & ->).
      split; [reflexivity|]. eexists. split; [reflexivity|].
      split; [reflexivity|]. split; [|split].
      * left. repeat split; eauto.
      * intros _. rewrite E200. apply list_elem_of_here.
      * intros _. now exists jar.
    + unfold ret. intros [= <- <-]. split; [reflexivity|].
      eexists. split; [reflexivity|].
      split; [reflexivity|]. split; [|split].
      * right. split; [reflexivity|]. split; [|reflexivity].
        eexists. cbn. reflexivity.
      * intros (Hs & _). discriminate Hs.
      * intros (Hs & _). discriminate Hs.
  - destruct (bool_decide (status_code r ∈ [302; 303; 307])) eqn:E30x.
    + apply bool_decide_eq_true in E30x.
      destruct (negb _).
      * intros Hc.
        apply (Hsnap (fun cookies =>
                 VDict [("success", VBool true);
                        ("message",
                         VStr "Authentication successful (redirected)");
                        ("status", VInt (status_code r));
                        ("redirect",
                         VStr (default "" (headers_get r "Location")));
                        ("cookies", cookies)])) in Hc
          as (-> & jar & Hjar & ->).
        split; [reflexivity|]. eexists. split; [reflexivity|].
        split; [reflexivity|]. split; [|split].
        -- left. repeat split; eauto.
        -- intros _. now apply list_elem_of_further.
        -- intros _. now exists jar.
      * unfold ret. intros [= <- <-]. split; [reflexivity|].
        eexists. split; [reflexivity|].
        split; [reflexivity|]. split; [|split].
        -- right. split; [reflexivity|]. split; [|reflexivity].
           now exists " (redirected back to login)".
        -- intros (Hs & _). discriminate Hs.
        -- intros (Hs & _). discriminate Hs.
    + unfold ret. intros [= <- <-]. split; [reflexivity|].
      eexists. split; [reflexivity|].
      split; [reflexivity|]. split; [|split].
      * right. split; [reflexivity|]. split; [|reflexivity].
        now exists (": HTTP " +:+ str_int (status_code r)).
      * intros (Hs & _). discriminate Hs.
      * intros (Hs & _). discriminate Hs.
Qed.

(** What [authenticate] returns is a verdict on the answer to the
    submission. *)
Lemma authenticate_classified (self : t) (username password : string)
    (w w' : World) (v : value) :
  authenticate self username password w = (inr v, w') ->
  exists submission c r w1 w2,
    prepare self username password w = (inr submission, w1)
    /\ session_send self "post" submission w1 = (inr (c, r), w2)
    /\ classify c r w2 = (inr v, w').
Proof.
  unfold authenticate, try_except, bind.
  destruct (prepare self username password w) as [[e|submission] w1]
    eqn:Hprep; [discriminate|].
  destruct (session_send self "post" submission w1) as [[e|[c r]] w2]
    eqn:Hsend; [discriminate|].
  cbn [fst snd].
  destruct (classify c r w2) as [[e|v0] w3] eqn:Hc; [discriminate|].
  intros [= <- <-]. now exists submission, c, r, w1, w2.
Qed.

(** X22.  Whatever [authenticate] returns is a mapping that says, under the
    key success, [True] or [False].  With [True] it holds a message and the
    cookies of the session and no error, and the submission was answered
    with 200, 302, 303 or 307; with [False] it holds under the key error a
    reason that starts with the words Authentication failed, and no
    cookies.  In both cases it holds the status of the answer to the
    submission, and the world is the one that this answer left; the
    cookies of a success are the jar of the session in that world, name by
    name. *)
Theorem verdict_shape (self : t) (username password : string)
    (w w' : World) (v : value) :
  authenticate self username password w = (inr v, w') ->
  exists d status,
    v = VDict d
    /\ dict_get "status" d = Some (VInt status)
    /\ (Notions.success_verdict d \/ Notions.failure_verdict d)
    /\ (Notions.success_verdict d -> status ∈ [200; 302; 303; 307])
    /\ exists submission c r w1,
         prepare self username password w = (inr submission, w1)
         /\ session_send self "post" submission w1 = (inr (c, r), w')
         /\ status = status_code r
         /\ (Notions.success_verdict d ->
             exists jar,
               cookies (connection c) w' = inr jar
               /\ dict_get "cookies" d
                  = Some (VDict ((fun kv => (kv.1, VStr kv.2)) <$> jar))).
Proof.
  intros Hauth.
  destruct (authenticate_classified _ _ _ _ _ _ Hauth)
    as (submission & c & r & w1 & w2 & Hprep & Hsend & Hc).
  destruct (classify_shape c r w2 w' v Hc)
    as (-> & d & Hv & Hst & Hsh & Hok & Hjar).
  exists d, (status_code r).
  split; [exact Hv|]. split; [exact Hst|]. split; [exact Hsh|].
  split; [exact Hok|].
  now exists submission, c, r, w1.
Qed.

End Shapes.

(** A submission answered with a page without banner. *)
Lemma verdict_shape_witness :
  let E := Lab.rich_env (Lab.answer 200 "text/html" "" Lab.not_json) in
  exists d status,
    fst (authenticate (H := E) (Fixture.opened E tt) "ann" "pw" Fixture.fresh)
    = inr (VDict d)
    /\ dict_get "status" d = Some (VInt status)
    /\ (Notions.success_verdict d \/ Notions.failure_verdict d)
    /\ (Notions.success_verdict d -> status ∈ [200; 302; 303; 307]).
Proof.
  intros E.
  evar (v : value). evar (w1 : Fixture.world).
  assert (authenticate (H := E) (Fixture.opened E tt) "ann" "pw" Fixture.fresh
          = (inr v, w1)) as Hauth
    by (subst v w1; vm_compute; reflexivity).
  destruct (verdict_shape (H := E) (Fixture.opened E tt) "ann" "pw"
              Fixture.fresh w1 v Hauth)
    as (d & status & Hv & Hst & Hsh & Hok & _).
  exists d, status. rewrite Hauth. cbn [fst]. rewrite Hv.
  split; [reflexivity|]. split; [exact Hst|]. split; [exact Hsh | exact Hok].
Defined.

(** ** Where a token comes from *)
Section Provenance.

Context `{Collaborators}.

Lemma carried_spec (e : Bs4.node) :
  Spec.carried e = if truthy_opt (token_of e) then token_of e else None.
Proof.
  unfold Spec.carried, token_of, or_else.
  destruct (Bs4.get e "value") as [v|]; simpl.
  - destruct (decide (v = "")) as [->|Hv]; simpl.
    + destruct (Bs4.get e "content") as [c|]; [|reflexivity]. simpl.
      destruct (decide (c = "")) as [->|Hc]; [reflexivity|].
      now rewrite (proj2 (truthy_true c) Hc).
    + rewrite (proj2 (truthy_true v) Hv). simpl.
      now rewrite (proj2 (truthy_true v) Hv).
  - destruct (Bs4.get e "content") as [c|]; [|reflexivity]. simpl.
    destruct (decide (c = "")) as [->|Hc]; [reflexivity|].
    now rewrite (proj2 (truthy_true c) Hc).
Qed.

Lemma carried_nonempty (e : Bs4.node) (t : string) :
  Spec.carried e = Some t -> t <> "".
Proof. intros Hc. apply carried_some in Hc as [_ Ht]. now apply truthy_true. Qed.

Lemma scan_csrf_inputs_sound (l : list (option Bs4.node)) (t : string) :
  scan_csrf_inputs l = Some t ->
  exists e, Some e ∈ l /\ Spec.carried e = Some t.
Proof.
  induction l as [|[e|] l IH]; [discriminate| |]; cbn [scan_csrf_inputs].
  - destruct (truthy_opt (token_of e)) eqn:Et.
    + intros Ht. exists e. split; [apply list_elem_of_here|].
      now rewrite carried_spec, Et.
    + intros Ht. destruct (IH Ht) as (e' & Hin & Hc).
      exists e'. split; [now apply list_elem_of_further | exact Hc].
  - intros Ht. destruct (IH Ht) as (e' & Hin & Hc).
    exists e'. split; [now apply list_elem_of_further | exact Hc].
Qed.

Lemma scan_csrf_inputs_complete (l : list (option Bs4.node)) :
  scan_csrf_inputs l = None ->
  forall e, Some e ∈ l -> Spec.carried e = None.
Proof.
  induction l as [|[e|] l IH]; cbn [scan_csrf_inputs]; intros Hs e' Hin.
  - now apply elem_of_nil in Hin.
  - destruct (truthy_opt (token_of e)) eqn:Et.
    + destruct (token_of e); [discriminate | discriminate Et].
    + apply elem_of_cons in Hin as [[= ->]|Hin]; [|now apply IH].
      now rewrite carried_spec, Et.
  - apply elem_of_cons in Hin as [Hin|Hin]; [discriminate | now apply IH].
Qed.

Lemma scan_patterns_sound (patterns : list token_pattern) (content t : string) :
  scan_patterns patterns content = Some t ->
  exists pattern, pattern ∈ patterns /\ re_search pattern content = Some t.
Proof.
  induction patterns as [|p ps IH]; [discriminate|]. cbn [scan_patterns].
  destruct (re_search p content) as [g|] eqn:Eg.
  - intros [= <-]. exists p. split; [apply list_elem_of_here | exact Eg].
  - intros Ht. destruct (IH Ht) as (p' & Hin & Hp).
    exists p'. split; [now apply list_elem_of_further | exact Hp].
Qed.

Lemma scan_token_scripts_origin (scripts : list Bs4.node) (t : string) :
  scan_token_scripts scripts = Some t ->
  exists script content pattern,
    script ∈ scripts
    /\ Bs4.string_of script = Some content
    /\ (Spec.mentions "csrf" content \/ Spec.mentions "token" content)
    /\ pattern ∈ token_patterns
    /\ re_search pattern content = Some t.
Proof.
  induction scripts as [|s l IH]; [discriminate|]. cbn [scan_token_scripts].
  destruct (scan_token_script s) as [g|] eqn:Es.
  - intros [= ->]. unfold scan_token_script in Es.
    destruct (Bs4.string_of s) as [content|] eqn:Ec; [|discriminate].
    destruct (truthy content); [|discriminate].
    destruct (contains "csrf" (lower content)
              || contains "token" (lower content)) eqn:Em; [|discriminate].
    apply scan_patterns_sound in Es as (p & Hp & Hre).
    exists s, content, p. split; [apply list_elem_of_here|].
    split; [exact Ec|]. split; [now apply orb_true_iff|]. now split.
  - intros Ht. destruct (IH Ht) as (s' & c & p & Hin & Hrest).
    exists s', c, p. split; [now apply list_elem_of_further | exact Hrest].
Qed.

Lemma scan_token_scripts_silent (scripts : list Bs4.node) :
  (forall script content,
      script ∈ scripts -> Bs4.string_of script = Some content ->
      ~ Spec.mentions "csrf" content /\ ~ Spec.mentions "token" content) ->
  scan_token_scripts scripts = None.
Proof.
  induction scripts as [|s l IH]; intros Hq; [reflexivity|].
  cbn [scan_token_scripts].
  assert (scan_token_script s = None) as ->.
  { unfold scan_token_script.
    destruct (Bs4.string_of s) as [content|] eqn:Ec; [|reflexivity].
    destruct (truthy content); [|reflexivity].
    destruct (Hq s content (list_elem_of_here _ _) Ec) as [Hc Ht].
    unfold Spec.mentions in Hc, Ht.
    apply not_true_is_false in Hc, Ht. now rewrite Hc, Ht. }
  apply IH. intros s' c Hin. apply Hq. now apply list_elem_of_further.
Qed.

(** A match of a pattern is the token of an assignment: it is not empty
    and holds letters, digits, hyphens and underscores only. *)
Lemma re_search_token (pattern : token_pattern) (content t : string) :
  re_search pattern content = Some t ->
  Spec.leftmost pattern content t
  /\ t <> "" /\ Spec.all_of is_token_char t.
Proof.
  intros Hre. apply re_search_some in Hre. split; [exact Hre|].
  destruct Hre as (before & (m & after & _ & Hm) & _).
  destruct Hm as (word & q & ws1 & sep & ws2 & q1 & q2 & _ & _ & _ & _ & _
                  & _ & _ & Hne & Hg & _).
  now split.
Qed.

(** X23.  A token that [get_csrf_token] returns is never made up and never
    empty: it is the token carried by one of the four elements looked at,
    or, when none of them carries one, the match of one of the two patterns
    in the text of an inline script that mentions csrf or token, that is
    the token of the leftmost assignment of such a token in that text, a
    run of letters, digits, hyphens and underscores.  On a page where none
    of the four elements carries a token and no script mentions csrf or
    token, the answer is [None]. *)
Theorem token_provenance (html : string) (page : Bs4.soup) :
  BeautifulSoup (VStr html) = inr page ->
  (forall t,
      get_csrf_token html = inr (Some t) ->
      t <> ""
      /\ ((exists e, Some e ∈ Spec.token_carriers page
                     /\ Spec.carried e = Some t /\ t <> "")
          \/ ((forall e, Some e ∈ Spec.token_carriers page ->
                         Spec.carried e = None)
              /\ exists script content pattern,
                   script ∈ Spec.scripts page
                   /\ Bs4.string_of script = Some content
                   /\ (Spec.mentions "csrf" content
                       \/ Spec.mentions "token" content)
                   /\ pattern ∈ token_patterns
                   /\ re_search pattern content = Some t
                   /\ Spec.leftmost pattern content t
                   /\ Spec.all_of is_token_char t)))
  /\ ((forall e, Some e ∈ Spec.token_carriers page -> Spec.carried e = None) ->
      (forall script content,
          script ∈ Spec.scripts page ->
          Bs4.string_of script = Some content ->
          ~ Spec.mentions "csrf" content /\ ~ Spec.mentions "token" content) ->
      get_csrf_token html = inr None).
Proof.
  intros Hpage. unfold get_csrf_token, rbind. rewrite Hpage.
  unfold csrf_token_in. rewrite csrf_inputs_spec, find_all_any.
  fold (Spec.scripts page). split.
  - intros t.
    destruct (scan_csrf_inputs (Spec.token_carriers page)) as [t0|] eqn:Es.
    + intros [= ->].
      apply scan_csrf_inputs_sound in Es as (e & Hin & Hc).
      pose proof (carried_nonempty _ _ Hc) as Hne.
      split; [exact Hne|]. left. now exists e.
    + intros [= Ht].
      apply scan_token_scripts_origin in Ht
        as (script & content & pattern & Hin & Hstr & Hm & Hp & Hre).
      destruct (re_search_token _ _ _ Hre) as (Hleft & Hne & Hchars).
      split; [exact Hne|]. right. split.
      * now apply scan_csrf_inputs_complete.
      * exists script, content, pattern. repeat split; assumption.
  - intros Hnone Hquiet.
    rewrite (scan_csrf_inputs_none _ Hnone).
    now rewrite (scan_token_scripts_silent _ Hquiet).
Qed.

End Provenance.

(** A page whose token is in a script: it is the match of the first
    pattern in the text of that script. *)
Lemma token_provenance_witness :
  let E := Fixture.page_env Fixture.token_script_html in
  let page := Fixture.document [Fixture.script Fixture.token_script] in
  get_csrf_token (H := E) Fixture.token_script_html = inr (Some "js-77")
  /\ "js-77" <> ""
  /\ exists script content pattern,
       script ∈ Spec.scripts page
       /\ Bs4.string_of script = Some content
       /\ pattern ∈ token_patterns
       /\ re_search pattern content = Some "js-77"
       /\ Spec.leftmost pattern content "js-77".
Proof.
  intros E page. split; [reflexivity|].
  destruct (proj1 (token_provenance (H := E) Fixture.token_script_html page
                     eq_refl) "js-77" eq_refl)
    as (Hne & [(e & Hin & _)|(_ & script & content & pattern & Hin & Hstr
                              & _ & Hp & Hre & Hleft & _)]).
  - exfalso. apply list_elem_of_In in Hin. vm_compute in Hin.
    intuition discriminate.
  - split; [exact Hne|]. now exists script, content, pattern.
Defined.

(** The page with a token outside the form: the token is that of the first
    carrier. *)
Example token_of_first_carrier :
  let E := Lab.rich_env (Lab.answer 200 "text/html" "" Lab.not_json) in
  get_csrf_token (H := E) Lab.rich_html = inr (Some "outer")
  /\ Spec.carried (Fixture.input "hidden" "csrfmiddlewaretoken" "outer")
     = Some "outer".
Proof. split; reflexivity. Qed.

(** ** The sessions that the bot keeps *)
Section Kept.

Context `{Bot.Surroundings}.

Import Endpoints Bot Life.

(** Steps of a computation, read backwards. *)
Lemma bind_inv {S A B : Type} (c : M S A) (k : A -> M S B) (s s' : S)
    (r : result B) :
  bind c k s = (r, s') ->
  (exists e, c s = (inl e, s') /\ r = inl e)
  \/ (exists a s1, c s = (inr a, s1) /\ k a s1 = (r, s')).
Proof.
  unfold bind. destruct (c s) as [[e|a] s1].
  - intros [= <- <-]. left. now exists e.
  - intros Hk. right. now exists a, s1.
Qed.

Lemma try_except_inv {S A : Type} (c handler_ok : M S A)
    (handler : exn -> M S A) (s s' : S) (r : result A) :
  try_except any_exception c handler s = (r, s') ->
  (exists a, c s = (inr a, s') /\ r = inr a)
  \/ (exists e s1, c s = (inl e, s1) /\ handler e s1 = (r, s')).
Proof.
  unfold try_except, any_exception. destruct (c s) as [[e|a] s1].
  - intros Hh. right. now exists e, s1.
  - intros [= <- <-]. left. now exists a.
Qed.

(** What Telegram is asked leaves the sessions, the data of the users and
    the site as they are. *)
Lemma reply_frame (update : update) (text : string)
    (reply_markup : option keyboard) (parse_mode : option string)
    (st st' : state) (r : result unit) :
  reply update text reply_markup parse_mode st = (r, st') ->
  user_sessions st' = user_sessions st
  /\ user_data st' = user_data st /\ web st' = web st.
Proof.
  unfold reply, in_chat, raise.
  destruct (update_message update) as [m|]; [|now intros [= _ <-]].
  destruct (reply_text m text reply_markup parse_mode (chat st)) as [r0 c].
  now intros [= _ <-].
Qed.

Lemma delete_frame (update : update) (st st' : state) (r : result unit) :
  try_except any_exception (delete_message update) (fun _ => ret tt) st
  = (r, st') ->
  r = inr tt
  /\ user_sessions st' = user_sessions st
  /\ user_data st' = user_data st /\ web st' = web st.
Proof.
  unfold try_except, delete_message, in_chat, raise, ret, any_exception.
  destruct (update_message update) as [m|]; [|now intros [= <- <-]].
  destruct (message_delete m (chat st)) as [[e|[]] c]; now intros [= <- <-].
Qed.

Lemma stripped_text_inv (update : update) (st st' : state)
    (r : result string) :
  stripped_text update st = (r, st') ->
  st' = st
  /\ forall s, r = inr s ->
               exists m text, update_message update = Some m
                              /\ message_text m = Some text
                              /\ s = strip text.
Proof.
  unfold stripped_text, raise, ret.
  destruct (update_message update) as [m|];
    [|intros [= <- <-]; split; [reflexivity | discriminate]].
  destruct (message_text m) as [text|] eqn:Htext;
    intros [= <- <-]; (split; [reflexivity|]); [|discriminate].
  intros s [= <-]. now exists m, text.
Qed.

(** The session of the client is opened on the site as it is, and what the
    body has done to the sessions and to the data of the users stays. *)
Lemma with_api_inv {A : Type} (body : t -> M state A) (st st' : state)
    (r : result A) :
  with_api body st = (r, st') ->
  exists api w1 r0 st2,
    __aenter__ (__init__ "https://schools.by") (web st) = (api, w1)
    /\ body api {| user_sessions := user_sessions st;
                   user_data := user_data st; web := w1; chat := chat st |}
       = (r0, st2)
    /\ user_sessions st' = user_sessions st2
    /\ user_data st' = user_data st2
    /\ (r = r0 \/ exists e, r = inl e).
Proof.
  unfold with_api.
  destruct (__aenter__ (__init__ "https://schools.by") (web st)) as [api w1].
  destruct (body api _) as [r0 st2] eqn:Hbody.
  unfold in_web. destruct (__aexit__ api (web st2)) as [[e|[]] w3].
  - intros [= <- <-]. exists api, w1, r0, st2. repeat split; eauto.
  - intros [= <- <-]. exists api, w1, r0, st2. repeat split; eauto.
Qed.

(** An attempt keeps a session only for a verdict that is not refused. *)
Lemma attempt_inv (update : update) (username : option value)
    (password : string) (api : t) (st1 st2 : state)
    (r : result (option value)) :
  attempt update username password api st1 = (r, st2) ->
  user_data st2 = user_data st1
  /\ ((user_sessions st2 = user_sessions st1
       /\ forall v, r <> inr (Some v))
      \/ exists v w2,
           authenticate_as api username password (web st1) = (inr v, w2)
           /\ refused v = false
           /\ r = inr (Some v)
           /\ user_sessions st2
              = <[effective_user_id update := new_session username v]>
                  (user_sessions st1)).
Proof.
  unfold attempt. intros Hb.
  apply bind_inv in Hb as [(e & Ha & ->)|(v & s1 & Ha & Hb)];
    unfold in_web in Ha;
    destruct (authenticate_as api username password (web st1))
      as [r0 w2] eqn:Hauth; injection Ha as -> <-.
  - split; [reflexivity|]. left. split; [reflexivity | discriminate].
  - destruct (refused v) eqn:Hrefused.
    + apply bind_inv in Hb as [(e & Hm & ->)|(d & s2 & Hm & Hb)];
        unfold lift in Hm; injection Hm as Hm <-.
      * split; [reflexivity|]. left. split; [reflexivity | discriminate].
      * apply bind_inv in Hb as [(e & Hr & ->)|([] & s3 & Hr & Hb)];
          apply reply_frame in Hr as (Hs & Hd & _).
        -- split; [exact Hd|]. left. split; [exact Hs | discriminate].
        -- injection Hb as <- <-.
           split; [exact Hd|]. left. split; [exact Hs | discriminate].
    + cbn in Hb. injection Hb as <- <-. cbn [user_data user_sessions].
      split; [reflexivity|]. right. exists v, w2. now repeat split.
Qed.

(** The attempt and what follows it, when what follows only talks to
    Telegram. *)
Lemma attempt_then_inv (update : update) (username : option value)
    (password : string) (k : option value -> M state unit)
    (st st' : state) (r : result unit) :
  (forall o s1 s2 r', k o s1 = (r', s2) ->
                      user_sessions s2 = user_sessions s1
                      /\ user_data s2 = user_data s1) ->
  bind (with_api (attempt update username password)) k st = (r, st') ->
  user_data st' = user_data st
  /\ (user_sessions st' = user_sessions st
      \/ exists api w1 v w2,
           __aenter__ (__init__ "https://schools.by") (web st) = (api, w1)
           /\ authenticate_as api username password w1 = (inr v, w2)
           /\ refused v = false
           /\ user_sessions st'
              = <[effective_user_id update := new_session username v]>
                  (user_sessions st)).
Proof.
  intros Hk Hb.
  assert (forall (ro : result (option value)) s1,
             with_api (attempt update username password) st = (ro, s1) ->
             user_data s1 = user_data st
             /\ (user_sessions s1 = user_sessions st
                 \/ exists api w1 v w2,
                      __aenter__ (__init__ "https://schools.by") (web st)
                        = (api, w1)
                      /\ authenticate_as api username password w1
                         = (inr v, w2)
                      /\ refused v = false
                      /\ user_sessions s1
                         = <[effective_user_id update :=
                               new_session username v]>
                             (user_sessions st))) as Hwith.
  { intros ro s1 Hw.
    apply with_api_inv in Hw
      as (api & w1 & r0 & s2 & Hopen & Hbody & Hs & Hd & _).
    apply attempt_inv in Hbody as (Hd2 & Hcases). cbn in Hd2, Hcases.
    split; [congruence|].
    destruct Hcases as [[Hsame _]|(v & w2 & Hauth & Hrf & _ & Hst)].
    - left. congruence.
    - right. exists api, w1, v, w2. repeat split; try assumption.
      congruence. }
  apply bind_inv in Hb as [(e & Hw & ->)|(o & s1 & Hw & Hb)].
  - now apply Hwith in Hw.
  - apply Hwith in Hw as (Hd & Hcases). apply Hk in Hb as (Hs2 & Hd2).
    split; [congruence|].
    destruct Hcases as [Hsame|(api & w1 & v & w2 & Hopen & Hauth & Hrf & Hst)].
    + left. congruence.
    + right. exists api, w1, v, w2. repeat split; try assumption.
      congruence.
Qed.

(** What [handle_password] does to the sessions, whatever Telegram and the
    site do. *)
Lemma handle_password_inv (update : update) (st st' : state)
    (r : result Z) :
  handle_password update st = (r, st') ->
  user_data st' = user_data st
  /\ (forall z, r = inr z -> z = END)
  /\ (user_sessions st' = user_sessions st
      \/ exists m text api w1 v w2,
           update_message update = Some m
           /\ message_text m = Some text
           /\ __aenter__ (__init__ "https://schools.by") (web st) = (api, w1)
           /\ authenticate_as api
                (dict_get "username" (context_user_data update st))
                (strip text) w1 = (inr v, w2)
           /\ refused v = false
           /\ user_sessions st'
              = <[effective_user_id update :=
                    new_session
                      (dict_get "username" (context_user_data update st)) v]>
                  (user_sessions st)).
Proof.
  unfold handle_password. intros Hb.
  apply bind_inv in Hb as [(e & Ht & ->)|(password & s0 & Ht & Hb)];
    apply stripped_text_inv in Ht as [-> Htext].
  { split; [reflexivity|]. split; [discriminate | now left]. }
  destruct (Htext _ eq_refl) as (m & text & Hm & Hmt & ->). clear Htext.
  apply bind_inv in Hb as [(e & Hu & ->)|(username & s1 & Hu & Hb)];
    [discriminate Hu | injection Hu as <- <-].
  apply bind_inv in Hb as [(e & Hd & ->)|([] & s2 & Hd & Hb)];
    apply delete_frame in Hd as (Hr & Hs2 & Hd2 & Hw2); [discriminate Hr|].
  apply bind_inv in Hb as [(e & Hr1 & ->)|([] & s3 & Hr1 & Hb)];
    apply reply_frame in Hr1 as (Hs3 & Hd3 & Hw3).
  { split; [congruence|]. split; [discriminate | left; congruence]. }
  set (username := dict_get "username" (context_user_data update st)) in *.
  match type of Hb with
  | context [try_except any_exception ?c ?h] =>
      set (block := try_except any_exception c h) in Hb
  end.
  assert (forall (r4 : result unit) s4,
             block s3 = (r4, s4) ->
             user_data s4 = user_data s3
             /\ (user_sessions s4 = user_sessions s3
                 \/ exists api w1 v w2,
                      __aenter__ (__init__ "https://schools.by") (web s3)
                        = (api, w1)
                      /\ authenticate_as api username (strip text) w1
                         = (inr v, w2)
                      /\ refused v = false
                      /\ user_sessions s4
                         = <[effective_user_id update :=
                               new_session username v]>
                             (user_sessions s3))) as Hblock.
  { intros r4 s4 Htry. subst block.
    unfold try_except, any_exception in Htry.
    match type of Htry with
    | context [bind ?c ?k s3] =>
        assert (forall o sa sb (r' : result unit),
                   k o sa = (r', sb) ->
                   user_sessions sb = user_sessions sa
                   /\ user_data sb = user_data sa) as Hk;
        [|destruct (bind c k s3) as [[e|[]] sx] eqn:Hbody]
    end.
    - intros [auth_result|] sa sb r' Hk.
      + apply bind_inv in Hk as [(e & Hm' & ->)|(d & sc & Hm' & Hk)];
          unfold lift in Hm'; injection Hm' as _ <-; [now split|].
        apply reply_frame in Hk as (? & ? & _). now split.
      + injection Hk as _ <-. now split.
    - apply (attempt_then_inv _ _ _ _ _ _ _ Hk) in Hbody as (Hdx & Hcx).
      assert (user_sessions s4 = user_sessions sx
              /\ user_data s4 = user_data sx) as (Hs4 & Hd4).
      { destruct (is_SchoolsAPIError e);
          apply reply_frame in Htry as (? & ? & _); now split. }
      split; [congruence|].
      destruct Hcx as [Hsame|(api & w1 & v & w2 & Ho & Ha & Hrf & Hst)].
      + left. congruence.
      + right. exists api, w1, v, w2. repeat split; try assumption.
        congruence.
    - injection Htry as <- <-.
      now apply (attempt_then_inv _ _ _ _ _ _ _ Hk) in Hbody. }
  assert (user_data st' = user_data s3
          /\ (user_sessions st' = user_sessions s3
              \/ exists api w1 v w2,
                   __aenter__ (__init__ "https://schools.by") (web s3)
                     = (api, w1)
                   /\ authenticate_as api username (strip text) w1
                      = (inr v, w2)
                   /\ refused v = false
                   /\ user_sessions st'
                      = <[effective_user_id update := new_session username v]>
                          (user_sessions s3))) as (Hdata & Hsess).
  { apply bind_inv in Hb as [(e & Htry & ->)|([] & s4 & Htry & Hb)].
    - now apply Hblock in Htry.
    - injection Hb as _ <-. now apply Hblock in Htry. }
  split; [congruence|]. split.
  - intros z ->.
    apply bind_inv in Hb as [(e & _ & [=])|([] & s4 & _ & Hb)].
    now injection Hb as <- _.
  - destruct Hsess as [Hsame|(api & w1 & v & w2 & Ho & Ha & Hrf & Hst)].
    + left. congruence.
    + right. exists m, text, api, w1, v, w2.
      rewrite Hw3, Hw2 in Ho. rewrite Hs3, Hs2 in Hst. now repeat split.
Qed.

Lemma handle_login_inv (update : update) (st st' : state) (r : result Z) :
  handle_login update st = (r, st') ->
  user_sessions st' = user_sessions st
  /\ web st' = web st
  /\ forall z, r = inr z ->
       z = WAITING_PASSWORD
       /\ exists m text,
            update_message update = Some m
            /\ message_text m = Some text
            /\ user_data st'
               = <[effective_user_id update :=
                     dict_set "username" (VStr (strip text))
                              (context_user_data update st)]> (user_data st).
Proof.
  unfold handle_login. intros Hb.
  apply bind_inv in Hb as [(e & Ht & ->)|(username & s0 & Ht & Hb)];
    apply stripped_text_inv in Ht as [-> Htext].
  { split; [reflexivity|]. split; [reflexivity | discriminate]. }
  destruct (Htext _ eq_refl) as (m & text & Hm & Hmt & ->). clear Htext.
  apply bind_inv in Hb as [(e & Hu & ->)|([] & s1 & Hu & Hb)];
    [discriminate Hu | injection Hu as <-].
  apply bind_inv in Hb as [(e & Hr & ->)|([] & s2 & Hr & Hb)];
    apply reply_frame in Hr as (Hs & Hd & Hw); cbn in Hs, Hd, Hw.
  { split; [exact Hs|]. split; [exact Hw | discriminate]. }
  injection Hb as <- <-. split; [exact Hs|]. split; [exact Hw|].
  intros z [= <-]. split; [reflexivity|]. now exists m, text.
Qed.

Lemma login_command_frame (update : update) (st st' : state)
    (r : result Z) :
  login_command update st = (r, st') ->
  user_sessions st' = user_sessions st.
Proof.
  unfold login_command.
  destruct (user_sessions st !! effective_user_id update); intros Hb;
    apply bind_inv in Hb as [(e & Hr & ->)|([] & s1 & Hr & Hb)];
    apply reply_frame in Hr as (Hs & _); try exact Hs;
    now injection Hb as _ <-.
Qed.

Lemma cancel_command_frame (update : update) (st st' : state)
    (r : result Z) :
  cancel_command update st = (r, st') ->
  user_sessions st' = user_sessions st.
Proof.
  unfold cancel_command. intros Hb.
  apply bind_inv in Hb as [(e & Hr & ->)|([] & s1 & Hr & Hb)];
    apply reply_frame in Hr as (Hs & _); try exact Hs;
    now injection Hb as _ <-.
Qed.

Lemma logout_command_inv (update : update) (st st' : state)
    (r : result unit) :
  logout_command update st = (r, st') ->
  user_sessions st' = delete (effective_user_id update) (user_sessions st)
  /\ user_data st' = user_data st /\ web st' = web st.
Proof.
  unfold logout_command.
  destruct (user_sessions st !! effective_user_id update) eqn:Hu; intros Hb.
  - apply bind_inv in Hb as [(e & Hd & ->)|([] & s1 & Hd & Hb)];
      [discriminate Hd | injection Hd as <-].
    now apply reply_frame in Hb.
  - apply reply_frame in Hb as (Hs & Hd & Hw).
    rewrite (delete_id _ _ Hu). now repeat split.
Qed.

Lemma show_schedule_frame (update : update) (api : t) (st st' : state)
    (r : result unit) :
  show_schedule update api st = (r, st') ->
  user_sessions st' = user_sessions st /\ user_data st' = user_data st.
Proof.
  unfold show_schedule. intros Hb.
  apply bind_inv in Hb as [(e & Hg & ->)|(schedule & s1 & Hg & Hb)];
    unfold in_web in Hg;
    destruct (get_schedule api None (web st)) as [r0 w1];
    injection Hg as -> <-; [now split|].
  apply bind_inv in Hb as [(e & Hx & ->)|(text & s2 & Hx & Hb)].
  - destruct (structured schedule); [discriminate Hx|].
    unfold bind, session_of, ret in Hx. cbn in Hx.
    destruct (user_sessions st !! effective_user_id update);
      [discriminate Hx | now injection Hx as _ <-].
  - assert (user_sessions s2 = user_sessions st
            /\ user_data s2 = user_data st) as (Hs & Hd).
    { destruct (structured schedule); [now injection Hx as _ <-|].
      unfold bind, session_of, ret in Hx. cbn in Hx.
      destruct (user_sessions st !! effective_user_id update);
        [now injection Hx as _ <- | discriminate Hx]. }
    apply reply_frame in Hb as (? & ? & _). split; congruence.
Qed.

Lemma schedule_command_inv (update : update) (st st' : state)
    (r : result unit) :
  schedule_command update st = (r, st') ->
  user_sessions st' = user_sessions st
  /\ user_data st' = user_data st
  /\ (truth (_check_authentication (user_sessions st)
                                   (effective_user_id update)) = false ->
      web st' = web st).
Proof.
  unfold schedule_command.
  destruct (truth (_check_authentication _ _)); cbn [negb].
  - intros Htry. enough (user_sessions st' = user_sessions st
                         /\ user_data st' = user_data st) as [? ?]
      by (repeat split; [assumption..|discriminate]).
    unfold try_except, any_exception in Htry.
    match type of Htry with
    | context [bind ?c ?k st] => destruct (bind c k st) as [[e|[]] sx] eqn:Hbody
    end.
    + assert (user_sessions sx = user_sessions st
              /\ user_data sx = user_data st) as (Hs & Hd).
      { apply bind_inv in Hbody as [(e' & Hr & _)|([] & s1 & Hr & Hbody)];
          apply reply_frame in Hr as (Hs1 & Hd1 & _); [now split|].
        apply with_api_inv in Hbody
          as (api & w1 & r0 & s2 & _ & Hshow & Hs2 & Hd2 & _).
        apply show_schedule_frame in Hshow as (? & ?). cbn in *.
        split; congruence. }
      apply reply_frame in Htry as (? & ? & _). split; congruence.
    + injection Htry as _ <-.
      apply bind_inv in Hbody as [(e' & Hr & [=])|([] & s1 & Hr & Hbody)].
      apply reply_frame in Hr as (Hs1 & Hd1 & _).
      apply with_api_inv in Hbody
        as (api & w1 & r0 & s2 & _ & Hshow & Hs2 & Hd2 & _).
      apply show_schedule_frame in Hshow as (? & ?). cbn in *.
      split; congruence.
  - intros Hr. apply reply_frame in Hr as (? & ? & ?). now repeat split.
Qed.

Lemma in_chat_frame {A : Type} (c : M Chat A) (st st' : state)
    (r : result A) :
  in_chat c st = (r, st') ->
  user_sessions st' = user_sessions st
  /\ user_data st' = user_data st /\ web st' = web st.
Proof.
  unfold in_chat. destruct (c (chat st)) as [r0 c']. now intros [= _ <-].
Qed.

(** The commands that show sample data: two or three messages and
    nothing else. *)
Lemma sample_command_frame (update : update) (sample : string -> string)
    (guard progress failure : string) (st st' : state) (r : result unit) :
  (if negb (truth (_check_authentication (user_sessions st)
                                         (effective_user_id update)))
   then reply update guard None None st
   else
     try_except any_exception
       (let* _ := reply update progress None None in
        let* session := session_of (effective_user_id update) in
        reply update (sample (get_str session "username" "Пользователь"))
          None (Some "Markdown"))
       (fun e => reply update failure None None) st) = (r, st') ->
  user_sessions st' = user_sessions st
  /\ user_data st' = user_data st /\ web st' = web st.
Proof.
  destruct (truth (_check_authentication _ _)); cbn [negb];
    [|intros Hr; now apply reply_frame in Hr].
  unfold try_except, any_exception.
  match goal with
  | |- context [bind ?c ?k st] =>
      destruct (bind c k st) as [[e|[]] sx] eqn:Hbody
  end.
  - assert (user_sessions sx = user_sessions st
            /\ user_data sx = user_data st /\ web sx = web st)
      as (Hs & Hd & Hw).
    { apply bind_inv in Hbody as [(e' & Hr & _)|([] & s1 & Hr & Hbody)];
        apply reply_frame in Hr as (Hs1 & Hd1 & Hw1); [now repeat split|].
      apply bind_inv in Hbody as [(e' & Hy & _)|(session & s2 & Hy & Hbody)];
        unfold session_of in Hy;
        destruct (user_sessions s1 !! effective_user_id update);
        try discriminate Hy.
      - injection Hy as _ <-. now repeat split.
      - injection Hy as _ <-.
        apply reply_frame in Hbody as (? & ? & ?).
        repeat split; congruence. }
    intros Hr. apply reply_frame in Hr as (? & ? & ?).
    repeat split; congruence.
  - intros [= _ <-].
    apply bind_inv in Hbody as [(e' & Hr & [=])|([] & s1 & Hr & Hbody)].
    apply reply_frame in Hr as (Hs1 & Hd1 & Hw1).
    apply bind_inv in Hbody as [(e' & Hy & [=])|(session & s2 & Hy & Hbody)].
    unfold session_of in Hy.
    destruct (user_sessions s1 !! effective_user_id update);
      [|discriminate Hy].
    injection Hy as _ <-.
    apply reply_frame in Hbody as (? & ? & ?). repeat split; congruence.
Qed.

Lemma grades_command_frame (update : update) (st st' : state)
    (r : result unit) :
  grades_command update st = (r, st') ->
  user_sessions st' = user_sessions st
  /\ user_data st' = user_data st /\ web st' = web st.
Proof. apply (sample_command_frame update sample_grades). Qed.

Lemma homework_command_frame (update : update) (st st' : state)
    (r : result unit) :
  homework_command update st = (r, st') ->
  user_sessions st' = user_sessions st
  /\ user_data st' = user_data st /\ web st' = web st.
Proof. apply (sample_command_frame update sample_homework). Qed.

Lemma handle_callback_frame (update : update) (st st' : state)
    (r : result unit) :
  handle_callback update st = (r, st') ->
  user_sessions st' = user_sessions st /\ user_data st' = user_data st.
Proof.
  unfold handle_callback.
  destruct (update_callback_query update) as [query|];
    [|now intros [= _ <-]].
  intros Hb.
  apply bind_inv in Hb as [(e & Ha & ->)|([] & s1 & Ha & Hb)];
    apply in_chat_frame in Ha as (Hs1 & Hd1 & _); [now split|].
  enough (user_sessions st' = user_sessions s1
          /\ user_data st' = user_data s1) as [? ?] by (split; congruence).
  destruct (is_data (query_data query) "login").
  { destruct (query_message query) as [m|]; [|now injection Hb as _ <-].
    apply in_chat_frame in Hb as (? & ? & _). now split. }
  destruct (is_data (query_data query) "help").
  { apply reply_frame in Hb as (? & ? & _). now split. }
  destruct (is_data (query_data query) "schedule").
  { apply schedule_command_inv in Hb as (? & ? & _). now split. }
  destruct (is_data (query_data query) "grades").
  { apply grades_command_frame in Hb as (? & ? & _). now split. }
  destruct (is_data (query_data query) "homework").
  { apply homework_command_frame in Hb as (? & ? & _). now split. }
  now injection Hb as _ <-.
Qed.

Lemma new_session_well_kept (username : option value) (v : value) :
  dict_get "authenticated" (new_session username v) = Some (VBool true)
  /\ is_Some (dict_get "username" (new_session username v))
  /\ is_Some (dict_get "auth_data" (new_session username v)).
Proof. repeat split; cbn; eauto. Qed.

Lemma run_well_kept (h : handler) (update : update) (st : state) :
  well_kept (user_sessions st) -> well_kept (user_sessions (run h update st)).
Proof.
  intros Hst. destruct h; unfold run.
  - destruct (help_command update st) as [r st'] eqn:Hh.
    apply reply_frame in Hh as (Hs & _). cbn [snd]. now rewrite Hs.
  - destruct (login_command update st) as [r st'] eqn:Hh.
    apply login_command_frame in Hh. cbn [snd]. now rewrite Hh.
  - destruct (handle_login update st) as [r st'] eqn:Hh.
    apply handle_login_inv in Hh as (Hs & _). cbn [snd]. now rewrite Hs.
  - destruct (handle_password update st) as [r st'] eqn:Hh.
    apply handle_password_inv in Hh as (_ & _ & Hcases). cbn [snd].
    destruct Hcases as [->|(m & text & api & w1 & v & w2 & _ & _ & _ & _ & _
                             & ->)]; [exact Hst|].
    intros user_id session Hl.
    apply lookup_insert_Some in Hl as [[_ <-]|[_ Hl]];
      [apply new_session_well_kept | exact (Hst _ _ Hl)].
  - destruct (cancel_command update st) as [r st'] eqn:Hh.
    apply cancel_command_frame in Hh. cbn [snd]. now rewrite Hh.
  - destruct (schedule_command update st) as [r st'] eqn:Hh.
    apply schedule_command_inv in Hh as (Hs & _). cbn [snd]. now rewrite Hs.
  - destruct (grades_command update st) as [r st'] eqn:Hh.
    apply grades_command_frame in Hh as (Hs & _). cbn [snd]. now rewrite Hs.
  - destruct (homework_command update st) as [r st'] eqn:Hh.
    apply homework_command_frame in Hh as (Hs & _). cbn [snd].
    now rewrite Hs.
  - destruct (logout_command update st) as [r st'] eqn:Hh.
    apply logout_command_inv in Hh as (Hs & _). cbn [snd]. rewrite Hs.
    intros user_id session Hl.
    apply lookup_delete_Some in Hl as [_ Hl]. exact (Hst _ _ Hl).
  - destruct (handle_callback update st) as [r st'] eqn:Hh.
    apply handle_callback_frame in Hh as (Hs & _). cbn [snd]. now rewrite Hs.
Qed.




(** X25.  Whatever updates come in and whichever handlers the dispatcher
    calls for them, buttons included, every session that the bot keeps says that its user is
    authenticated and holds a username and a verdict.  So
    [_check_authentication] is true for the users that have a session and
    [None] for the others, and [_get_user_credentials] gives the username
    and the verdict of the session of a user, and [None] without one. *)
Theorem sessions_well_kept (events : list (handler * update)) (st : state) :
  well_kept (user_sessions st) ->
  let sessions := user_sessions (after events st) in
  well_kept sessions
  /\ forall user_id,
       match sessions !! user_id with
       | Some session =>
           _check_authentication sessions user_id = VBool true
           /\ exists username verdict,
                dict_get "username" session = Some username
                /\ dict_get "auth_data" session = Some verdict
                /\ _get_user_credentials sessions user_id
                   = Some (username, verdict)
       | None =>
           _check_authentication sessions user_id = VNone
           /\ _get_user_credentials sessions user_id = None
       end.
Proof.
  intros Hst sessions.
  assert (well_kept sessions) as Hkept.
  { subst sessions. revert st Hst.
    induction events as [|[h update] events IH]; intros st Hst; [exact Hst|].
    cbn [after fold_left]. apply IH. now apply run_well_kept. }
  split; [exact Hkept|]. intros user_id.
  unfold _check_authentication, _get_user_credentials.
  destruct (sessions !! user_id) as [session|] eqn:Hl; [|now split].
  destruct (Hkept _ _ Hl) as (Hauth & [u Hu] & [v Hv]).
  destruct session as [|entry session]; [discriminate Hauth|].
  cbn [truth]. rewrite Hauth, Hu, Hv. cbn. split; [reflexivity|].
  now exists u, v.
Qed.

(** X26.  [/logout] removes the session of the sender and nothing else,
    also when Telegram refuses the confirmation: the sessions of the other
    users, what [context.user_data] holds (the username typed at the last
    login among it) and the site are as before, and from then on
    [_check_authentication] answers [None] for the sender. *)
Theorem logout_clears (update : update) (st st' : state) (r : result unit) :
  logout_command update st = (r, st') ->
  let user := effective_user_id update in
  user_sessions st' !! user = None
  /\ (forall other, other <> user ->
                    user_sessions st' !! other = user_sessions st !! other)
  /\ user_data st' = user_data st
  /\ web st' = web st
  /\ _check_authentication (user_sessions st') user = VNone.
Proof.
  intros Hout user. subst user.
  apply logout_command_inv in Hout as (Hs & Hd & Hw).
  assert (user_sessions st' !! effective_user_id update = None) as Hgone
    by (rewrite Hs; apply lookup_delete_eq).
  split; [exact Hgone|]. split.
  - intros other Hne. rewrite Hs. now apply lookup_delete_ne.
  - split; [exact Hd|]. split; [exact Hw|].
    unfold _check_authentication.
    destruct (user_sessions st' !! effective_user_id update);
      [discriminate Hgone | reflexivity].
Qed.

(** Telegram accepting the messages, a reply to an update that has a
    message goes through. *)
Lemma reply_accepted (update : update) (m : message) (text : string)
    (reply_markup : option keyboard) (parse_mode : option string)
    (st : state) :
  chat_accepts -> update_message update = Some m ->
  exists st', reply update text reply_markup parse_mode st = (inr tt, st').
Proof.
  intros Hok Hm. unfold reply, in_chat. rewrite Hm.
  specialize (Hok m text reply_markup parse_mode (chat st)).
  destruct (reply_text m text reply_markup parse_mode (chat st)) as [r0 c].
  cbn in Hok. subst r0. eauto.
Qed.

(** X27.  [/schedule] never touches the sessions nor [context.user_data].
    For a user that [_check_authentication] does not let in, nothing is
    asked of the site.  And when Telegram accepts the messages, the
    handler of an update that has a message returns: whatever goes wrong
    on the side of the site ends in a message to the user. *)
Theorem schedule_guarded (update : update) (st st' : state)
    (r : result unit) :
  schedule_command update st = (r, st') ->
  user_sessions st' = user_sessions st
  /\ user_data st' = user_data st
  /\ (truth (_check_authentication (user_sessions st)
                                   (effective_user_id update)) = false ->
      web st' = web st)
  /\ (chat_accepts -> is_Some (update_message update) -> r = inr tt).
Proof.
  intros Hrun.
  destruct (schedule_command_inv _ _ _ _ Hrun) as (Hs & Hd & Hw).
  split; [exact Hs|]. split; [exact Hd|]. split; [exact Hw|].
  intros Hok [m Hm]. revert Hrun. unfold schedule_command.
  destruct (truth (_check_authentication _ _)); cbn [negb].
  - unfold try_except, any_exception.
    match goal with
    | |- context [bind ?c ?k st] => destruct (bind c k st) as [[e|[]] sx]
    end.
    + destruct (reply_accepted update m "❌ Ошибка при получении расписания."
                  None None sx Hok Hm) as [s' ->].
      now intros [= <- _].
    + now intros [= <- _].
  - destruct (reply_accepted update m
                ("🔐 Для просмотра расписания необходимо войти в систему."
                 +:+ nl +:+ "Используйте команду /login")
                None None st Hok Hm) as [s' ->].
    now intros [= <- _].
Qed.

(** Without [update.message] the three commands behind the buttons stop
    at their first message, the guarded ones also when the user is let in:
    the message of the failure is refused as the first one was. *)
Lemma commands_without_message (update : update) (st : state) :
  update_message update = None ->
  let failure :=
    (inl (Exn AttributeError
            "'NoneType' object has no attribute 'reply_text'"), st) in
  help_command update st = failure
  /\ schedule_command update st = failure
  /\ grades_command update st = failure
  /\ homework_command update st = failure.
Proof.
  intros Hm failure. subst failure.
  unfold help_command, schedule_command, grades_command, homework_command,
    try_except, any_exception, bind, reply.
  rewrite Hm. unfold raise.
  destruct (truth (_check_authentication _ _)); now repeat split.
Qed.

(** X28.  The buttons under the messages of the bot.  Telegram delivers a
    pressed button as an update that has a callback query and no message
    of its own.  On such an update, once the query is answered, the
    buttons help, schedule, grades and homework end in an attribute error
    on [None]: nothing is sent to the user, nothing is asked of the site,
    and no session changes, whether the user has logged in or not.  The
    button login answers through the message that bore the button, and any
    other data does nothing. *)
Theorem buttons_without_message (update : update) (query : callback_query)
    (st : state) (c : Chat) :
  update_callback_query update = Some query ->
  update_message update = None ->
  query_answer query (chat st) = (inr tt, c) ->
  let answered := {| user_sessions := user_sessions st;
                     user_data := user_data st;
                     web := web st; chat := c |} in
  (forall data,
      query_data query = Some data ->
      data ∈ ["help"; "schedule"; "grades"; "homework"] ->
      handle_callback update st
      = (inl (Exn AttributeError
                "'NoneType' object has no attribute 'reply_text'"), answered))
  /\ (forall m,
         query_data query = Some "login" ->
         query_message query = Some m ->
         handle_callback update st
         = in_chat
             (reply_text m
                "🔑 Используйте команду /login для входа в систему."
                None None) answered)
  /\ (forall data,
         query_data query = Some data ->
         data ∉ ["login"; "help"; "schedule"; "grades"; "homework"] ->
         handle_callback update st = (inr tt, answered)).
Proof.
  intros Hq Hm Ha answered.
  assert (forall k : unit -> M state unit,
             bind (in_chat (query_answer query)) k st = k tt answered)
    as Hstart.
  { intros k. unfold bind, in_chat. now rewrite Ha. }
  destruct (commands_without_message update answered Hm)
    as (Hhelp & Hschedule & Hgrades & Hhomework).
  unfold handle_callback. rewrite Hq, Hstart. split; [|split].
  - intros data Hdata Hin. rewrite Hdata.
    repeat (apply elem_of_cons in Hin as [->|Hin]; [cbn; assumption|]).
    now apply elem_of_nil in Hin.
  - intros m Hdata Hmsg. rewrite Hdata. cbn. now rewrite Hmsg.
  - intros data Hdata Hout. rewrite Hdata. unfold is_data.
    assert (forall name,
               name ∈ ["login"; "help"; "schedule"; "grades"; "homework"] ->
               String.eqb data name = false) as Hne.
    { intros name Hin. apply String.eqb_neq. intros ->. now apply Hout. }
    rewrite !Hne; [reflexivity|..];
      repeat (first [apply list_elem_of_here | apply list_elem_of_further]).
Qed.




End Kept.


(** After the login and a look at the schedule, the session of ann is in
    order. *)
Lemma sessions_well_kept_witness :
  let events := [(Life.HandleLogin, BotLab.typed " ann ");
                 (Life.HandlePassword, BotLab.typed "pw");
                 (Life.ScheduleCommand, BotLab.typed "/schedule")] in
  let chat := BotLab.recording (BotLab.site BotLab.accepted) in
  let sessions :=
    Bot.user_sessions (Life.after events (BotLab.started BotLab.accepted)) in
  Life.well_kept sessions
  /\ forall user_id,
       match sessions !! user_id with
       | Some session =>
           Bot._check_authentication (H0 := chat) sessions user_id
           = VBool true
           /\ exists username verdict,
                dict_get "username" session = Some username
                /\ dict_get "auth_data" session = Some verdict
                /\ Bot._get_user_credentials (H0 := chat) sessions user_id
                   = Some (username, verdict)
       | None =>
           Bot._check_authentication (H0 := chat) sessions user_id = VNone
           /\ Bot._get_user_credentials (H0 := chat) sessions user_id = None
       end.
Proof.
  intros events chat.
  apply (sessions_well_kept events (BotLab.started BotLab.accepted)).
  intros user_id session Hl. cbn in Hl. rewrite lookup_empty in Hl.
  discriminate Hl.
Defined.

(** Ann logs in and then out. *)
Lemma logout_clears_witness :
  let st :=
    Life.after [(Life.HandleLogin, BotLab.typed " ann ");
                (Life.HandlePassword, BotLab.typed "pw")]
               (BotLab.started BotLab.accepted) in
  let st' := (Bot.logout_command (BotLab.typed "/logout") st).2 in
  Bot.user_sessions st !! 7 <> None
  /\ Bot.user_sessions st' !! 7 = None
  /\ Bot.user_data st' = Bot.user_data st.
Proof.
  intros st st'.
  split; [vm_compute; discriminate|].
  destruct (Bot.logout_command (BotLab.typed "/logout") st) as [r s] eqn:Hout.
  destruct (logout_clears _ _ _ _ Hout) as (Hgone & _ & Hdata & _).
  subst st'. now split.
Defined.

(** Somebody who has not logged in asks for the schedule. *)
Lemma schedule_guarded_witness :
  let st := BotLab.started BotLab.accepted in
  let outcome := Bot.schedule_command (BotLab.typed "/schedule") st in
  Bot.web outcome.2 = Bot.web st /\ outcome.1 = inr tt.
Proof.
  intros st outcome.
  destruct (schedule_guarded (BotLab.typed "/schedule") st outcome.2 outcome.1)
    as (_ & _ & Hweb & Hreturns).
  - subst outcome.
    now destruct (Bot.schedule_command (BotLab.typed "/schedule") st).
  - split; [now apply Hweb|]. apply Hreturns; [|now eexists].
    intros m text reply_markup parse_mode c. reflexivity.
Defined.

(** The ends of the conversation: a session on the site that accepts,
    none on the site that shows an alert; the password is in neither.  On
    the site that sends back to the login page the client follows the
    redirection, [authenticate] reports a success and a session is
    kept. *)
Example conversation_on_three_sites :
  let conversation :=
    [(Life.HandleLogin, BotLab.typed " ann ");
     (Life.HandlePassword, BotLab.typed " pw ")] in
  let kept :=
    Some [("username", VStr "ann"); ("authenticated", VBool true);
          ("auth_data",
           VDict [("success", VBool true);
                  ("message", VStr "Authentication successful");
                  ("status", VInt 200);
                  ("cookies", VDict [("sessionid", VStr "s3cr3t")])])] in
  Bot.user_sessions
    (Life.after conversation (BotLab.started BotLab.accepted)) !! 7 = kept
  /\ Bot.user_sessions
       (Life.after conversation (BotLab.started BotLab.rejected)) !! 7
     = None
  /\ Bot.user_sessions
       (Life.after conversation (BotLab.started BotLab.sent_back)) !! 7
     = kept.
Proof. repeat split; vm_compute; reflexivity. Qed.

(** Telegram refuses the notice that the data are being checked: the
    handler raises, the site is not called and no session is kept.
    Telegram refuses the message that confirms the login: the user is
    told that an error has occurred, and the session is kept. *)
Example refused_messages :
  let first := BotLab.typed " ann " in
  let second := BotLab.typed "pw" in
  let early := BotLab.started_forgetful 1 BotLab.accepted in
  let late := BotLab.started_forgetful 2 BotLab.accepted in
  let stopped :=
    Bot.handle_password second (Bot.handle_login first early).2 in
  let unconfirmed :=
    Bot.handle_password second (Bot.handle_login first late).2 in
  stopped.1 = inl (Exn OtherException "Timed out")
  /\ Bot.user_sessions stopped.2 !! 7 = None
  /\ Fixture.sent (Bot.web stopped.2) = []
  /\ unconfirmed.1 = inr Bot.END
  /\ (exists session, Bot.user_sessions unconfirmed.2 !! 7 = Some session)
  /\ length (Bot.chat unconfirmed.2) = 4%nat.
Proof.
  intros first second early late stopped unconfirmed.
  split; [vm_compute; reflexivity|]. split; [vm_compute; reflexivity|].
  split; [vm_compute; reflexivity|]. split; [vm_compute; reflexivity|].
  split; [eexists; vm_compute; reflexivity|]. vm_compute. reflexivity.
Qed.

(** Ann, logged in, presses the button of the schedule. *)
Lemma buttons_without_message_witness :
  let st :=
    Life.after [(Life.HandleLogin, BotLab.typed " ann ");
                (Life.HandlePassword, BotLab.typed "pw")]
               (BotLab.started BotLab.accepted) in
  let outcome := Bot.handle_callback (BotLab.pressed "schedule") st in
  outcome.1
  = inl (Exn AttributeError "'NoneType' object has no attribute 'reply_text'")
  /\ Bot.chat outcome.2 = Bot.chat st
  /\ Bot.web outcome.2 = Bot.web st.
Proof.
  intros st outcome. subst outcome.
  rewrite (proj1 (buttons_without_message (BotLab.pressed "schedule")
                    {| Bot.query_data := Some "schedule";
                       Bot.query_message :=
                         Some {| Bot.message_id := 2;
                                 Bot.message_text := None |} |}
                    st (Bot.chat st) eq_refl eq_refl eq_refl)
             "schedule" eq_refl).
  - now repeat split.
  - apply list_elem_of_further, list_elem_of_here.
Defined.


(** ** Where the exceptions come from *)
Section Origins.

Context `{Collaborators}.

Lemma scan_line_raises (line : string) (e : exn) :
  scan_line line = Some (inl e) ->
  exists s, json_loads s = inl e /\ is_ValueError e = false.
Proof.
  unfold scan_line.
  destruct (contains "data" (lower line) || contains "config" (lower line));
    [|discriminate].
  destruct (contains "{" line && contains "}" line); [|discriminate].
  destruct (json_loads _) as [e0|d] eqn:Hj; [|discriminate].
  destruct (is_ValueError e0) eqn:Hv; [discriminate|].
  intros [= <-]. eauto.
Qed.

Lemma scan_lines_raises (lines : list string) (e : exn) :
  scan_lines lines = Some (inl e) ->
  exists s, json_loads s = inl e /\ is_ValueError e = false.
Proof.
  induction lines as [|line rest IH]; [discriminate|]. cbn [scan_lines].
  destruct (scan_line line) as [r|] eqn:Hl; [|exact IH].
  intros [= ->]. now apply scan_line_raises in Hl.
Qed.

Lemma scan_scripts_raises (scripts : list Bs4.node) (e : exn) :
  scan_scripts scripts = Some (inl e) ->
  exists s, json_loads s = inl e /\ is_ValueError e = false.
Proof.
  induction scripts as [|script rest IH]; [discriminate|].
  cbn [scan_scripts].
  destruct (scan_script script) as [r|] eqn:Hs; [|exact IH].
  intros [= ->]. unfold scan_script in Hs.
  destruct (Bs4.string_of script) as [s|]; [|discriminate].
  destruct (truthy s); [|discriminate].
  destruct (_ || _); [|discriminate].
  now apply scan_lines_raises in Hs.
Qed.

Lemma extract_raises (html : string) (e : exn) :
  _extract_json_from_html html = inl e ->
  BeautifulSoup (VStr html) = inl e
  \/ exists s, json_loads s = inl e /\ is_ValueError e = false.
Proof.
  unfold _extract_json_from_html, rbind.
  destruct (BeautifulSoup (VStr html)) as [e0|page];
    [intros [= <-]; now left|].
  destruct (scan_scripts _) as [[e0|d]|] eqn:Hs; try discriminate.
  intros [= <-]. right. now apply scan_scripts_raises in Hs.
Qed.

(** X30.  With errors allowed and a session open, the client raises no
    error of its own: an exception that leaves [_make_request] was raised
    by the join of the endpoint to the base address, before anything was
    sent, or by the transport and is no transport error, or was raised on
    a 200 answer by the decoding of a JSON body, by the parser on the
    markup, or by the JSON decoder on a line of a script and is no value
    error. *)
Theorem allowed_errors_origin (self : t) (c : Client)
    (method endpoint : string) (params : list (string * string))
    (w w' : World) (e : exn) :
  session self = Some c ->
  _make_request self method endpoint true params w = (inl e, w') ->
  is_RequestError e = false
  /\ ((urljoin (base_url self) endpoint = inl e /\ w' = w)
      \/ exists address,
           urljoin (base_url self) endpoint = inr address
           /\ let sent := Request method address params [] [] in
              (client_request c sent w = (inl e, w')
               \/ exists r,
                    client_request c sent w = (inr r, w')
                    /\ status_code r = 200
                    /\ (json r = inl e
                        \/ BeautifulSoup (VStr (text r)) = inl e
                        \/ exists s, json_loads s = inl e
                                     /\ is_ValueError e = false))).
Proof.
  intros Hs Hreq. revert Hreq.
  unfold _make_request. rewrite Hs. unfold bind at 1, lift, _build_url.
  destruct (urljoin (base_url self) endpoint) as [e0|address] eqn:Hjoin.
  { intros [= <- <-]. split; [|now left].
    unfold urljoin in Hjoin.
    destruct (join_address (base_url self) endpoint); [|discriminate].
    now injection Hjoin as <-. }
  unfold try_except, bind.
  set (sent := Request method address params [] []).
  destruct (client_request c sent w) as [[e0|r] w1] eqn:Hsent.
  - destruct (is_RequestError e0) eqn:He0; [discriminate|].
    intros [= <- <-]. split; [exact He0|]. right. exists address.
    split; [reflexivity|]. now left.
  - destruct (status_code r =? 200) eqn:E200; [|discriminate].
    apply Z.eqb_eq in E200.
    destruct (contains "application/json" _).
    + unfold lift. destruct (json r) as [e1|v] eqn:Hj; [|discriminate].
      cbn. destruct (is_RequestError e1) eqn:He1; [discriminate|].
      intros [= <- <-]. split; [exact He1|]. right. exists address.
      split; [reflexivity|]. right. exists r.
      split; [exact Hsent|]. split; [exact E200 | now left].
    + unfold lift.
      destruct (_extract_json_from_html (text r)) as [e1|d] eqn:Hx.
      * cbn. destruct (is_RequestError e1) eqn:He1; [discriminate|].
        intros [= <- <-]. split; [exact He1|]. right. exists address.
        split; [reflexivity|]. right. exists r.
        split; [exact Hsent|]. split; [exact E200|]. right.
        now apply extract_raises.
      * destruct (_ && _); discriminate.
Qed.

End Origins.

(** An endpoint that cannot be joined to the base address: the refusal of
    the join leaves [_make_request], and nothing is sent. *)
Lemma allowed_errors_origin_witness :
  let E := Fixture.page_env Fixture.welcome_html in
  _make_request (H := E) (Fixture.opened E tt) "GET" "//[x" true []
    Fixture.fresh
  = (inl (Exn ValueError "Invalid IPv6 URL"), Fixture.fresh)
  /\ is_RequestError (Exn ValueError "Invalid IPv6 URL") = false
  /\ urljoin (H := E) "https://schools.by" "//[x"
     = inl (Exn ValueError "Invalid IPv6 URL").
Proof.
  intros E.
  assert (Hreq : _make_request (H := E) (Fixture.opened E tt) "GET" "//[x"
                   true [] Fixture.fresh
                 = (inl (Exn ValueError "Invalid IPv6 URL"), Fixture.fresh))
    by reflexivity.
  split; [exact Hreq|].
  destruct (allowed_errors_origin (H := E) (Fixture.opened E tt)
              (Fixture.client E tt) "GET" "//[x" [] Fixture.fresh
              Fixture.fresh (Exn ValueError "Invalid IPv6 URL") eq_refl Hreq)
    as (Hcls & _).
  split; [exact Hcls | reflexivity].
Defined.

(** A transport that fails otherwise than httpx does: its exception
    leaves [_make_request] as it is. *)
Example transport_failure_escapes :
  let E := Fixture.broken_env in
  _make_request (H := E) (Fixture.opened E tt) "GET" "/" true []
    Fixture.fresh
  = (inl (Exn RuntimeError "Event loop is closed"),
     {| Fixture.closed := false;
        Fixture.sent := [Request "GET" "https://schools.by/" [] [] []] |}).
Proof. reflexivity. Qed.
